(** * ComptePose: exposure-timer controller (board v1, ATmega328P)

    Shallow embedding of the main sketch (state machine, time setting,
    beep timers, menu editors) and the properties checked against it.

    Conventions.
    - C integers are [Z] with the conversion to their C type written out:
      [to_int8], [to_uint8], [to_int16], [to_uint16], [to_uint32].
      On the ATmega328P [int] is 16 bits wide.
    - The globals of the sketch are the fields of [ctx]; every function of
      the sketch is a function on [ctx].
    - Collaborators that are only written to (pins, display, tone
      generator) are a log of commands, newest first, in [trace].
    - Collaborators that are read (buttons, encoder, clock) are inputs:
      one [poll] per pass of a loop body. *)

From Stdlib Require Import ZArith List Bool Lia String Ascii.
Import ListNotations.
Local Open Scope Z_scope.

(** ** Fixed-width integers *)

Definition to_uint8 (z : Z) : Z := z mod 256.
Definition to_int8 (z : Z) : Z := (z + 128) mod 256 - 128.
Definition to_uint16 (z : Z) : Z := z mod 65536.
Definition to_int16 (z : Z) : Z := (z + 32768) mod 65536 - 32768.
Definition to_uint32 (z : Z) : Z := z mod 4294967296.

Definition HIGH : bool := true.
Definition LOW : bool := false.

(** ** Pins, addresses and limits *)

Definition SW_VERSION : Z := 200.
Definition SW1 : Z := 4.
Definition SW2 : Z := 5.
Definition OUT : Z := 8.
Definition OUT2 : Z := 7.
Definition brightAdd : Z := 0.
Definition bellTAdd : Z := 1.
Definition bellLAdd : Z := 2.
Definition memAdd : Z := 3.
Definition maxStore : Z := 64.
Definition maxType : Z := 8.
Definition maxTime : Z := 90.

(** ** The soft timer *)

Module Timer.

(** Modelled from the spec: the [Timer] class (Timer.h) is not among the
    sources.  "SoftTimer: { state: Stopped|Running|Paused, startTick,
    delay, repeatMode: Once|Loop|Count(n), elapsedAtPause }".  The tick
    source ([millis]) is the argument [now] of the operations that read
    it. *)
Inductive status : Type := Stopped | Running | Paused.

(** Modelled from the spec: "repeatMode: Once|Loop|Count(n)". *)
Inductive repeat : Type := Once | Loop | Count (n : Z).

(** Modelled from the spec: the fields of a SoftTimer. *)
Record t : Type := mk {
  state : status;
  startTick : Z;
  delay : Z;
  repeatMode : repeat;
  elapsedAtPause : Z
}.

(** Modelled from the spec: "init() resets to Stopped". *)
Definition init (_ : t) : t := mk Stopped 0 0 Once 0.

(** Modelled from the spec: the configured delay, in ticks. *)
Definition setDelay (d : Z) (x : t) : t :=
  mk (state x) (startTick x) d (repeatMode x) (elapsedAtPause x).

(** Modelled from the spec: the delay given as minutes and seconds, in
    ticks of one millisecond. *)
Definition setMinutesSeconds (m s : Z) (x : t) : t :=
  setDelay ((60 * m + s) * 1000) x.

(** Modelled from the spec: "start(repeat = Once) begins counting from the
    current tick, applying the configured delay". *)
Definition start (now : Z) (r : repeat) (x : t) : t :=
  mk Running now (delay x) r 0.

(** Modelled from the spec: "stop() resets to Stopped and discards elapsed
    time". *)
Definition stop (x : t) : t :=
  mk Stopped (startTick x) (delay x) (repeatMode x) 0.

(** Modelled from the spec: "while Running, elapsed = now - startTick +
    elapsedAtPause-at-resume"; while Paused the banked value. *)
Definition elapsed (now : Z) (x : t) : Z :=
  match state x with
  | Stopped => 0
  | Running => now - startTick x + elapsedAtPause x
  | Paused => elapsedAtPause x
  end.

(** Modelled from the spec: "remaining()" is a pure read. *)
Definition remaining (now : Z) (x : t) : Z := delay x - elapsed now x.

(** Modelled from the spec: remaining whole minutes, and remaining seconds
    modulo 60, truncated. *)
Definition getRMinutes (now : Z) (x : t) : Z := remaining now x / 60000.
Definition getRSecondsM (now : Z) (x : t) : Z := (remaining now x / 1000) mod 60.

(** Modelled from the spec: "pause() freezes elapsed time (captures
    elapsedAtPause) without losing it"; "transitioning back to Running picks
    up the banked elapsedAtPause".  The sketch calls [pause()] both on
    entering and on leaving PAUSE, so the operation toggles. *)
Definition pause (now : Z) (x : t) : t :=
  match state x with
  | Stopped => x
  | Running => mk Paused (startTick x) (delay x) (repeatMode x) (elapsed now x)
  | Paused => mk Running now (delay x) (repeatMode x) (elapsedAtPause x)
  end.

(** Modelled from the spec: the restart of a repeating timer, "with no
    drift relative to the first start tick". *)
Definition restart (r : repeat) (x : t) : t :=
  mk Running (startTick x + delay x) (delay x) r (elapsedAtPause x).

(** Modelled from the spec: "update() performs the expiry check and returns
    true exactly once per expiry event; on Loop mode it auto-restarts before
    returning true; on Count(n) mode it decrements an internal counter and
    transitions to Stopped once exhausted, still signalling true on the
    final expiry"; "calling update() while Paused never advances". *)
Definition update (now : Z) (x : t) : bool * t :=
  match state x with
  | Running =>
      if delay x <=? elapsed now x then
        match repeatMode x with
        | Once => (true, stop x)
        | Loop => (true, restart Loop x)
        | Count n => if n <=? 1 then (true, stop x)
                     else (true, restart (Count (n - 1)) x)
        end
      else (false, x)
  | _ => (false, x)
  end.

End Timer.

(** ** Commands sent to the write-only collaborators *)

Inductive io : Type :=
| PinMode (pin : Z) (output : bool)
| DigitalWrite (pin : Z) (level : bool)
| Delay (ms : Z)
| LedBegin
| LedClrAll
| LedSetText (s : string)
| LedSetDigit (digit value : Z)
| LedSetChar (digit : Z) (ch : ascii)
| LedSetIntensity (value : Z)
| EncoderBegin
| ButtonBegin (pin : Z)
| ClockBegin
| ClockSetMinutes (value : Z)
| ClockSetSeconds (value : Z)
| ClockSetDots (on : bool)
| ClockEnable (on : bool)
| ClockUpdate
| BeepSetup
| BeepOn
| BeepOff.

(** ** Controller states *)

Inductive state_t : Type := SETTING | RUN | PAUSE | BEEPING | MENU.

Definition MEM_RECALL : Z := 0.
Definition MEM_STORE : Z := 1.
Definition BRIGHTNESS : Z := 2.
Definition SOUND_TYPE : Z := 3.
Definition SOUND_LENGTH : Z := 4.

(** ** The globals of the sketch *)

Record ctx : Type := mkCtx {
  state : state_t;
  menuState : Z;
  enable : bool;
  minutes : Z;
  seconds : Z;
  duration : Z;
  brightness : Z;
  bellType : Z;
  bellLength : Z;
  bellLoops : Z;
  counter : Z;
  currentMem : Z;
  timerMain : Timer.t;
  timerDots : Timer.t;
  timerPause : Timer.t;
  timerBeep1 : Timer.t;
  timerBeep2 : Timer.t;
  timerBeep3 : Timer.t;
  eeprom : Z -> Z;
  trace : list io
}.

Definition set_state (v : state_t) (c : ctx) : ctx :=
  mkCtx v (menuState c) (enable c) (minutes c) (seconds c) (duration c)
    (brightness c) (bellType c) (bellLength c) (bellLoops c) (counter c)
    (currentMem c) (timerMain c) (timerDots c) (timerPause c) (timerBeep1 c)
    (timerBeep2 c) (timerBeep3 c) (eeprom c) (trace c).

Definition set_menuState (v : Z) (c : ctx) : ctx :=
  mkCtx (state c) v (enable c) (minutes c) (seconds c) (duration c)
    (brightness c) (bellType c) (bellLength c) (bellLoops c) (counter c)
    (currentMem c) (timerMain c) (timerDots c) (timerPause c) (timerBeep1 c)
    (timerBeep2 c) (timerBeep3 c) (eeprom c) (trace c).

Definition set_enable (v : bool) (c : ctx) : ctx :=
  mkCtx (state c) (menuState c) v (minutes c) (seconds c) (duration c)
    (brightness c) (bellType c) (bellLength c) (bellLoops c) (counter c)
    (currentMem c) (timerMain c) (timerDots c) (timerPause c) (timerBeep1 c)
    (timerBeep2 c) (timerBeep3 c) (eeprom c) (trace c).

Definition set_minutes (v : Z) (c : ctx) : ctx :=
  mkCtx (state c) (menuState c) (enable c) v (seconds c) (duration c)
    (brightness c) (bellType c) (bellLength c) (bellLoops c) (counter c)
    (currentMem c) (timerMain c) (timerDots c) (timerPause c) (timerBeep1 c)
    (timerBeep2 c) (timerBeep3 c) (eeprom c) (trace c).

Definition set_seconds (v : Z) (c : ctx) : ctx :=
  mkCtx (state c) (menuState c) (enable c) (minutes c) v (duration c)
    (brightness c) (bellType c) (bellLength c) (bellLoops c) (counter c)
    (currentMem c) (timerMain c) (timerDots c) (timerPause c) (timerBeep1 c)
    (timerBeep2 c) (timerBeep3 c) (eeprom c) (trace c).

Definition set_duration (v : Z) (c : ctx) : ctx :=
  mkCtx (state c) (menuState c) (enable c) (minutes c) (seconds c) v
    (brightness c) (bellType c) (bellLength c) (bellLoops c) (counter c)
    (currentMem c) (timerMain c) (timerDots c) (timerPause c) (timerBeep1 c)
    (timerBeep2 c) (timerBeep3 c) (eeprom c) (trace c).

Definition set_brightness (v : Z) (c : ctx) : ctx :=
  mkCtx (state c) (menuState c) (enable c) (minutes c) (seconds c)
    (duration c) v (bellType c) (bellLength c) (bellLoops c) (counter c)
    (currentMem c) (timerMain c) (timerDots c) (timerPause c) (timerBeep1 c)
    (timerBeep2 c) (timerBeep3 c) (eeprom c) (trace c).

Definition set_bellType (v : Z) (c : ctx) : ctx :=
  mkCtx (state c) (menuState c) (enable c) (minutes c) (seconds c)
    (duration c) (brightness c) v (bellLength c) (bellLoops c) (counter c)
    (currentMem c) (timerMain c) (timerDots c) (timerPause c) (timerBeep1 c)
    (timerBeep2 c) (timerBeep3 c) (eeprom c) (trace c).

Definition set_bellLength (v : Z) (c : ctx) : ctx :=
  mkCtx (state c) (menuState c) (enable c) (minutes c) (seconds c)
    (duration c) (brightness c) (bellType c) v (bellLoops c) (counter c)
    (currentMem c) (timerMain c) (timerDots c) (timerPause c) (timerBeep1 c)
    (timerBeep2 c) (timerBeep3 c) (eeprom c) (trace c).

Definition set_bellLoops (v : Z) (c : ctx) : ctx :=
  mkCtx (state c) (menuState c) (enable c) (minutes c) (seconds c)
    (duration c) (brightness c) (bellType c) (bellLength c) v (counter c)
    (currentMem c) (timerMain c) (timerDots c) (timerPause c) (timerBeep1 c)
    (timerBeep2 c) (timerBeep3 c) (eeprom c) (trace c).

Definition set_counter (v : Z) (c : ctx) : ctx :=
  mkCtx (state c) (menuState c) (enable c) (minutes c) (seconds c)
    (duration c) (brightness c) (bellType c) (bellLength c) (bellLoops c) v
    (currentMem c) (timerMain c) (timerDots c) (timerPause c) (timerBeep1 c)
    (timerBeep2 c) (timerBeep3 c) (eeprom c) (trace c).

Definition set_currentMem (v : Z) (c : ctx) : ctx :=
  mkCtx (state c) (menuState c) (enable c) (minutes c) (seconds c)
    (duration c) (brightness c) (bellType c) (bellLength c) (bellLoops c)
    (counter c) v (timerMain c) (timerDots c) (timerPause c) (timerBeep1 c)
    (timerBeep2 c) (timerBeep3 c) (eeprom c) (trace c).

Definition set_timerMain (v : Timer.t) (c : ctx) : ctx :=
  mkCtx (state c) (menuState c) (enable c) (minutes c) (seconds c)
    (duration c) (brightness c) (bellType c) (bellLength c) (bellLoops c)
    (counter c) (currentMem c) v (timerDots c) (timerPause c) (timerBeep1 c)
    (timerBeep2 c) (timerBeep3 c) (eeprom c) (trace c).

Definition set_timerDots (v : Timer.t) (c : ctx) : ctx :=
  mkCtx (state c) (menuState c) (enable c) (minutes c) (seconds c)
    (duration c) (brightness c) (bellType c) (bellLength c) (bellLoops c)
    (counter c) (currentMem c) (timerMain c) v (timerPause c) (timerBeep1 c)
    (timerBeep2 c) (timerBeep3 c) (eeprom c) (trace c).

Definition set_timerPause (v : Timer.t) (c : ctx) : ctx :=
  mkCtx (state c) (menuState c) (enable c) (minutes c) (seconds c)
    (duration c) (brightness c) (bellType c) (bellLength c) (bellLoops c)
    (counter c) (currentMem c) (timerMain c) (timerDots c) v (timerBeep1 c)
    (timerBeep2 c) (timerBeep3 c) (eeprom c) (trace c).

Definition set_timerBeep1 (v : Timer.t) (c : ctx) : ctx :=
  mkCtx (state c) (menuState c) (enable c) (minutes c) (seconds c)
    (duration c) (brightness c) (bellType c) (bellLength c) (bellLoops c)
    (counter c) (currentMem c) (timerMain c) (timerDots c) (timerPause c) v
    (timerBeep2 c) (timerBeep3 c) (eeprom c) (trace c).

Definition set_timerBeep2 (v : Timer.t) (c : ctx) : ctx :=
  mkCtx (state c) (menuState c) (enable c) (minutes c) (seconds c)
    (duration c) (brightness c) (bellType c) (bellLength c) (bellLoops c)
    (counter c) (currentMem c) (timerMain c) (timerDots c) (timerPause c)
    (timerBeep1 c) v (timerBeep3 c) (eeprom c) (trace c).

Definition set_timerBeep3 (v : Timer.t) (c : ctx) : ctx :=
  mkCtx (state c) (menuState c) (enable c) (minutes c) (seconds c)
    (duration c) (brightness c) (bellType c) (bellLength c) (bellLoops c)
    (counter c) (currentMem c) (timerMain c) (timerDots c) (timerPause c)
    (timerBeep1 c) (timerBeep2 c) v (eeprom c) (trace c).

Definition set_eeprom (v : Z -> Z) (c : ctx) : ctx :=
  mkCtx (state c) (menuState c) (enable c) (minutes c) (seconds c)
    (duration c) (brightness c) (bellType c) (bellLength c) (bellLoops c)
    (counter c) (currentMem c) (timerMain c) (timerDots c) (timerPause c)
    (timerBeep1 c) (timerBeep2 c) (timerBeep3 c) v (trace c).

Definition set_trace (v : list io) (c : ctx) : ctx :=
  mkCtx (state c) (menuState c) (enable c) (minutes c) (seconds c)
    (duration c) (brightness c) (bellType c) (bellLength c) (bellLoops c)
    (counter c) (currentMem c) (timerMain c) (timerDots c) (timerPause c)
    (timerBeep1 c) (timerBeep2 c) (timerBeep3 c) (eeprom c) v.

(** ** Inputs *)

(** What a [PushButton] reports on one poll: the result of [update()], and
    of the two queries made after it. *)
Record button : Type := mkButton {
  update : bool;
  isLongPressed : bool;
  justPressed : bool
}.

(** The readings of one pass of a loop body: the tick count, both buttons,
    and the encoder ([Some step] when [encoder.update()] is true and
    [getStep()] returns [step]).  [encoder_sw1] is the encoder reading made
    from the default branch of [manageSW1], which precedes the one of the
    state dispatch in the same pass. *)
Record poll : Type := mkPoll {
  now : Z;
  sw1 : button;
  sw2 : button;
  encoder : option Z;
  encoder_sw1 : option Z
}.

(** One pass of the menu loop, with the readings of the passes of the item
    editor it may open. *)
Record menu_poll : Type := mkMenuPoll {
  pass : poll;
  editor : list poll
}.

(** One pass of [loop()], with the readings consumed by the menu when it is
    entered from [manageSW2] or from the state dispatch. *)
Record loop_input : Type := mkLoopInput {
  top : poll;
  menu_sw2 : list menu_poll;
  menu_dispatch : list menu_poll
}.

(** ** Collaborator commands *)

Definition emit (e : io) (c : ctx) : ctx := set_trace (e :: trace c) c.

Definition digitalWrite (pin : Z) (level : bool) : ctx -> ctx :=
  emit (DigitalWrite pin level).

Definition beepSetup (c : ctx) : ctx := emit BeepSetup (set_counter 8000 c).
Definition beepOn : ctx -> ctx := emit BeepOn.
Definition beepOff : ctx -> ctx := emit BeepOff.

(** [EEPROM.read] returns a byte; [EEPROM.write] stores one. [EEPROM.update]
    writes only when the stored byte differs, leaving the same content. *)
Definition EEPROM_read (addr : Z) (c : ctx) : Z := to_uint8 (eeprom c addr).

Definition EEPROM_write (addr value : Z) (c : ctx) : ctx :=
  set_eeprom (fun a => if a =? addr then to_uint8 value else eeprom c a) c.

Definition EEPROM_update (addr value : Z) (c : ctx) : ctx :=
  if EEPROM_read addr c =? to_uint8 value then c else EEPROM_write addr value c.

(** What the log says about the devices. *)

Fixpoint pin_level (pin : Z) (tr : list io) : option bool :=
  match tr with
  | [] => None
  | DigitalWrite q v :: tr' => if q =? pin then Some v else pin_level pin tr'
  | _ :: tr' => pin_level pin tr'
  end.

Fixpoint shown_minutes (tr : list io) : option Z :=
  match tr with
  | [] => None
  | ClockSetMinutes v :: _ => Some v
  | _ :: tr' => shown_minutes tr'
  end.

Fixpoint shown_seconds (tr : list io) : option Z :=
  match tr with
  | [] => None
  | ClockSetSeconds v :: _ => Some v
  | _ :: tr' => shown_seconds tr'
  end.

Fixpoint beep_is_on (tr : list io) : bool :=
  match tr with
  | [] => false
  | BeepOn :: _ => true
  | BeepOff :: _ => false
  | _ :: tr' => beep_is_on tr'
  end.

(** The relay is wired active-low: it is driven while OUT is LOW. *)
Definition relay_on (c : ctx) : bool :=
  match pin_level OUT (trace c) with
  | Some false => true
  | _ => false
  end.

(** ** Time setting *)

(* Set minutes. Called by setSeconds. Min is 00:00, Max is 99:59 *)
Definition setMinutes (value : Z) (c : ctx) : bool * ctx :=
  let c := set_minutes (to_int8 (minutes c + value)) c in
  if 99 <=? minutes c then (false, set_minutes 99 c)
  else if minutes c <? 0 then (false, set_minutes 0 c)
  else (true, emit (ClockSetMinutes (minutes c)) c).

Definition setSeconds (value : Z) (c : ctx) : ctx :=
  let c := set_seconds (to_int8 (seconds c + value)) c in
  let c :=
    if 60 <=? seconds c then
      let (ok, c) := setMinutes 1 c in
      if ok then set_seconds (to_int8 (Z.rem (seconds c) 60)) c
      else set_seconds 59 c
    else if seconds c <? 0 then
      let (ok, c) := setMinutes (-1) c in
      if ok then set_seconds (to_int8 (seconds c + 60)) c
      else set_seconds 0 c
    else c in
  emit (ClockSetSeconds (seconds c)) c.

(* Timer setter. Called when encoder is moved. The argument of setSeconds
   is an int8_t: the product, taken in int, is narrowed on the call. *)
Definition setTime (value : Z) (c : ctx) : ctx :=
  let c :=
    if 600 <=? duration c then setSeconds (to_int8 (value * 30)) c
    else if 300 <=? duration c then setSeconds (to_int8 (value * 15)) c
    else if 120 <=? duration c then setSeconds (to_int8 (value * 10)) c
    else if 30 <=? duration c then setSeconds (to_int8 (value * 5)) c
    else setSeconds (to_int8 value) c in
  set_duration (to_int16 (60 * minutes c + seconds c)) c.

(* Manage SETTING state: read the encoder and adapt time duration.
   The argument is the encoder reading of this pass. *)
Definition setting (enc : option Z) (c : ctx) : ctx :=
  let c := match enc with
           | Some step => setTime (to_int8 step) c
           | None => c
           end in
  emit ClockUpdate c.

(** ** Beep timers *)

Definition beep_delays (type : Z) : Z * Z * Z :=
  match type with
  | 0 => (100, 90, 0)
  | 1 => (1000, 500, 0)
  | 2 => (500, 250, 0)
  | 3 => (100, 50, 0)
  | 4 => (1000, 900, 0)
  | 5 => (500, 450, 0)
  | 6 => (2000, 1500, 0)
  | 7 => (1000, 50, 0)
  | 8 => (500, 40, 0)
  | _ => (1000, 500, 0)
  end.

(* Set the three timers used by the beep.  [bellLength * 1000] is an int
   product (16 bits on the ATmega328P; on overflow the low 16 bits are
   kept, as avr-gcc computes it), converted to uint32_t after it is formed;
   the quotient is stored in the uint16_t [bellLoops]; [bellLoops * delay1]
   is a product of two uint16_t. *)
Definition setBeepTimers (type : Z) (c : ctx) : ctx :=
  let '(delay1, delay2, _) := beep_delays type in
  let c := set_timerBeep1 (Timer.setDelay delay1 (timerBeep1 c)) c in
  let c := set_timerBeep2 (Timer.setDelay delay2 (timerBeep2 c)) c in
  let c := set_bellLoops
             (to_uint16 (to_uint32 (to_int16 (bellLength c * 1000)) / delay1)) c in
  set_timerBeep3
    (Timer.setDelay (to_uint16 (bellLoops c * delay1)) (timerBeep3 c)) c.

(** ** State handlers *)

(* Manage countdown end or manual stop. *)
Definition stop (c : ctx) : ctx :=
  let c := digitalWrite OUT HIGH c in
  let c := digitalWrite OUT2 HIGH c in
  let c := set_timerMain (Timer.stop (timerMain c)) c in
  let c := set_timerDots (Timer.stop (timerDots c)) c in
  let c := emit (ClockEnable true) c in
  let c := emit (ClockSetDots true) c in
  let c := emit (ClockSetMinutes (minutes c)) c in
  emit (ClockSetSeconds (seconds c)) c.

Definition stopBeepTimers (c : ctx) : ctx :=
  let c := set_timerBeep1 (Timer.stop (timerBeep1 c)) c in
  let c := set_timerBeep2 (Timer.stop (timerBeep2 c)) c in
  set_timerBeep3 (Timer.stop (timerBeep3 c)) c.

(* Make the beep beeps. *)
Definition beeping (p : poll) (c : ctx) : ctx :=
  let (fired1, t1) := Timer.update (now p) (timerBeep1 c) in
  let c := set_timerBeep1 t1 c in
  let c := if fired1
           then beepOn (set_timerBeep2
                          (Timer.start (now p) Timer.Once (timerBeep2 c)) c)
           else c in
  let (fired2, t2) := Timer.update (now p) (timerBeep2 c) in
  let c := set_timerBeep2 t2 c in
  let c := if fired2 then beepOff c else c in
  let (fired3, t3) := Timer.update (now p) (timerBeep3 c) in
  let c := set_timerBeep3 t3 c in
  if fired3 then
    let c := set_state SETTING c in
    let c := set_timerBeep3 (Timer.stop (timerBeep3 c)) c in
    let c := set_timerBeep2 (Timer.stop (timerBeep2 c)) c in
    let c := set_timerBeep1 (Timer.stop (timerBeep1 c)) c in
    stop (beepOff c)
  else c.

(* Manage RUN state: blink the dots, show the remaining time, and call stop
   when the delay has elapsed. *)
Definition running (p : poll) (c : ctx) : ctx :=
  let (blink, td) := Timer.update (now p) (timerDots c) in
  let c := set_timerDots td c in
  let c := if blink
           then let c := set_enable (negb (enable c)) c in
                emit (ClockSetDots (enable c)) c
           else c in
  let c := emit (ClockSetMinutes (Timer.getRMinutes (now p) (timerMain c))) c in
  let c := emit (ClockSetSeconds (Timer.getRSecondsM (now p) (timerMain c))) c in
  let c := emit ClockUpdate c in
  let (elapsed, tm) := Timer.update (now p) (timerMain c) in
  let c := set_timerMain tm c in
  if elapsed then
    let c :=
      if 0 <? bellLength c then
        let c := set_timerBeep1
                   (Timer.start (now p) (Timer.Count (bellLoops c))
                      (timerBeep1 c)) c in
        let c := set_timerBeep2
                   (Timer.start (now p) Timer.Once (timerBeep2 c)) c in
        let c := set_timerBeep3
                   (Timer.start (now p) Timer.Once (timerBeep3 c)) c in
        set_state BEEPING (beepOn c)
      else set_state SETTING c in
    stop c
  else c.

(* Pause state management: blink the whole display. *)
Definition pause (p : poll) (c : ctx) : ctx :=
  let c := set_timerMain (snd (Timer.update (now p) (timerMain c))) c in
  let (blink, tp) := Timer.update (now p) (timerPause c) in
  let c := set_timerPause tp c in
  let c := if blink
           then let c := set_enable (negb (enable c)) c in
                emit (ClockEnable (enable c)) c
           else c in
  emit ClockUpdate c.

(* Push button manager, run when sw1.update() is true. *)
Definition manageSW1 (p : poll) (c : ctx) : ctx :=
  match state c with
  | BEEPING => set_state SETTING (beepOff (stopBeepTimers c))
  | _ =>
      if isLongPressed (sw1 p) then set_state SETTING (stop c)
      else if justPressed (sw1 p) then
        match state c with
        | SETTING =>
            let c := set_state RUN c in
            let c := emit (ClockSetMinutes (minutes c)) c in
            let c := emit (ClockSetSeconds (seconds c)) c in
            let c := set_timerMain
                       (Timer.setMinutesSeconds (minutes c) (seconds c)
                          (timerMain c)) c in
            let c := digitalWrite OUT LOW c in
            let c := digitalWrite OUT2 LOW c in
            let c := set_timerMain
                       (Timer.start (now p) Timer.Once (timerMain c)) c in
            set_timerDots (Timer.start (now p) Timer.Loop (timerDots c)) c
        | RUN =>
            let c := set_timerMain (Timer.pause (now p) (timerMain c)) c in
            let c := set_timerDots (Timer.pause (now p) (timerDots c)) c in
            let c := set_enable LOW c in
            let c := emit (ClockEnable (enable c)) c in
            let c := set_timerPause
                       (Timer.start (now p) Timer.Loop (timerPause c)) c in
            let c := digitalWrite OUT HIGH c in
            let c := digitalWrite OUT2 HIGH c in
            set_state PAUSE c
        | PAUSE =>
            let c := set_timerMain (Timer.pause (now p) (timerMain c)) c in
            let c := set_timerDots (Timer.pause (now p) (timerDots c)) c in
            let c := set_timerPause (Timer.stop (timerPause c)) c in
            let c := set_enable HIGH c in
            let c := digitalWrite OUT LOW c in
            let c := digitalWrite OUT2 LOW c in
            let c := set_state RUN c in
            emit (ClockEnable true) c
        | _ => setting (encoder_sw1 p) c
        end
      else c
  end.

Definition state_eqb (a b : state_t) : bool :=
  match a, b with
  | SETTING, SETTING | RUN, RUN | PAUSE, PAUSE
  | BEEPING, BEEPING | MENU, MENU => true
  | _, _ => false
  end.

(** ** Menu item editors

    Each editor is a [for(;;)] loop; one step of the recursion is one pass
    of its body, fed with one [poll].  [None] means that the readings ran
    out while the loop was still waiting for a button. *)

(* mem += encoder.getStep(); if(mem < 1) mem = 1; if(mem > maxStore) mem = maxStore; *)
Definition turn_mem (mem : Z) (enc : option Z) : Z :=
  match enc with
  | Some step =>
      let mem := to_uint8 (mem + step) in
      let mem := if mem <? 1 then 1 else mem in
      if maxStore <? mem then maxStore else mem
  | None => mem
  end.

Definition show_mem (text : string) (mem : Z) (c : ctx) : ctx :=
  let c := emit (LedSetText text) c in
  let c := emit (LedSetDigit 3 (mem mod 10)) c in
  emit (LedSetDigit 2 (mem / 10)) c.

(* Store a time in eeprom *)
Fixpoint storeTime_loop (mem : Z) (ps : list poll) (c : ctx) : option ctx :=
  match ps with
  | [] => None
  | p :: ps' =>
      let mem := turn_mem mem (encoder p) in
      let c := show_mem "-M" mem c in
      if justPressed (sw1 p) then
        let c := set_currentMem mem c in
        let c := EEPROM_update (memAdd + 2 * mem) (minutes c) c in
        Some (EEPROM_update (memAdd + 2 * mem + 1) (seconds c) c)
      else if justPressed (sw2 p) then Some c
      else storeTime_loop mem ps' c
  end.

Definition storeTime (ps : list poll) (c : ctx) : option ctx :=
  storeTime_loop (currentMem c) ps (emit LedClrAll c).

(* Get a stored time from eeprom *)
Fixpoint recallTime_loop (mem : Z) (ps : list poll) (c : ctx) : option ctx :=
  match ps with
  | [] => None
  | p :: ps' =>
      let mem := turn_mem mem (encoder p) in
      let c := show_mem "M-" mem c in
      if justPressed (sw1 p) then
        let c := set_currentMem mem c in
        let c := set_minutes (to_int8 (EEPROM_read (memAdd + 2 * mem) c)) c in
        let c := set_seconds (to_int8 (EEPROM_read (memAdd + 2 * mem + 1) c)) c in
        let c := emit (ClockSetSeconds (seconds c)) c in
        let c := emit (ClockSetMinutes (minutes c)) c in
        Some (set_state SETTING c)
      else if justPressed (sw2 p) then Some c
      else recallTime_loop mem ps' c
  end.

Definition recallTime (ps : list poll) (c : ctx) : option ctx :=
  recallTime_loop (currentMem c) ps (emit LedClrAll c).

(* tempBrightness += encoder.getStep(); clamp to 1..16 *)
Definition turn_brightness (b : Z) (enc : option Z) : Z :=
  match enc with
  | Some step =>
      let b := to_uint8 (b + step) in
      let b := if b <? 1 then 1 else b in
      if 16 <? b then 16 else b
  | None => b
  end.

(* Set display brightness *)
Fixpoint setBrightness_loop (temp : Z) (ps : list poll) (c : ctx) : option ctx :=
  match ps with
  | [] => None
  | p :: ps' =>
      let temp := turn_brightness temp (encoder p) in
      let c := emit (LedSetChar 0 "L") c in
      let c := emit (LedSetDigit 3 (temp mod 10)) c in
      let c := emit (LedSetDigit 2 (temp / 10)) c in
      let c := emit (LedSetIntensity (temp - 1)) c in
      if justPressed (sw1 p) then
        let c := set_brightness temp c in
        Some (EEPROM_update brightAdd (brightness c) c)
      else if justPressed (sw2 p) then Some c
      else setBrightness_loop temp ps' c
  end.

Definition setBrightness (ps : list poll) (c : ctx) : option ctx :=
  match setBrightness_loop (brightness c) ps (emit LedClrAll c) with
  | Some c => Some (emit (LedSetIntensity (brightness c - 1)) c)
  | None => None
  end.

(* if(getStep() > 0){ if(++v > top) v = top; } else { if(v > 0) --v; } *)
Definition turn_bell (top v step : Z) : Z :=
  if 0 <? step then
    let v := to_uint8 (v + 1) in
    if top <? v then top else v
  else
    if 0 <? v then to_uint8 (v - 1) else v.

(* Set the bell type *)
Fixpoint setBellType_loop (type : Z) (ps : list poll) (c : ctx) : option ctx :=
  match ps with
  | [] => None
  | p :: ps' =>
      let type := match encoder p with
                  | Some step => turn_bell maxType type step
                  | None => type
                  end in
      let c := match encoder p with
               | Some _ => emit (LedSetDigit 3 type) (emit (LedSetText "BT") c)
               | None => c
               end in
      if justPressed (sw1 p) then
        let c := set_bellType type c in
        let c := EEPROM_update bellTAdd type c in
        Some (setBeepTimers (to_int8 (bellType c)) c)
      else if justPressed (sw2 p) then Some c
      else setBellType_loop type ps' c
  end.

Definition setBellType (ps : list poll) (c : ctx) : option ctx :=
  let c := emit LedClrAll c in
  let c := emit (LedSetText "BT") c in
  let c := emit (LedSetDigit 3 (bellType c)) c in
  setBellType_loop (bellType c) ps c.

(* Set the bell length *)
Fixpoint setBellLength_loop (length : Z) (ps : list poll) (c : ctx) : option ctx :=
  match ps with
  | [] => None
  | p :: ps' =>
      let length := match encoder p with
                    | Some step => turn_bell maxTime length step
                    | None => length
                    end in
      let c := match encoder p with
               | Some _ => show_mem "BL" length c
               | None => c
               end in
      if justPressed (sw1 p) then
        let c := set_bellLength length c in
        let c := EEPROM_update bellLAdd length c in
        Some (setBeepTimers (to_int8 (bellType c)) c)
      else if justPressed (sw2 p) then Some c
      else setBellLength_loop length ps' c
  end.

Definition setBellLength (ps : list poll) (c : ctx) : option ctx :=
  let c := emit LedClrAll c in
  setBellLength_loop (bellLength c) ps (show_mem "BL" (bellLength c) c).

(** ** Menu navigation *)

(* The item shown for [menuState], and its editor when the item is clicked. *)
Definition menuItem (menuClicked : bool) (ps : list poll) (c : ctx) : option ctx :=
  match menuState c with
  | 1 (* MEM_STORE *) =>
      let c := emit (LedSetText "-MEM") c in
      if menuClicked then storeTime ps c else Some c
  | 0 (* MEM_RECALL *) =>
      let c := emit (LedSetText "MEM-") c in
      if menuClicked then recallTime ps c else Some c
  | 2 (* BRIGHTNESS *) =>
      let c := emit (LedSetText "LUM") c in
      if menuClicked then setBrightness ps c else Some c
  | 3 (* SOUND_TYPE *) =>
      let c := emit (LedSetText "BL T") c in
      if menuClicked then setBellType ps c else Some c
  | 4 (* SOUND_LENGTH *) =>
      let c := emit (LedSetText "BL L") c in
      if menuClicked then setBellLength ps c else Some c
  | _ => Some c
  end.

(* The do-while loop of menuNaviguate: one step per pass. *)
Fixpoint menuNaviguate_loop (ms : list menu_poll) (c : ctx) : option ctx :=
  match ms with
  | [] => None
  | m :: ms' =>
      let p := pass m in
      let c :=
        match encoder p with
        | Some s =>
            let step := to_int8 s in
            let c := if (0 <? step) && (menuState c <? SOUND_LENGTH)
                     then set_menuState (to_uint8 (menuState c + 1)) c else c in
            if (step <? 0) && (0 <? menuState c)
            then set_menuState (to_uint8 (menuState c - 1)) c else c
        | None => c
        end in
      let menuClicked := update (sw1 p) && justPressed (sw1 p) in
      let c := if update (sw2 p) && justPressed (sw2 p)
               then set_state SETTING c else c in
      let c := emit LedClrAll c in
      match menuItem menuClicked (editor m) c with
      | None => None
      | Some c =>
          match state c with
          | MENU => menuNaviguate_loop ms' c
          | _ => Some c
          end
      end
  end.

(* Display the main menu items *)
Definition menuNaviguate (ms : list menu_poll) (c : ctx) : option ctx :=
  match menuNaviguate_loop ms c with
  | Some c => Some (stop (emit (ClockSetDots true) (emit LedClrAll c)))
  | None => None
  end.

(* Manage switch 2 (encoder button), run when sw2.update() is true. *)
Definition manageSW2 (p : poll) (ms : list menu_poll) (c : ctx) : option ctx :=
  match state c with
  | BEEPING => Some (set_state SETTING (beepOff (stopBeepTimers c)))
  | _ =>
      if justPressed (sw2 p) && state_eqb (state c) SETTING then
        menuNaviguate ms (emit LedClrAll (set_state MENU c))
      else if isLongPressed (sw2 p)
              && (state_eqb (state c) RUN || state_eqb (state c) PAUSE) then
        Some (set_state SETTING (stop c))
      else Some c
  end.

(** ** Main loop *)

(* Main loop: read buttons, dispatch to state function *)
Definition loop (i : loop_input) (c : ctx) : option ctx :=
  let p := top i in
  let c := if update (sw1 p) then manageSW1 p c else c in
  match (if update (sw2 p) then manageSW2 p (menu_sw2 i) c else Some c) with
  | None => None
  | Some c =>
      match state c with
      | SETTING => Some (setting (encoder p) c)
      | RUN => Some (running p c)
      | PAUSE => Some (pause p c)
      | BEEPING => Some (beeping p c)
      | MENU => menuNaviguate (menu_dispatch i) c
      end
  end.

(** ** Start-up *)

(* init the EEPROM values. Only used on first run. *)
Fixpoint eepromInit_loop (n : nat) (i : Z) (c : ctx) : ctx :=
  match n with
  | O => c
  | S n' =>
      let c := EEPROM_write (memAdd + i) 0 c in
      let c := EEPROM_write (memAdd + i + 1) 0 c in
      eepromInit_loop n' (i + 1) c
  end.

Definition eepromInit (c : ctx) : ctx :=
  let c := EEPROM_write brightAdd 8 c in
  let c := EEPROM_write bellTAdd 1 c in
  let c := EEPROM_write bellLAdd 5 c in
  eepromInit_loop (Z.to_nat maxStore) 0 c.

Fixpoint showVersion (n : nat) (i version : Z) (c : ctx) : ctx :=
  match n with
  | O => c
  | S n' =>
      showVersion n' (i + 1) (version / 10)
        (emit (LedSetDigit (3 - i) (version mod 10)) c)
  end.

(** The globals as their initialisers leave them, over a given EEPROM
    content. *)
Definition power_on (rom : Z -> Z) : ctx :=
  let tm := Timer.mk Timer.Stopped 0 0 Timer.Once 0 in
  mkCtx SETTING MEM_RECALL LOW 0 0 0 16 0 0 0 0 1 tm tm tm tm tm tm rom [].

(* Start compte pose.  [pinSW1] and [pinSW2] are the levels read on the
   two button pins. *)
Definition setup (pinSW1 pinSW2 : bool) (c : ctx) : ctx :=
  let c := set_timerMain (Timer.init (timerMain c)) c in
  let c := set_timerDots (Timer.init (timerDots c)) c in
  let c := set_timerPause (Timer.init (timerPause c)) c in
  let c := set_timerBeep1 (Timer.init (timerBeep1 c)) c in
  let c := set_timerBeep2 (Timer.init (timerBeep2 c)) c in
  let c := set_timerBeep3 (Timer.init (timerBeep3 c)) c in
  let c := set_timerDots (Timer.setDelay 500 (timerDots c)) c in
  let c := set_timerPause (Timer.setDelay 500 (timerPause c)) c in
  let c := set_brightness (EEPROM_read brightAdd c) c in
  let c := set_bellType (EEPROM_read bellTAdd c) c in
  let c := set_bellLength (EEPROM_read bellLAdd c) c in
  let c := setBeepTimers (to_int8 (bellType c)) c in
  let c := emit LedBegin c in
  let c := emit (LedSetIntensity (brightness c - 1)) c in
  let c := emit EncoderBegin c in
  let c := emit (ButtonBegin SW1) c in
  let c := emit (ButtonBegin SW2) c in
  let c := emit (PinMode OUT true) c in
  let c := digitalWrite OUT HIGH c in
  let c := emit (PinMode OUT2 true) c in
  let c := digitalWrite OUT2 HIGH c in
  let c := beepOff (beepSetup c) in
  let c :=
    if negb pinSW1 then
      let c := showVersion 4 0 SW_VERSION c in
      let c := if pinSW2 then eepromInit c else c in
      emit (Delay 5000) c
    else c in
  emit (ClockSetDots true) (emit ClockBegin c).


(** ** The EEPROM preparation sketch

    [src/ComptePose.ino] also holds the sketch that is flashed once to give
    the EEPROM its first content.  It declares the same globals as the
    controller; its [setup] touches [brightness] and the EEPROM only, and
    its [loop] is empty. *)

Module EepromSketch.

(* for(uint8_t i = 0; i < 64; ++i){ ... }  with the local uint8_t
   [seconds] and [minutes] that shadow the globals. *)
Fixpoint setup_loop (n : nat) (i seconds minutes : Z) (c : ctx) : ctx :=
  match n with
  | O => c
  | S n' =>
      let c := EEPROM_write (memAdd + 2 * i) minutes c in
      let c := EEPROM_write (memAdd + 2 * i + 1) seconds c in
      let seconds := to_uint8 (seconds + 15) in
      if 59 <? seconds then
        setup_loop n' (to_uint8 (i + 1)) 0 (to_uint8 (minutes + 1)) c
      else
        setup_loop n' (to_uint8 (i + 1)) seconds minutes c
  end.

Definition setup (c : ctx) : ctx :=
  let c := set_brightness (EEPROM_read brightAdd c) c in
  if negb (brightness c =? 8) then
    let c := EEPROM_write brightAdd 8 c in
    let c := EEPROM_write bellTAdd 1 c in
    let c := EEPROM_write bellLAdd 5 c in
    setup_loop 64 0 15 0 c
  else c.

Definition loop (c : ctx) : ctx := c.

End EepromSketch.

(** ** The first sketch (2016)

    [src/ComptePose.ino] opens with the first version of the controller:
    three states, one push button, no menu and no EEPROM.  The output (pin
    13) is active high. *)

Module Sketch2016.

Inductive state_t : Type := SETTING | RUN | PAUSE.

(** Commands sent to the display, the encoder, the button, the pins and the
    serial port. *)
Inductive io : Type :=
| DisplayInit (a b c d : Z)
| DisplaySetMinutes (value : Z)
| DisplaySetSeconds (value : Z)
| DisplaySetPoint (on : bool)
| DisplayEnable (on : bool)
| DisplayUpdate
| EncoderBegin (a b : Z)
| EncoderReverse
| ButtonBegin (pin : Z)
| PinMode (pin : Z) (output : bool)
| DigitalWrite (pin : Z) (level : bool)
| SerialBegin (baud : Z).

Record ctx : Type := mkCtx {
  state : state_t;
  ledState : bool;
  minutes : Z;
  seconds : Z;
  duration : Z;
  timerBlink : Timer.t;
  timer : Timer.t;
  trace : list io
}.

Definition set_state (v : state_t) (c : ctx) : ctx :=
  mkCtx v (ledState c) (minutes c) (seconds c) (duration c) (timerBlink c)
    (timer c) (trace c).
Definition set_ledState (v : bool) (c : ctx) : ctx :=
  mkCtx (state c) v (minutes c) (seconds c) (duration c) (timerBlink c)
    (timer c) (trace c).
Definition set_minutes (v : Z) (c : ctx) : ctx :=
  mkCtx (state c) (ledState c) v (seconds c) (duration c) (timerBlink c)
    (timer c) (trace c).
Definition set_seconds (v : Z) (c : ctx) : ctx :=
  mkCtx (state c) (ledState c) (minutes c) v (duration c) (timerBlink c)
    (timer c) (trace c).
Definition set_duration (v : Z) (c : ctx) : ctx :=
  mkCtx (state c) (ledState c) (minutes c) (seconds c) v (timerBlink c)
    (timer c) (trace c).
Definition set_timerBlink (v : Timer.t) (c : ctx) : ctx :=
  mkCtx (state c) (ledState c) (minutes c) (seconds c) (duration c) v
    (timer c) (trace c).
Definition set_timer (v : Timer.t) (c : ctx) : ctx :=
  mkCtx (state c) (ledState c) (minutes c) (seconds c) (duration c)
    (timerBlink c) v (trace c).
Definition set_trace (v : list io) (c : ctx) : ctx :=
  mkCtx (state c) (ledState c) (minutes c) (seconds c) (duration c)
    (timerBlink c) (timer c) v.

(** The readings of one pass of [loop()]: the tick count, the push button
    ([btn], the object [button] of the sketch) and the encoder. *)
Record poll : Type := mkPoll {
  now : Z;
  btn : button;
  encoder : option Z
}.

Definition output : Z := 13.

Definition emit (e : io) (c : ctx) : ctx := set_trace (e :: trace c) c.

Definition digitalWrite (pin : Z) (level : bool) : ctx -> ctx :=
  emit (DigitalWrite pin level).

(** The last level written to a pin, and the last minutes and seconds sent
    to the display. *)
Fixpoint pin_level (pin : Z) (tr : list io) : option bool :=
  match tr with
  | [] => None
  | DigitalWrite p level :: tr' =>
      if p =? pin then Some level else pin_level pin tr'
  | _ :: tr' => pin_level pin tr'
  end.

Fixpoint shown_minutes (tr : list io) : option Z :=
  match tr with
  | [] => None
  | DisplaySetMinutes v :: _ => Some v
  | _ :: tr' => shown_minutes tr'
  end.

Fixpoint shown_seconds (tr : list io) : option Z :=
  match tr with
  | [] => None
  | DisplaySetSeconds v :: _ => Some v
  | _ :: tr' => shown_seconds tr'
  end.

Definition power_on : ctx :=
  let tm := Timer.mk Timer.Stopped 0 0 Timer.Once 0 in
  mkCtx SETTING LOW 0 0 0 tm tm [].

Definition setup (c : ctx) : ctx :=
  let c := set_timerBlink (Timer.init (timerBlink c)) c in
  let c := set_timer (Timer.init (timer c)) c in
  let c := set_timerBlink (Timer.setDelay 500 (timerBlink c)) c in
  let c := emit (DisplayInit 6 7 8 9) c in
  let c := emit (EncoderBegin 2 3) c in
  let c := emit EncoderReverse c in
  let c := emit (ButtonBegin 10) c in
  let c := emit (PinMode output true) c in
  let c := digitalWrite output LOW c in
  emit (SerialBegin 115200) c.

(* [display.enable()] is called without argument; as in the controller's
   [stop] the display is taken to be switched on by it. *)
Definition stop (c : ctx) : ctx :=
  let c := set_timer (Timer.stop (timer c)) c in
  let c := emit (DisplayEnable true) c in
  let c := emit (DisplaySetPoint true) c in
  let c := emit (DisplaySetMinutes (minutes c)) c in
  let c := emit (DisplaySetSeconds (seconds c)) c in
  let c := digitalWrite output LOW c in
  set_state SETTING c.

Definition setMinutes (value : Z) (c : ctx) : bool * ctx :=
  let c := set_minutes (to_int8 (minutes c + value)) c in
  if 99 <=? minutes c then (false, set_minutes 99 c)
  else if minutes c <? 0 then (false, set_minutes 0 c)
  else (true, emit (DisplaySetMinutes (minutes c)) c).

Definition setSeconds (value : Z) (c : ctx) : ctx :=
  let c := set_seconds (to_int8 (seconds c + value)) c in
  let c :=
    if 60 <=? seconds c then
      let (ok, c) := setMinutes 1 c in
      if ok then set_seconds (to_int8 (Z.rem (seconds c) 60)) c
      else set_seconds 59 c
    else if seconds c <? 0 then
      let (ok, c) := setMinutes (-1) c in
      if ok then set_seconds (to_int8 (seconds c + 60)) c
      else set_seconds 0 c
    else c in
  emit (DisplaySetSeconds (seconds c)) c.

(* The argument of setSeconds is an int8_t: the product, taken in int, is
   narrowed on the call. *)
Definition setTime (value : Z) (c : ctx) : ctx :=
  let c :=
    if 300 <=? duration c then setSeconds (to_int8 (value * 15)) c
    else if 120 <=? duration c then setSeconds (to_int8 (value * 5)) c
    else setSeconds (to_int8 value) c in
  set_duration (to_int16 (60 * minutes c + seconds c)) c.

Definition setting (enc : option Z) (c : ctx) : ctx :=
  let c := match enc with
           | Some step => setTime (to_int8 step) c
           | None => c
           end in
  emit DisplayUpdate c.

Definition running (p : poll) (c : ctx) : ctx :=
  let (blink, tb) := Timer.update (now p) (timerBlink c) in
  let c := set_timerBlink tb c in
  let c := if blink
           then let c := set_ledState (negb (ledState c)) c in
                emit (DisplaySetPoint (ledState c)) c
           else c in
  let c := emit (DisplaySetMinutes (Timer.getRMinutes (now p) (timer c))) c in
  let c := emit (DisplaySetSeconds (Timer.getRSecondsM (now p) (timer c))) c in
  let c := emit DisplayUpdate c in
  let (elapsed, tm) := Timer.update (now p) (timer c) in
  let c := set_timer tm c in
  if elapsed then stop c else c.

Definition pause (p : poll) (c : ctx) : ctx :=
  let c := set_timer (snd (Timer.update (now p) (timer c))) c in
  let (blink, tb) := Timer.update (now p) (timerBlink c) in
  let c := set_timerBlink tb c in
  let c := if blink
           then let c := set_ledState (negb (ledState c)) c in
                emit (DisplayEnable (ledState c)) c
           else c in
  emit DisplayUpdate c.

(* Run when button.update() is true.  The default case of the switch is
   not reachable: the three states are all there are. *)
Definition manageButton (p : poll) (c : ctx) : ctx :=
  if isLongPressed (btn p) then stop c
  else if justPressed (btn p) then
    match state c with
    | SETTING =>
        let c := set_state RUN c in
        let c := emit (DisplaySetMinutes (minutes c)) c in
        let c := emit (DisplaySetSeconds (seconds c)) c in
        let c := set_timer
                   (Timer.setMinutesSeconds (minutes c) (seconds c) (timer c))
                   c in
        let c := digitalWrite output HIGH c in
        let c := set_timer (Timer.start (now p) Timer.Once (timer c)) c in
        set_timerBlink (Timer.start (now p) Timer.Loop (timerBlink c)) c
    | RUN =>
        let c := set_timer (Timer.pause (now p) (timer c)) c in
        let c := digitalWrite output LOW c in
        set_state PAUSE c
    | PAUSE =>
        let c := set_timer (Timer.pause (now p) (timer c)) c in
        let c := digitalWrite output HIGH c in
        let c := set_state RUN c in
        emit (DisplayEnable true) c
    end
  else c.

Definition loop (p : poll) (c : ctx) : ctx :=
  let c := if update (btn p) then manageButton p c else c in
  match state c with
  | SETTING => setting (encoder p) c
  | RUN => running p c
  | PAUSE => pause p c
  end.

End Sketch2016.

(** * Vocabulary of the properties *)

(** A duration between 00:00 and 99:59. *)
Definition valid_time (c : ctx) : Prop :=
  0 <= minutes c <= 99 /\ 0 <= seconds c <= 59.

(** The encoder steps of a sequence, applied one after the other. *)
Definition setTime_seq (steps : list Z) (c : ctx) : ctx :=
  fold_left (fun c v => setTime v c) steps c.

(** The multiplier table of the specification. *)
Definition multiplier (d : Z) : Z :=
  if 600 <=? d then 30
  else if 300 <=? d then 15
  else if 120 <=? d then 10
  else if 30 <=? d then 5
  else 1.

(** The controller after start-up over an EEPROM that holds [rom]. *)
Definition started (rom : Z -> Z) : ctx := setup HIGH HIGH (power_on rom).

(** Sample readings. *)
Definition released : button := mkButton false false false.
Definition pressed : button := mkButton true false true.
Definition quiet (t : Z) : poll := mkPoll t released released None None.
Definition turn (step : Z) : poll := mkPoll 0 released released (Some step) None.
Definition press_sw1 (t : Z) : poll := mkPoll t pressed released None None.
Definition press_sw2 (t : Z) : poll := mkPoll t released pressed None None.

(** Case analysis on the comparisons of the sketch, keeping each outcome as
    an arithmetic fact. *)
Ltac split_if :=
  match goal with
  | |- context [if ?a <=? ?b then _ else _] => destruct (Z.leb_spec a b)
  | |- context [if ?a <? ?b then _ else _] => destruct (Z.ltb_spec a b)
  end.

Ltac proj_ctx :=
  cbn [state menuState enable minutes seconds duration brightness bellType
       bellLength bellLoops counter currentMem timerMain timerDots timerPause
       timerBeep1 timerBeep2 timerBeep3 eeprom trace
       set_state set_menuState set_enable set_minutes set_seconds set_duration
       set_brightness set_bellType set_bellLength set_bellLoops set_counter
       set_currentMem set_timerMain set_timerDots set_timerPause set_timerBeep1
       set_timerBeep2 set_timerBeep3 set_eeprom set_trace emit digitalWrite
       beepOn beepOff fst snd] in *.

Definition onDelay (type : Z) : Z := fst (fst (beep_delays type)).

(** A controller that beeps: alert type 1 and length 5 in the EEPROM, two
    seconds set, started at tick 0 and run out at tick 2000. *)
Definition beeping_ctx : ctx :=
  let rom := fun a => if a =? bellTAdd then 1
                      else if a =? bellLAdd then 5 else 0 in
  running (quiet 2000)
    (manageSW1 (press_sw1 0) (setTime_seq [1; 1] (started rom))).

(** Passes of [loop()] in a row; [None] once a pass is left waiting. *)
Definition run_loops (inputs : list loop_input) (start : option ctx)
  : option ctx :=
  fold_left (fun oc i => match oc with Some c => loop i c | None => None end)
    inputs start.

(** A controller that counts down: two seconds set, then a short press of
    switch 1 at tick 0. *)
Definition running_ctx : ctx :=
  match run_loops [mkLoopInput (turn 1) [] []; mkLoopInput (turn 1) [] [];
                   mkLoopInput (press_sw1 0) [] []]
          (Some (started (fun _ => 0))) with
  | Some c => c
  | None => started (fun _ => 0)
  end.

(** A short press of switch 1, as [manageSW1] sees it. *)
Definition short_press (p : poll) : Prop :=
  isLongPressed (sw1 p) = false /\ justPressed (sw1 p) = true.

(** One pause: the press that pauses, the passes of [pause()] made while
    paused, and the press that resumes. *)
Record pause_cycle : Type := mkCycle {
  pause_press : poll;
  paused_passes : list poll;
  resume_press : poll
}.

Definition run_cycle (cy : pause_cycle) (c : ctx) : ctx :=
  manageSW1 (resume_press cy)
    (fold_left (fun c p => pause p c) (paused_passes cy)
       (manageSW1 (pause_press cy) c)).

Definition run_cycles (cys : list pause_cycle) (c : ctx) : ctx :=
  fold_left (fun c cy => run_cycle cy c) cys c.

(** Ticks spent paused over the cycles. *)
Definition paused_ticks (cys : list pause_cycle) : Z :=
  fold_right
    (fun cy acc => now (resume_press cy) - now (pause_press cy) + acc) 0 cys.

(** The states of the controller between two passes of [loop()]: the one
    left by [setup()], and those a pass leads to. *)
Inductive reachable : ctx -> Prop :=
| reach_setup (rom : Z -> Z) (pinSW1 pinSW2 : bool) :
    reachable (setup pinSW1 pinSW2 (power_on rom))
| reach_loop (c c' : ctx) (i : loop_input) :
    reachable c -> loop i c = Some c' -> reachable c'.

(** The relay is driven exactly in RUN. *)
Definition relay_inv (c : ctx) : Prop :=
  relay_on c = state_eqb (state c) RUN.

(** [c'] has the state and the output level of [c]. *)
Definition same_state_relay (c c' : ctx) : Prop :=
  state c' = state c /\ pin_level OUT (trace c') = pin_level OUT (trace c).

(** Inside the menu the state is MENU, or SETTING once the exit is
    requested. *)
Definition in_menu (c : ctx) : Prop := state c = MENU \/ state c = SETTING.

Ltac editor_step IH :=
  cbn beta iota zeta;
  repeat match goal with
  | |- context [justPressed ?b] => destruct (justPressed b)
  end;
  intros c' H;
  [ injection H as <-
  | injection H as <-
  | eapply IH; [| exact H] ].

(** The claim's saturating update: the sum, clamped to [lo .. hi]. *)
Definition sat (lo hi v step : Z) : Z := Z.max lo (Z.min hi (v + step)).

(** The saturating update of the alert editors: one unit per encoder
    event, up when the step is positive and down otherwise. *)
Definition bell_step (top v step : Z) : Z :=
  sat 0 top v (if 0 <? step then 1 else -1).

(** The value an editor ends on when every encoder reading updates the
    working value [v] by [next]: the working value at the pass that
    confirms (switch 1), the value [kept] from entry when the editor is
    cancelled (switch 2). *)
Fixpoint editor_value (next : Z -> Z -> Z) (kept v : Z) (ps : list poll) : Z :=
  match ps with
  | [] => kept
  | p :: ps' =>
      let v := match encoder p with
               | Some step => next v step
               | None => v
               end in
      if justPressed (sw1 p) then v
      else if justPressed (sw2 p) then kept
      else editor_value next kept v ps'
  end.

(** The encoder steps an editor consumes are int8_t values and none takes
    the working value below zero. *)
Fixpoint no_wrap (lo hi v : Z) (ps : list poll) : bool :=
  match ps with
  | [] => true
  | p :: ps' =>
      match encoder p with
      | Some step =>
          (-128 <=? step) && (step <=? 127) && (0 <=? v + step)
          && (justPressed (sw1 p) || justPressed (sw2 p)
              || no_wrap lo hi (sat lo hi v step) ps')
      | None =>
          justPressed (sw1 p) || justPressed (sw2 p) || no_wrap lo hi v ps'
      end
  end.

(** The set time in seconds. *)
Definition total (c : ctx) : Z := 60 * minutes c + seconds c.

(** The first button an editor sees pressed is switch 1 (confirm); [false]
    when it is switch 2 (cancel) or when no button is pressed at all. *)
Fixpoint confirmed (ps : list poll) : bool :=
  match ps with
  | [] => false
  | p :: ps' =>
      if justPressed (sw1 p) then true
      else if justPressed (sw2 p) then false
      else confirmed ps'
  end.

(** A state without its display log, EEPROM content and slot index. *)
Definition core (c : ctx) : ctx :=
  set_trace [] (set_eeprom (fun _ => 0) (set_currentMem 0 c)).

(** A state without its display log. *)
Definition silent (c : ctx) : ctx := set_trace [] c.

(** The repeat count that [setBeepTimers] derives from an alert type and
    an alert length. *)
Definition derived_loops (type length : Z) : Z :=
  to_uint16 (to_uint32 (to_int16 (length * 1000)) / onDelay (to_int8 type)).

(** The menu settings are within their types and bounds, and the repeat
    count is the one derived from the current alert type and length. *)
Definition settings_inv (c : ctx) : Prop :=
  1 <= currentMem c <= 64 /\
  0 <= menuState c <= 4 /\
  0 <= brightness c <= 255 /\
  0 <= bellType c <= 255 /\
  0 <= bellLength c <= 255 /\
  bellLoops c = derived_loops (bellType c) (bellLength c).

(** The three settings kept in variables are the bytes stored for them. *)
Definition persisted (c : ctx) : Prop :=
  brightness c = EEPROM_read brightAdd c /\
  bellType c = EEPROM_read bellTAdd c /\
  bellLength c = EEPROM_read bellLAdd c.

(** The part of a state that the menu owns: item, settings, slot index and
    EEPROM content. *)
Definition settings_part (c : ctx) : ctx :=
  let tm := Timer.mk Timer.Stopped 0 0 Timer.Once 0 in
  mkCtx SETTING (menuState c) LOW 0 0 0 (brightness c) (bellType c)
    (bellLength c) (bellLoops c) 0 (currentMem c) tm tm tm tm tm tm
    (eeprom c) [].

Definition kept_settings (c c' : ctx) : Prop :=
  settings_part c' = settings_part c.

(** The variables of the menu, without the EEPROM content. *)
Definition vars_part (c : ctx) : ctx := set_eeprom (fun _ => 0) (settings_part c).

(** [setup], first part: the timers are initialised and the three settings
    read from the EEPROM. *)
Definition setup_read (c : ctx) : ctx :=
  let c := set_timerMain (Timer.init (timerMain c)) c in
  let c := set_timerDots (Timer.init (timerDots c)) c in
  let c := set_timerPause (Timer.init (timerPause c)) c in
  let c := set_timerBeep1 (Timer.init (timerBeep1 c)) c in
  let c := set_timerBeep2 (Timer.init (timerBeep2 c)) c in
  let c := set_timerBeep3 (Timer.init (timerBeep3 c)) c in
  let c := set_timerDots (Timer.setDelay 500 (timerDots c)) c in
  let c := set_timerPause (Timer.setDelay 500 (timerPause c)) c in
  let c := set_brightness (EEPROM_read brightAdd c) c in
  let c := set_bellType (EEPROM_read bellTAdd c) c in
  set_bellLength (EEPROM_read bellLAdd c) c.

(** [setup], last part: what follows the derivation of the beep timers. *)
Definition setup_tail (pinSW1 pinSW2 : bool) (c : ctx) : ctx :=
  let c := emit LedBegin c in
  let c := emit (LedSetIntensity (brightness c - 1)) c in
  let c := emit EncoderBegin c in
  let c := emit (ButtonBegin SW1) c in
  let c := emit (ButtonBegin SW2) c in
  let c := emit (PinMode OUT true) c in
  let c := digitalWrite OUT HIGH c in
  let c := emit (PinMode OUT2 true) c in
  let c := digitalWrite OUT2 HIGH c in
  let c := beepOff (beepSetup c) in
  let c :=
    if negb pinSW1 then
      let c := showVersion 4 0 SW_VERSION c in
      let c := if pinSW2 then eepromInit c else c in
      emit (Delay 5000) c
    else c in
  emit (ClockSetDots true) (emit ClockBegin c).

(** [c'] has the settings and the EEPROM content of [c], and the
    controller is outside the menu. *)
Definition quiet_step (c c' : ctx) : Prop :=
  kept_settings c c' /\ state c' <> MENU.

(** Both output pins are at the same level. *)
Definition outs_agree (c : ctx) : Prop :=
  pin_level OUT2 (trace c) = pin_level OUT (trace c).

(** [c'] has written to no pin since [c]. *)
Definition pins_kept (c c' : ctx) : Prop :=
  forall pin, pin_level pin (trace c') = pin_level pin (trace c).

(** The countdown timer is one-shot and set to the time shown, in
    milliseconds. *)
Definition armed (c : ctx) : Prop :=
  Timer.delay (timerMain c) = (60 * minutes c + seconds c) * 1000 /\
  Timer.repeatMode (timerMain c) = Timer.Once.

(** The countdown timer runs in RUN, is paused in PAUSE and is stopped in
    every other state; while it runs or is paused it is armed with the set
    time. *)
Definition countdown_inv (c : ctx) : Prop :=
  match state c with
  | RUN => Timer.state (timerMain c) = Timer.Running /\ armed c
  | PAUSE => Timer.state (timerMain c) = Timer.Paused /\ armed c
  | _ => Timer.state (timerMain c) = Timer.Stopped
  end.

Ltac proj_2016 :=
  cbn [Sketch2016.state Sketch2016.ledState Sketch2016.minutes
       Sketch2016.seconds Sketch2016.duration Sketch2016.timerBlink
       Sketch2016.timer Sketch2016.trace
       Sketch2016.set_state Sketch2016.set_ledState Sketch2016.set_minutes
       Sketch2016.set_seconds Sketch2016.set_duration
       Sketch2016.set_timerBlink Sketch2016.set_timer Sketch2016.set_trace
       Sketch2016.emit Sketch2016.digitalWrite fst snd] in *.

(** The states of the first sketch between two passes of [loop()]. *)
Inductive reachable_2016 : Sketch2016.ctx -> Prop :=
| reach_setup_2016 :
    reachable_2016 (Sketch2016.setup Sketch2016.power_on)
| reach_loop_2016 (c : Sketch2016.ctx) (p : Sketch2016.poll) :
    reachable_2016 c -> reachable_2016 (Sketch2016.loop p c).

(** The output is high exactly in RUN; the countdown timer runs in RUN, is
    paused in PAUSE and stopped in SETTING, and while it runs or is paused
    it is a one-shot timer set to the time shown. *)
Definition inv_2016 (c : Sketch2016.ctx) : Prop :=
  match Sketch2016.state c with
  | Sketch2016.RUN =>
      Sketch2016.pin_level Sketch2016.output (Sketch2016.trace c) = Some HIGH /\
      Timer.state (Sketch2016.timer c) = Timer.Running /\
      Timer.delay (Sketch2016.timer c)
      = (60 * Sketch2016.minutes c + Sketch2016.seconds c) * 1000 /\
      Timer.repeatMode (Sketch2016.timer c) = Timer.Once
  | Sketch2016.PAUSE =>
      Sketch2016.pin_level Sketch2016.output (Sketch2016.trace c) = Some LOW /\
      Timer.state (Sketch2016.timer c) = Timer.Paused /\
      Timer.delay (Sketch2016.timer c)
      = (60 * Sketch2016.minutes c + Sketch2016.seconds c) * 1000 /\
      Timer.repeatMode (Sketch2016.timer c) = Timer.Once
  | Sketch2016.SETTING =>
      Sketch2016.pin_level Sketch2016.output (Sketch2016.trace c) = Some LOW /\
      Timer.state (Sketch2016.timer c) = Timer.Stopped
  end.

(** The step multiplier of the first sketch. *)
Definition multiplier_2016 (d : Z) : Z :=
  if 300 <=? d then 15 else if 120 <=? d then 5 else 1.

Definition valid_time_2016 (c : Sketch2016.ctx) : Prop :=
  0 <= Sketch2016.minutes c <= 99 /\ 0 <= Sketch2016.seconds c <= 59.

Definition total_2016 (c : Sketch2016.ctx) : Z :=
  60 * Sketch2016.minutes c + Sketch2016.seconds c.

(** The buzzer is off unless the controller is in BEEPING. *)
Definition buzzer_inv (c : ctx) : Prop :=
  state c <> BEEPING -> beep_is_on (trace c) = false.

(** The time as the variables hold it: minutes, seconds and the cached
    duration. *)
Definition time_part (c : ctx) : Z * Z * Z := (minutes c, seconds c, duration c).

(** * Properties *)

(** ** Integer conversions *)

Lemma to_int8_id (z : Z) : -128 <= z <= 127 -> to_int8 z = z.
Proof.
  intros H. unfold to_int8. rewrite Z.mod_small; lia.
Qed.

Lemma to_int8_range (z : Z) : -128 <= to_int8 z <= 127.
Proof.
  unfold to_int8. pose proof (Z.mod_pos_bound (z + 128) 256). lia.
Qed.

Lemma to_int16_id (z : Z) : -32768 <= z <= 32767 -> to_int16 z = z.
Proof.
  intros H. unfold to_int16. rewrite Z.mod_small; lia.
Qed.

Lemma to_uint8_range (z : Z) : 0 <= to_uint8 z <= 255.
Proof.
  unfold to_uint8. pose proof (Z.mod_pos_bound z 256). lia.
Qed.

Lemma to_uint8_id (z : Z) : 0 <= z <= 255 -> to_uint8 z = z.
Proof.
  intros H. unfold to_uint8. apply Z.mod_small. lia.
Qed.

(** ** Time setting *)

(** What [setSeconds] computes on a valid time when the sum fits an int8_t:
    no carry, a carry (refused from 98 minutes on), or a borrow (refused at
    0 minutes). *)
Lemma setSeconds_cases (value : Z) (c : ctx) :
  -128 <= seconds c + value <= 127 ->
  0 <= minutes c <= 99 ->
  let s := seconds c + value in
  let c' := setSeconds value c in
  (0 <= s < 60 -> minutes c' = minutes c /\ seconds c' = s) /\
  (60 <= s -> minutes c + 1 < 99 ->
     minutes c' = minutes c + 1 /\ seconds c' = s mod 60) /\
  (60 <= s -> 99 <= minutes c + 1 -> minutes c' = 99 /\ seconds c' = 59) /\
  (s < 0 -> 0 <= minutes c - 1 ->
     minutes c' = minutes c - 1 /\ seconds c' = s + 60) /\
  (s < 0 -> minutes c - 1 < 0 -> minutes c' = 0 /\ seconds c' = 0).
Proof.
  intros Hs Hm s c'. subst s c'.
  unfold setSeconds, setMinutes. proj_ctx.
  rewrite (to_int8_id (seconds c + value)) by lia.
  rewrite (to_int8_id (minutes c + 1)) by lia.
  rewrite (to_int8_id (minutes c + -1)) by lia.
  repeat split; intros; repeat (split_if; proj_ctx); try lia.
  - rewrite Z.rem_mod_nonneg by lia.
    apply to_int8_id. pose proof (Z.mod_pos_bound (seconds c + value) 60). lia.
  - apply to_int8_id. lia.
Qed.

Lemma setSeconds_valid (value : Z) (c : ctx) :
  valid_time c -> -60 <= value <= 60 -> valid_time (setSeconds value c).
Proof.
  intros [Hm Hs] Hv.
  destruct (setSeconds_cases value c) as (A & B & C & D & E); try lia.
  cbv zeta in *. unfold valid_time.
  pose proof (Z.mod_pos_bound (seconds c + value) 60).
  destruct (Z.lt_ge_cases (seconds c + value) 0);
    [ destruct (Z.lt_ge_cases (minutes c - 1) 0)
    | destruct (Z.lt_ge_cases (seconds c + value) 60);
      [ | destruct (Z.lt_ge_cases (minutes c + 1) 99) ] ].
  - destruct E; lia.
  - destruct D; lia.
  - destruct A; lia.
  - destruct B; lia.
  - destruct C; lia.
Qed.

(** Steps of at most two detents keep the time between 00:00 and 99:59,
    whatever the cached duration selects as multiplier. *)
Lemma setTime_valid (value : Z) (c : ctx) :
  valid_time c -> -2 <= value <= 2 -> valid_time (setTime value c).
Proof.
  intros Hc Hv. unfold setTime.
  repeat split_if.
  all: rewrite to_int8_id by lia.
  all: apply (setSeconds_valid _ c Hc); lia.
Qed.

Lemma setTime_seq_valid (steps : list Z) :
  Forall (fun v => -2 <= v <= 2) steps ->
  forall c, valid_time c -> valid_time (setTime_seq steps c).
Proof.
  induction 1 as [|v steps Hv _ IH]; intros c Hc; [exact Hc|].
  apply IH. apply setTime_valid; assumption.
Qed.

(** A product of at most four detents fits the int8_t argument of
    [setSeconds]: the narrowing on the call changes nothing. *)
Lemma scaled_step_fits (value d : Z) :
  -4 <= value <= 4 -> to_int8 (value * multiplier d) = value * multiplier d.
Proof.
  intros H. apply to_int8_id. unfold multiplier. repeat split_if; lia.
Qed.

(** After an encoder step the cached duration is the total of the pair. *)
Lemma setTime_duration (value : Z) (c : ctx) :
  -128 <= minutes c <= 127 ->
  duration (setTime value c)
  = 60 * minutes (setTime value c) + seconds (setTime value c).
Proof.
  intros Hm. unfold setTime.
  set (c' := if 600 <=? duration c then _ else _).
  proj_ctx. apply to_int16_id.
  assert (Hs : forall v, -128 <= minutes (setSeconds v c) <= 127
                         /\ -128 <= seconds (setSeconds v c) <= 127).
  { intros v. unfold setSeconds, setMinutes. proj_ctx.
    pose proof (to_int8_range (seconds c + v)).
    pose proof (to_int8_range (minutes c + 1)).
    pose proof (to_int8_range (minutes c + -1)).
    pose proof (to_int8_range (Z.rem (to_int8 (seconds c + v)) 60)).
    pose proof (to_int8_range (to_int8 (seconds c + v) + 60)).
    repeat (split_if; proj_ctx); lia. }
  assert (H : -128 <= minutes c' <= 127 /\ -128 <= seconds c' <= 127).
  { subst c'. repeat split_if; apply Hs. }
  lia.
Qed.

(** ** The step multiplier (C6) *)

Example multiplier_table :
  map multiplier [0; 29; 30; 119; 120; 299; 300; 599; 600; 5999]
  = [1; 1; 5; 5; 10; 10; 15; 15; 30; 30].
Proof. reflexivity. Qed.

(** ** Range of the set time under encoder steps (C1) *)

(** C1 (every sequence of signed encoder steps keeps the stored pair in
    0..99 and 0..59) does not hold of [setTime] for steps of three detents
    or more.  From 00:00, 86 steps of +1 lead to 10:00 (cached duration 600,
    multiplier 30); one more step of -3 adds -90 to the seconds, a single
    minute is borrowed, and the seconds are left at -30. *)
Theorem setTime_seq_leaves_range :
  let c := setTime_seq (repeat 1 86) (started (fun _ => 0)) in
  let c' := setTime_seq (repeat 1 86 ++ [-3]) (started (fun _ => 0)) in
  (minutes c = 10 /\ seconds c = 0 /\ duration c = 600) /\
  (minutes c' = 9 /\ seconds c' = -30).
Proof. vm_compute. repeat split. Qed.

(** ** Carry and saturation (C2) *)

(** C2 (the seconds saturate only when the carry would push the minutes
    out of 0..99) does not hold at 98 minutes.  At 98:30 a step of +1
    (multiplier 30) brings the seconds to 60; the carry gives 99 minutes,
    which is in range, yet [setMinutes] refuses it ([minutes >= 99]) and
    the seconds are pinned to 59: the result is 99:59 and not 99:00. *)
Theorem setSeconds_saturates_at_98 :
  let c := setTime_seq (repeat 1 263) (started (fun _ => 0)) in
  (minutes c = 98 /\ seconds c = 30 /\ duration c = 5910) /\
  (minutes (setTime 1 c) = 99 /\ seconds (setTime 1 c) = 59) /\
  (minutes (setSeconds 30 c) = 99 /\ seconds (setSeconds 30 c) = 59).
Proof. vm_compute. repeat split. Qed.

(** ** Derivation of the beep timers (C4) *)

(** Up to 32 seconds of ring time the int product [bellLength * 1000] does
    not overflow, and the derived values are the ones of the formula. *)
Lemma setBeepTimers_short (type : Z) (c : ctx) :
  0 <= type <= 8 -> 0 <= bellLength c <= 32 ->
  let c' := setBeepTimers type c in
  bellLoops c' = bellLength c * 1000 / onDelay type /\
  Timer.delay (timerBeep3 c') = bellLoops c' * onDelay type.
Proof.
  intros Ht Hl.
  assert (E : type = 0 \/ type = 1 \/ type = 2 \/ type = 3 \/ type = 4 \/
              type = 5 \/ type = 6 \/ type = 7 \/ type = 8) by lia.
  unfold onDelay.
  repeat (destruct E as [E|E]); subst type; cbv zeta;
    unfold setBeepTimers; cbn [beep_delays fst snd]; proj_ctx;
    cbn [Timer.setDelay Timer.delay];
    rewrite (to_int16_id (bellLength c * 1000)) by lia;
    unfold to_uint32, to_uint16;
    rewrite (Z.mod_small (bellLength c * 1000)) by lia;
    match goal with
    | |- context [bellLength c * 1000 / ?d] =>
        pose proof (Z.div_pos (bellLength c * 1000) d);
        pose proof (Z.mul_div_le (bellLength c * 1000) d);
        set (q := bellLength c * 1000 / d) in *
    end;
    rewrite (Z.mod_small q) by lia;
    rewrite Z.mod_small by lia;
    split; reflexivity.
Qed.

(** C4 (for every type in 0..8 and length in 0..90 the repeat count is
    [floor(length*1000/onDelay)] and the bound is [repeatCount*onDelay])
    holds up to length 32 only.  With type 1 and the length turned up to 5
    in the editor the values are 5 and 5000; turned up to 33,
    [bellLength * 1000] overflows the 16-bit int before it is converted to
    uint32_t, and the repeat count is 35094 (the bound 32240) where the
    formula gives 33 (and 33000). *)
Theorem setBeepTimers_overflow :
  let rom := fun a => if a =? bellTAdd then 1 else 0 in
  let upto n := repeat (turn 1) n ++ [mkPoll 0 pressed released (Some 1) None] in
  option_map (fun c => (bellType c, bellLength c, bellLoops c,
                        Timer.delay (timerBeep3 c)))
    (setBellLength (upto 4%nat) (started rom)) = Some (1, 5, 5, 5000) /\
  option_map (fun c => (bellType c, bellLength c, bellLoops c,
                        Timer.delay (timerBeep3 c)))
    (setBellLength (upto 32%nat) (started rom)) = Some (1, 33, 35094, 32240) /\
  33 * 1000 / onDelay 1 = 33.
Proof. vm_compute. repeat split. Qed.

(** ** The cached duration (C5) *)

(** C5 (the cached duration is [60*minutes + seconds] after a recall as
    after an encoder step) does not hold after a recall.  With 10:00 stored
    in slot 1, entering the menu and recalling slot 1 from 00:00 leaves the
    cache at 0 for the pair 10:00, and the next step of +1 is applied with
    multiplier 1 (10:01) where the duration 600 selects 30. *)
Theorem recallTime_stale_duration :
  let rom := fun a => if a =? memAdd + 2 * 1 then 10 else 0 in
  let recall := mkLoopInput (press_sw2 0)
                  [mkMenuPoll (press_sw1 0) [press_sw1 0]] [] in
  let step := mkLoopInput (turn 1) [] [] in
  exists c1 c2,
    loop recall (started rom) = Some c1 /\
    loop step c1 = Some c2 /\
    (state c1 = SETTING /\ minutes c1 = 10 /\ seconds c1 = 0 /\
     duration c1 = 0) /\
    (minutes c2 = 10 /\ seconds c2 = 1 /\ duration c2 = 601).
Proof.
  eexists. eexists.
  split; [vm_compute; reflexivity|].
  split; [vm_compute; reflexivity|].
  vm_compute. repeat split.
Qed.

(** ** End of the countdown (C7) *)

(** C7.  When [timerMain.update()] reports the end of the countdown in RUN,
    the next state is BEEPING exactly when [bellLength > 0] and SETTING
    otherwise; in both cases OUT is driven HIGH (relay released) and the
    display shows the set minutes and seconds again; with [bellLength = 0]
    the three beep timers are left as they were and no beep is switched
    on. *)
Theorem running_elapsed (p : poll) (c : ctx) :
  state c = RUN ->
  fst (Timer.update (now p) (timerMain c)) = true ->
  let c' := running p c in
  ((0 < bellLength c /\ state c' = BEEPING) \/
   (~ 0 < bellLength c /\ state c' = SETTING)) /\
  pin_level OUT (trace c') = Some HIGH /\
  relay_on c' = false /\
  shown_minutes (trace c') = Some (minutes c) /\
  shown_seconds (trace c') = Some (seconds c) /\
  minutes c' = minutes c /\ seconds c' = seconds c /\
  (bellLength c = 0 ->
     timerBeep1 c' = timerBeep1 c /\ timerBeep2 c' = timerBeep2 c /\
     timerBeep3 c' = timerBeep3 c /\
     beep_is_on (trace c') = beep_is_on (trace c)).
Proof.
  intros _ Hfire c'. subst c'. unfold running.
  destruct (Timer.update (now p) (timerDots c)) as [blink td].
  destruct blink; proj_ctx;
    destruct (Timer.update (now p) (timerMain c)) as [e tm];
    cbn [fst] in Hfire; subst e;
    split_if; unfold stop, relay_on; proj_ctx; cbn;
    (split; [ (left; split; [lia|reflexivity]) || (right; split; [lia|reflexivity]) |]);
    repeat split; try reflexivity; intros; try lia.
Qed.

Lemma running_elapsed_witness :
  let c := manageSW1 (press_sw1 0) (setTime_seq [1; 1] (started (fun _ => 0))) in
  let p := quiet 2000 in
  state c = RUN /\
  fst (Timer.update (now p) (timerMain c)) = true /\
  state (running p c) = SETTING /\
  relay_on (running p c) = false /\
  shown_seconds (trace (running p c)) = Some 2.
Proof.
  intros c p.
  assert (H1 : state c = RUN) by reflexivity.
  assert (H2 : fst (Timer.update (now p) (timerMain c)) = true) by reflexivity.
  destruct (running_elapsed p c H1 H2) as (_ & _ & Hr & _ & Hs & _).
  split; [exact H1|]. split; [exact H2|].
  split; [reflexivity|]. split; [exact Hr|]. exact Hs.
Defined.

(** ** Pause and resume (C9) *)

Lemma update_paused (t : Z) (x : Timer.t) :
  Timer.state x = Timer.Paused -> Timer.update t x = (false, x).
Proof.
  intros H. unfold Timer.update. rewrite H. reflexivity.
Qed.

Lemma pause_passes_keep (ps : list poll) :
  forall c,
    state c = PAUSE -> Timer.state (timerMain c) = Timer.Paused ->
    let c' := fold_left (fun c p => pause p c) ps c in
    state c' = PAUSE /\ timerMain c' = timerMain c.
Proof.
  induction ps as [|p ps IH]; intros c Hs Ht; [split; [exact Hs|reflexivity]|].
  cbn [fold_left].
  assert (Hp : state (pause p c) = PAUSE /\ timerMain (pause p c) = timerMain c).
  { unfold pause. rewrite (update_paused (now p) (timerMain c) Ht). proj_ctx.
    destruct (Timer.update (now p) (timerPause c)) as [b tp].
    destruct b; proj_ctx; split; assumption || reflexivity. }
  destruct Hp as [Hs' Ht'].
  destruct (IH (pause p c) Hs') as [A B]; [rewrite Ht'; exact Ht|].
  split; [exact A|]. rewrite B. exact Ht'.
Qed.

Lemma run_cycle_remaining (cy : pause_cycle) (c : ctx) :
  short_press (pause_press cy) -> short_press (resume_press cy) ->
  state c = RUN -> Timer.state (timerMain c) = Timer.Running ->
  let c' := run_cycle cy c in
  state c' = RUN /\ Timer.state (timerMain c') = Timer.Running /\
  forall t, Timer.remaining t (timerMain c')
            = Timer.remaining
                (t - (now (resume_press cy) - now (pause_press cy)))
                (timerMain c).
Proof.
  intros [L1 J1] [L2 J2] Hs Ht. cbv zeta. unfold run_cycle.
  set (c1 := manageSW1 (pause_press cy) c).
  assert (H1 : state c1 = PAUSE /\
               timerMain c1 = Timer.pause (now (pause_press cy)) (timerMain c)).
  { subst c1. unfold manageSW1. rewrite Hs, L1, J1. proj_ctx.
    split; reflexivity. }
  destruct H1 as [Hs1 Ht1].
  assert (Hp1 : Timer.state (timerMain c1) = Timer.Paused).
  { rewrite Ht1. unfold Timer.pause. rewrite Ht. reflexivity. }
  destruct (pause_passes_keep (paused_passes cy) c1 Hs1 Hp1) as [Hs2 Ht2].
  set (c2 := fold_left (fun c p => pause p c) (paused_passes cy) c1) in *.
  unfold manageSW1. rewrite Hs2, L2, J2. proj_ctx.
  rewrite Ht2, Ht1.
  unfold Timer.pause, Timer.remaining, Timer.elapsed. rewrite Ht.
  cbn [Timer.state Timer.delay Timer.startTick Timer.elapsedAtPause].
  repeat split. intros t. lia.
Qed.

(** C9.  With the timer of the specification: after any number of pauses of
    a running countdown, each made of a short press, any number of passes
    of [pause()] and a second short press, the state is RUN again and
    [remaining()] at any tick [t] is what the countdown, never paused, had
    at [t] minus the ticks spent paused. *)
Theorem pause_resume_remaining (cys : list pause_cycle) :
  Forall (fun cy => short_press (pause_press cy)
                    /\ short_press (resume_press cy)) cys ->
  forall c,
    state c = RUN -> Timer.state (timerMain c) = Timer.Running ->
    let c' := run_cycles cys c in
    state c' = RUN /\ Timer.state (timerMain c') = Timer.Running /\
    forall t, Timer.remaining t (timerMain c')
              = Timer.remaining (t - paused_ticks cys) (timerMain c).
Proof.
  induction 1 as [|cy cys [P R] _ IH]; intros c Hs Ht; cbv zeta.
  - cbn. repeat split; try assumption. intros t. f_equal. lia.
  - destruct (run_cycle_remaining cy c P R Hs Ht) as (Hs1 & Ht1 & Hr1).
    destruct (IH (run_cycle cy c) Hs1 Ht1) as (Hs2 & Ht2 & Hr2).
    unfold run_cycles in *. cbn [fold_left paused_ticks fold_right].
    repeat split; try assumption.
    intros t. rewrite Hr2, Hr1. f_equal.
    fold (paused_ticks cys). lia.
Qed.

Lemma pause_resume_remaining_witness :
  let c := manageSW1 (press_sw1 0) (setTime_seq [1; 1] (started (fun _ => 0))) in
  let cys := [mkCycle (press_sw1 500) [quiet 600; quiet 9000] (press_sw1 9500);
              mkCycle (press_sw1 9700) [] (press_sw1 20000)] in
  state c = RUN /\ Timer.state (timerMain c) = Timer.Running /\
  Timer.remaining 20300 (timerMain (run_cycles cys c))
  = Timer.remaining (20300 - 19300) (timerMain c).
Proof.
  intros c cys.
  assert (Hf : Forall (fun cy => short_press (pause_press cy)
                                 /\ short_press (resume_press cy)) cys).
  { repeat constructor. }
  assert (Hs : state c = RUN) by reflexivity.
  assert (Ht : Timer.state (timerMain c) = Timer.Running) by reflexivity.
  split; [exact Hs|]. split; [exact Ht|].
  exact (proj2 (proj2 (pause_resume_remaining cys Hf c Hs Ht)) 20300).
Defined.

(** ** The relay is driven exactly in RUN (C3) *)

Lemma relay_inv_same (c c' : ctx) :
  same_state_relay c c' -> relay_inv c -> relay_inv c'.
Proof.
  intros [Hs Hp] H. unfold relay_inv, relay_on in *. rewrite Hs, Hp. exact H.
Qed.

Lemma setTime_same (v : Z) (c : ctx) : same_state_relay c (setTime v c).
Proof.
  unfold same_state_relay, setTime, setSeconds, setMinutes.
  repeat (split_if; proj_ctx); split; reflexivity.
Qed.

Lemma setting_same (e : option Z) (c : ctx) : same_state_relay c (setting e c).
Proof.
  unfold setting. destruct e as [step|]; proj_ctx.
  - destruct (setTime_same (to_int8 step) c) as [A B].
    split; cbn [pin_level]; assumption.
  - split; reflexivity.
Qed.

Lemma stop_relay (c : ctx) :
  state (stop c) = state c /\ pin_level OUT (trace (stop c)) = Some HIGH.
Proof. split; reflexivity. Qed.

Lemma state_setBeepTimers (type : Z) (c : ctx) :
  state (setBeepTimers type c) = state c.
Proof.
  unfold setBeepTimers. destruct (beep_delays type) as [[d1 d2] d3].
  reflexivity.
Qed.

Lemma trace_setBeepTimers (type : Z) (c : ctx) :
  trace (setBeepTimers type c) = trace c.
Proof.
  unfold setBeepTimers. destruct (beep_delays type) as [[d1 d2] d3].
  reflexivity.
Qed.

Lemma state_EEPROM_update (a v : Z) (c : ctx) :
  state (EEPROM_update a v c) = state c.
Proof.
  unfold EEPROM_update. destruct (_ =? _); reflexivity.
Qed.

Lemma trace_EEPROM_update (a v : Z) (c : ctx) :
  trace (EEPROM_update a v c) = trace c.
Proof.
  unfold EEPROM_update. destruct (_ =? _); reflexivity.
Qed.

(** *** The editors stay inside the menu *)

Lemma storeTime_in_menu (ps : list poll) (c c' : ctx) :
  in_menu c -> storeTime ps c = Some c' -> in_menu c'.
Proof.
  unfold storeTime.
  assert (G : forall ps mem c c',
             in_menu c -> storeTime_loop mem ps c = Some c' -> in_menu c').
  { clear. induction ps as [|p ps IH]; intros mem c c' Hc; [discriminate|].
    cbn [storeTime_loop]. revert c'. editor_step IH.
    - unfold in_menu in *. rewrite !state_EEPROM_update. exact Hc.
    - exact Hc.
    - exact Hc. }
  intros Hc. apply G. exact Hc.
Qed.

Lemma recallTime_in_menu (ps : list poll) (c c' : ctx) :
  in_menu c -> recallTime ps c = Some c' -> in_menu c'.
Proof.
  unfold recallTime.
  assert (G : forall ps mem c c',
             in_menu c -> recallTime_loop mem ps c = Some c' -> in_menu c').
  { clear. induction ps as [|p ps IH]; intros mem c c' Hc; [discriminate|].
    cbn [recallTime_loop]. revert c'. editor_step IH.
    - right. reflexivity.
    - exact Hc.
    - exact Hc. }
  intros Hc. apply G. exact Hc.
Qed.

Lemma setBrightness_in_menu (ps : list poll) (c c' : ctx) :
  in_menu c -> setBrightness ps c = Some c' -> in_menu c'.
Proof.
  unfold setBrightness.
  assert (G : forall ps temp c c',
             in_menu c -> setBrightness_loop temp ps c = Some c' -> in_menu c').
  { clear. induction ps as [|p ps IH]; intros temp c c' Hc; [discriminate|].
    cbn [setBrightness_loop]. revert c'. editor_step IH.
    - unfold in_menu in *. rewrite !state_EEPROM_update. exact Hc.
    - exact Hc.
    - exact Hc. }
  intros Hc H.
  destruct (setBrightness_loop _ _ _) as [c1|] eqn:E; [|discriminate].
  injection H as <-. change (in_menu c1). eapply G; [|exact E]. exact Hc.
Qed.

Lemma setBellType_in_menu (ps : list poll) (c c' : ctx) :
  in_menu c -> setBellType ps c = Some c' -> in_menu c'.
Proof.
  unfold setBellType.
  assert (G : forall ps type c c',
             in_menu c -> setBellType_loop type ps c = Some c' -> in_menu c').
  { clear. induction ps as [|p ps IH]; intros type c c' Hc; [discriminate|].
    cbn [setBellType_loop]. revert c'. editor_step IH.
    - unfold in_menu in *.
      rewrite state_setBeepTimers, state_EEPROM_update.
      destruct (encoder p); exact Hc.
    - destruct (encoder p); exact Hc.
    - destruct (encoder p); exact Hc. }
  intros Hc. apply G. exact Hc.
Qed.

Lemma setBellLength_in_menu (ps : list poll) (c c' : ctx) :
  in_menu c -> setBellLength ps c = Some c' -> in_menu c'.
Proof.
  unfold setBellLength.
  assert (G : forall ps len c c',
             in_menu c -> setBellLength_loop len ps c = Some c' -> in_menu c').
  { clear. induction ps as [|p ps IH]; intros len c c' Hc; [discriminate|].
    cbn [setBellLength_loop]. revert c'. editor_step IH.
    - unfold in_menu in *.
      rewrite state_setBeepTimers, state_EEPROM_update.
      destruct (encoder p); exact Hc.
    - destruct (encoder p); exact Hc.
    - destruct (encoder p); exact Hc. }
  intros Hc. apply G. exact Hc.
Qed.

Lemma menuItem_in_menu (clicked : bool) (ps : list poll) (c c' : ctx) :
  in_menu c -> menuItem clicked ps c = Some c' -> in_menu c'.
Proof.
  intros Hc H. unfold menuItem in H.
  repeat match type of H with
         | context [match ?x with _ => _ end] => destruct x
         end.
  all: first
    [ injection H as <-; exact Hc
    | eapply recallTime_in_menu; [|exact H]; exact Hc
    | eapply storeTime_in_menu; [|exact H]; exact Hc
    | eapply setBrightness_in_menu; [|exact H]; exact Hc
    | eapply setBellType_in_menu; [|exact H]; exact Hc
    | eapply setBellLength_in_menu; [|exact H]; exact Hc ].
Qed.

Lemma menuNaviguate_loop_exit (ms : list menu_poll) :
  forall c c',
    in_menu c -> menuNaviguate_loop ms c = Some c' -> state c' = SETTING.
Proof.
  induction ms as [|m ms IH]; intros c c' Hc H; [discriminate|].
  cbn [menuNaviguate_loop] in H. cbv zeta in H.
  match type of H with
  | match menuItem ?k ?ps ?d with _ => _ end = _ =>
      assert (Hd : in_menu d);
      [| destruct (menuItem k ps d) as [c1|] eqn:E; [|discriminate];
         pose proof (menuItem_in_menu k ps d c1 Hd E) as H1 ]
  end.
  - unfold in_menu in *.
    destruct (encoder (pass m)); repeat (destruct (_ && _)); proj_ctx;
      auto.
  - destruct H1 as [H1|H1]; rewrite H1 in H.
    + eapply IH; [|exact H]. left. exact H1.
    + injection H as <-. exact H1.
Qed.

Lemma menuNaviguate_relay (ms : list menu_poll) (c c' : ctx) :
  in_menu c -> menuNaviguate ms c = Some c' ->
  state c' = SETTING /\ pin_level OUT (trace c') = Some HIGH.
Proof.
  intros Hc H. unfold menuNaviguate in H.
  destruct (menuNaviguate_loop ms c) as [c1|] eqn:E; [|discriminate].
  injection H as <-.
  split; [|reflexivity].
  change (state c1 = SETTING). exact (menuNaviguate_loop_exit ms c c1 Hc E).
Qed.

(** *** Each part of a pass keeps the invariant *)

Lemma manageSW1_inv (p : poll) (c : ctx) :
  relay_inv c -> relay_inv (manageSW1 p c).
Proof.
  intros H. unfold manageSW1.
  destruct (state c) eqn:Hs.
  5: { destruct (isLongPressed (sw1 p)); [reflexivity|].
       destruct (justPressed (sw1 p)); [|exact H].
       apply (relay_inv_same c); [apply setting_same|exact H]. }
  4: { unfold relay_inv, relay_on in *. rewrite Hs in H. exact H. }
  all: destruct (isLongPressed (sw1 p)); [reflexivity|];
       destruct (justPressed (sw1 p)); [reflexivity|exact H].
Qed.

Lemma manageSW2_inv (p : poll) (ms : list menu_poll) (c c' : ctx) :
  relay_inv c -> manageSW2 p ms c = Some c' -> relay_inv c'.
Proof.
  intros H. unfold manageSW2.
  assert (Same : Some c = Some c' -> relay_inv c').
  { intros E. injection E as <-. exact H. }
  assert (Stop : Some (set_state SETTING (stop c)) = Some c' -> relay_inv c').
  { intros E. injection E as <-. reflexivity. }
  destruct (state c) eqn:Hs; cbn [state_eqb orb andb].
  4: { intros E. injection E as <-.
       unfold relay_inv, relay_on in *. rewrite Hs in H. exact H. }
  all: destruct (justPressed (sw2 p)), (isLongPressed (sw2 p));
       cbn [andb]; try exact Same; try exact Stop.
  all: intros E;
       assert (M : in_menu (emit LedClrAll (set_state MENU c)))
         by (left; reflexivity);
       destruct (menuNaviguate_relay ms _ c' M E) as [A B];
       unfold relay_inv, relay_on; rewrite A, B; reflexivity.
Qed.

Lemma running_inv (p : poll) (c : ctx) :
  state c = RUN -> relay_inv c -> relay_inv (running p c).
Proof.
  intros Hs H. unfold running.
  destruct (Timer.update (now p) (timerDots c)) as [blink td].
  destruct blink; proj_ctx;
    destruct (Timer.update (now p) (timerMain c)) as [e tm];
    destruct e; try split_if; try reflexivity; exact H.
Qed.

Lemma pause_inv (p : poll) (c : ctx) :
  relay_inv c -> relay_inv (pause p c).
Proof.
  intros H. unfold pause.
  destruct (Timer.update (now p) (timerPause _)) as [blink tp].
  destruct blink; exact H.
Qed.

Lemma beeping_inv (p : poll) (c : ctx) :
  relay_inv c -> relay_inv (beeping p c).
Proof.
  intros H. unfold beeping.
  destruct (Timer.update (now p) (timerBeep1 c)) as [f1 t1].
  destruct f1; proj_ctx;
    match goal with
    | |- context [Timer.update (now p) ?x] =>
        destruct (Timer.update (now p) x) as [f2 t2]
    end;
    destruct f2; proj_ctx;
    destruct (Timer.update (now p) (timerBeep3 c)) as [f3 t3];
    destruct f3; try reflexivity; exact H.
Qed.

Lemma showVersion_same (n : nat) :
  forall i v c, same_state_relay c (showVersion n i v c).
Proof.
  induction n as [|n IH]; intros i v c; [split; reflexivity|].
  cbn [showVersion].
  destruct (IH (i + 1) (v / 10) (emit (LedSetDigit (3 - i) (v mod 10)) c))
    as [A B].
  split; [exact A|exact B].
Qed.

Lemma eepromInit_same (c : ctx) : same_state_relay c (eepromInit c).
Proof.
  assert (I : forall n i c, same_state_relay c (eepromInit_loop n i c)).
  { induction n as [|n IH]; intros i d; [split; reflexivity|].
    cbn [eepromInit_loop].
    destruct (IH (i + 1)
      (EEPROM_write (memAdd + i + 1) 0 (EEPROM_write (memAdd + i) 0 d)))
      as [A B].
    split; [exact A|exact B]. }
  unfold eepromInit. cbv zeta.
  destruct (I (Z.to_nat maxStore) 0
    (EEPROM_write bellLAdd 5 (EEPROM_write bellTAdd 1
       (EEPROM_write brightAdd 8 c)))) as [A B].
  split; [exact A|exact B].
Qed.

Lemma state_emit (e : io) (c : ctx) : state (emit e c) = state c.
Proof. reflexivity. Qed.

Lemma trace_emit (e : io) (c : ctx) : trace (emit e c) = e :: trace c.
Proof. reflexivity. Qed.

Lemma pin_level_skip (pin : Z) (e : io) (tr : list io) :
  match e with DigitalWrite _ _ => False | _ => True end ->
  pin_level pin (e :: tr) = pin_level pin tr.
Proof.
  destruct e; intros H; try reflexivity. destruct H.
Qed.

Lemma setup_relay (rom : Z -> Z) (pinSW1 pinSW2 : bool) :
  let c := setup pinSW1 pinSW2 (power_on rom) in
  state c = SETTING /\ pin_level OUT (trace c) = Some HIGH.
Proof.
  unfold setup. cbv zeta.
  match goal with
  | |- context [setBeepTimers ?t ?w] =>
      pose proof (state_setBeepTimers t w) as Hst;
      set (c0 := setBeepTimers t w) in *
  end.
  change (state c0 = SETTING) in Hst. clearbody c0.
  match goal with
  | |- context [beepOff ?y] => set (c1 := beepOff y)
  end.
  assert (H1 : state c1 = SETTING /\ pin_level OUT (trace c1) = Some HIGH).
  { subst c1. unfold beepSetup. proj_ctx. split; [exact Hst|reflexivity]. }
  clearbody c1. destruct H1 as [S1 P1].
  destruct (eepromInit_same (showVersion 4 0 SW_VERSION c1)) as [A B].
  destruct (showVersion_same 4 0 SW_VERSION c1) as [C D].
  destruct pinSW1, pinSW2; cbn [negb];
    rewrite !state_emit, !trace_emit, !pin_level_skip by exact I;
    rewrite ?A, ?B, ?C, ?D; split; assumption.
Qed.

Lemma setup_inv (rom : Z -> Z) (pinSW1 pinSW2 : bool) :
  relay_inv (setup pinSW1 pinSW2 (power_on rom)).
Proof.
  destruct (setup_relay rom pinSW1 pinSW2) as [A B].
  unfold relay_inv, relay_on. rewrite A, B. reflexivity.
Qed.

Lemma loop_inv (i : loop_input) (c c' : ctx) :
  relay_inv c -> loop i c = Some c' -> relay_inv c'.
Proof.
  intros H. unfold loop.
  set (c1 := if update (sw1 (top i)) then manageSW1 (top i) c else c).
  assert (H1 : relay_inv c1).
  { subst c1. destruct (update (sw1 (top i))); [apply manageSW1_inv|]; exact H. }
  clearbody c1.
  destruct (if update (sw2 (top i)) then manageSW2 (top i) (menu_sw2 i) c1
            else Some c1) as [c2|] eqn:E2; [|discriminate].
  assert (H2 : relay_inv c2).
  { destruct (update (sw2 (top i))).
    - exact (manageSW2_inv _ _ _ _ H1 E2).
    - injection E2 as <-. exact H1. }
  destruct (state c2) eqn:Hs; intros E.
  - injection E as <-. exact (relay_inv_same _ _ (setting_same _ c2) H2).
  - injection E as <-. exact (running_inv _ _ Hs H2).
  - injection E as <-. exact (pause_inv _ _ H2).
  - injection E as <-. exact (beeping_inv _ _ H2).
  - destruct (menuNaviguate_relay _ c2 c' (or_introl Hs) E) as [A B].
    unfold relay_inv, relay_on. rewrite A, B. reflexivity.
Qed.

Lemma reachable_relay_inv (c : ctx) : reachable c -> relay_inv c.
Proof.
  induction 1 as [rom a b|c c' i _ IH E].
  - apply setup_inv.
  - exact (loop_inv i c c' IH E).
Qed.

Lemma reachable_run_loops (inputs : list loop_input) :
  forall c c',
    reachable c -> run_loops inputs (Some c) = Some c' -> reachable c'.
Proof.
  induction inputs as [|i inputs IH]; intros c c' R H.
  - injection H as <-. exact R.
  - cbn [run_loops fold_left] in H.
    destruct (loop i c) as [c1|] eqn:E.
    + exact (IH c1 c' (reach_loop c c1 i R E) H).
    + exfalso. clear -H. induction inputs as [|j inputs IHi]; [discriminate|].
      exact (IHi H).
Qed.

(** C3.  In every state reached from [setup()] by passes of [loop()], the
    relay is driven if and only if the state is RUN.  A short press of
    switch 1 drives it on SETTING -> RUN and PAUSE -> RUN and releases it on
    RUN -> PAUSE; a long press of either switch in RUN or PAUSE releases it
    and leads to SETTING. *)
Theorem relay_iff_running (c : ctx) :
  reachable c ->
  (relay_on c = true <-> state c = RUN) /\
  (forall p, short_press p ->
     (state c = SETTING ->
        state (manageSW1 p c) = RUN /\ relay_on (manageSW1 p c) = true) /\
     (state c = PAUSE ->
        state (manageSW1 p c) = RUN /\ relay_on (manageSW1 p c) = true) /\
     (state c = RUN ->
        state (manageSW1 p c) = PAUSE /\ relay_on (manageSW1 p c) = false)) /\
  (forall p ms, state c = RUN \/ state c = PAUSE ->
     (isLongPressed (sw1 p) = true ->
        state (manageSW1 p c) = SETTING /\ relay_on (manageSW1 p c) = false) /\
     (isLongPressed (sw2 p) = true ->
        exists c', manageSW2 p ms c = Some c' /\
                   state c' = SETTING /\ relay_on c' = false)).
Proof.
  intros R. split; [|split].
  - pose proof (reachable_relay_inv c R) as H. unfold relay_inv in H.
    rewrite H. destruct (state c); cbn [state_eqb]; split; congruence.
  - intros p [L J]. unfold manageSW1. rewrite L, J.
    split; [|split]; intros Hs; rewrite Hs; split; reflexivity.
  - intros p ms Hs. unfold manageSW1, manageSW2. split; intros L; rewrite L.
    + destruct Hs as [Hs|Hs]; rewrite Hs; split; reflexivity.
    + destruct Hs as [Hs|Hs]; rewrite Hs; cbn [state_eqb andb orb];
        rewrite Bool.andb_false_r; eexists; repeat split.
Qed.

Lemma relay_iff_running_witness :
  reachable running_ctx /\
  (relay_on running_ctx = true <-> state running_ctx = RUN).
Proof.
  assert (R : reachable running_ctx).
  { apply (reachable_run_loops
             [mkLoopInput (turn 1) [] []; mkLoopInput (turn 1) [] [];
              mkLoopInput (press_sw1 0) [] []]
             (started (fun _ => 0))).
    - exact (reach_setup (fun _ => 0) HIGH HIGH).
    - vm_compute. reflexivity. }
  split; [exact R|]. exact (proj1 (relay_iff_running running_ctx R)).
Defined.

(** ** Cancelling the beep (C10) *)

(** C10.  In BEEPING, [manageSW1] and [manageSW2] do the same: the three
    beep timers are stopped, the only command issued is the one that
    silences the beep (nothing is written to the display or to the output
    pins), the set time and the countdown timers are left alone, and the
    state is SETTING; in a reachable state the relay was released already
    and stays so.  The exit on the third beep timer, by contrast, runs
    [stop]: it drives both output pins and rewrites enable, dots, minutes
    and seconds of the display. *)
Theorem beeping_cancel (p : poll) (ms : list menu_poll) (c : ctx) :
  state c = BEEPING ->
  let c' := manageSW1 p c in
  manageSW2 p ms c = Some c' /\
  state c' = SETTING /\
  minutes c' = minutes c /\ seconds c' = seconds c /\
  Timer.state (timerBeep1 c') = Timer.Stopped /\
  Timer.state (timerBeep2 c') = Timer.Stopped /\
  Timer.state (timerBeep3 c') = Timer.Stopped /\
  trace c' = BeepOff :: trace c /\
  beep_is_on (trace c') = false /\
  pin_level OUT (trace c') = pin_level OUT (trace c) /\
  timerMain c' = timerMain c /\ timerDots c' = timerDots c /\
  (reachable c -> relay_on c = false /\ relay_on c' = false) /\
  (fst (Timer.update (now p) (timerBeep3 c)) = true ->
   exists tr,
     trace (beeping p c)
     = ClockSetSeconds (seconds c) :: ClockSetMinutes (minutes c)
       :: ClockSetDots true :: ClockEnable true
       :: DigitalWrite OUT2 HIGH :: DigitalWrite OUT HIGH :: BeepOff :: tr).
Proof.
  intros Hs c'. subst c'. unfold manageSW1, manageSW2. rewrite Hs.
  unfold stopBeepTimers. proj_ctx.
  repeat (split; [reflexivity|]).
  split.
  { intros R. pose proof (reachable_relay_inv c R) as H.
    unfold relay_inv in H. rewrite Hs in H. cbn [state_eqb] in H.
    split; [exact H|]. unfold relay_on in *. proj_ctx.
    cbn [pin_level]. exact H. }
  intros Hfire. unfold beeping.
  destruct (Timer.update (now p) (timerBeep1 c)) as [f1 t1].
  destruct f1; proj_ctx.
  - destruct (Timer.update (now p) (Timer.start (now p) Timer.Once (timerBeep2 c)))
      as [f2 t2].
    destruct f2; proj_ctx;
      destruct (Timer.update (now p) (timerBeep3 c)) as [f3 t3];
      cbn [fst] in Hfire; subst f3; unfold stop; proj_ctx;
      eexists; reflexivity.
  - destruct (Timer.update (now p) (timerBeep2 c)) as [f2 t2].
    destruct f2; proj_ctx;
      destruct (Timer.update (now p) (timerBeep3 c)) as [f3 t3];
      cbn [fst] in Hfire; subst f3; unfold stop; proj_ctx;
      eexists; reflexivity.
Qed.

Lemma beeping_cancel_witness :
  state beeping_ctx = BEEPING /\
  manageSW2 (press_sw2 2500) [] beeping_ctx
  = Some (manageSW1 (press_sw2 2500) beeping_ctx) /\
  state (manageSW1 (press_sw1 2500) beeping_ctx) = SETTING /\
  trace (manageSW1 (press_sw1 2500) beeping_ctx) = BeepOff :: trace beeping_ctx.
Proof.
  assert (H : state beeping_ctx = BEEPING) by reflexivity.
  split; [exact H|].
  split; [exact (proj1 (beeping_cancel (press_sw2 2500) [] beeping_ctx H))|].
  destruct (beeping_cancel (press_sw1 2500) [] beeping_ctx H)
    as (_ & Hst & _ & _ & _ & _ & _ & Htr & _).
  split; [exact Hst|exact Htr].
Defined.

(** ** Clamping of the settings (C8) *)

Lemma EEPROM_update_cases (a v : Z) (c : ctx) :
  EEPROM_update a v c = c \/ EEPROM_update a v c = EEPROM_write a v c.
Proof.
  unfold EEPROM_update. destruct (_ =? _); [left|right]; reflexivity.
Qed.

Lemma turn_mem_range (mem : Z) (enc : option Z) :
  1 <= mem <= 64 -> 1 <= turn_mem mem enc <= 64.
Proof.
  intros H. unfold turn_mem, maxStore. destruct enc as [step|]; [|exact H].
  repeat split_if; lia.
Qed.

Lemma turn_brightness_range (b : Z) (enc : option Z) :
  1 <= b <= 16 -> 1 <= turn_brightness b enc <= 16.
Proof.
  intros H. unfold turn_brightness. destruct enc as [step|]; [|exact H].
  repeat split_if; lia.
Qed.

Lemma turn_bell_range (top v step : Z) :
  0 <= top <= 254 -> 0 <= v <= top -> 0 <= turn_bell top v step <= top.
Proof.
  intros Ht H. unfold turn_bell.
  repeat split_if; rewrite ?to_uint8_id in * by lia; lia.
Qed.

Lemma storeTime_loop_mem (ps : list poll) :
  forall mem c c',
    1 <= mem <= 64 -> 1 <= currentMem c <= 64 ->
    storeTime_loop mem ps c = Some c' -> 1 <= currentMem c' <= 64.
Proof.
  induction ps as [|p ps IH]; intros mem c c' Hm Hc; [discriminate|].
  cbn [storeTime_loop]. cbv zeta.
  pose proof (turn_mem_range mem (encoder p) Hm) as Ht.
  destruct (justPressed (sw1 p)); [|destruct (justPressed (sw2 p))]; intros H.
  - injection H as <-.
    repeat match goal with
    | |- context [EEPROM_update ?a ?v ?d] =>
        destruct (EEPROM_update_cases a v d) as [-> | ->]
    end; exact Ht.
  - injection H as <-. exact Hc.
  - eapply IH; [exact Ht| |exact H]. exact Hc.
Qed.

Lemma recallTime_loop_mem (ps : list poll) :
  forall mem c c',
    1 <= mem <= 64 -> 1 <= currentMem c <= 64 ->
    recallTime_loop mem ps c = Some c' ->
    1 <= currentMem c' <= 64 /\
    ((minutes c' = minutes c /\ seconds c' = seconds c) \/
     (minutes c' = to_int8 (EEPROM_read (memAdd + 2 * currentMem c') c) /\
      seconds c' = to_int8 (EEPROM_read (memAdd + 2 * currentMem c' + 1) c))).
Proof.
  induction ps as [|p ps IH]; intros mem c c' Hm Hc; [discriminate|].
  cbn [recallTime_loop]. cbv zeta.
  pose proof (turn_mem_range mem (encoder p) Hm) as Ht.
  destruct (justPressed (sw1 p)); [|destruct (justPressed (sw2 p))]; intros H.
  - injection H as <-. split; [exact Ht|]. right. split; reflexivity.
  - injection H as <-. split; [exact Hc|]. left. split; reflexivity.
  - exact (IH _ (show_mem "M-" (turn_mem mem (encoder p)) c) _ Ht Hc H).
Qed.

Lemma setBrightness_loop_range (ps : list poll) :
  forall temp c c',
    1 <= temp <= 16 -> 1 <= brightness c <= 16 ->
    setBrightness_loop temp ps c = Some c' -> 1 <= brightness c' <= 16.
Proof.
  induction ps as [|p ps IH]; intros temp c c' Hm Hc; [discriminate|].
  cbn [setBrightness_loop]. cbv zeta.
  pose proof (turn_brightness_range temp (encoder p) Hm) as Ht.
  destruct (justPressed (sw1 p)); [|destruct (justPressed (sw2 p))]; intros H.
  - injection H as <-.
    match goal with
    | |- context [EEPROM_update ?a ?v ?d] =>
        destruct (EEPROM_update_cases a v d) as [-> | ->]
    end; exact Ht.
  - injection H as <-. exact Hc.
  - eapply IH; [exact Ht| |exact H]. exact Hc.
Qed.

Lemma setBeepTimers_keeps (type : Z) (c : ctx) :
  bellType (setBeepTimers type c) = bellType c /\
  bellLength (setBeepTimers type c) = bellLength c.
Proof.
  unfold setBeepTimers. destruct (beep_delays type) as [[d1 d2] d3].
  split; reflexivity.
Qed.

Lemma setBellType_loop_range (ps : list poll) :
  forall type c c',
    0 <= type <= 8 -> 0 <= bellType c <= 8 ->
    setBellType_loop type ps c = Some c' -> 0 <= bellType c' <= 8.
Proof.
  induction ps as [|p ps IH]; intros type c c' Hm Hc; [discriminate|].
  cbn [setBellType_loop]. cbv zeta.
  assert (Ht : 0 <= match encoder p with
                    | Some step => turn_bell maxType type step
                    | None => type
                    end <= 8).
  { destruct (encoder p); [|exact Hm].
    apply (turn_bell_range maxType); unfold maxType; lia. }
  destruct (justPressed (sw1 p)); [|destruct (justPressed (sw2 p))]; intros H.
  - injection H as <-.
    rewrite (proj1 (setBeepTimers_keeps _ _)).
    match goal with
    | |- context [EEPROM_update ?a ?v ?d] =>
        destruct (EEPROM_update_cases a v d) as [-> | ->]
    end; exact Ht.
  - injection H as <-. destruct (encoder p); exact Hc.
  - eapply IH; [exact Ht| |exact H]. destruct (encoder p); exact Hc.
Qed.

Lemma setBellLength_loop_range (ps : list poll) :
  forall len c c',
    0 <= len <= 90 -> 0 <= bellLength c <= 90 ->
    setBellLength_loop len ps c = Some c' -> 0 <= bellLength c' <= 90.
Proof.
  induction ps as [|p ps IH]; intros len c c' Hm Hc; [discriminate|].
  cbn [setBellLength_loop]. cbv zeta.
  assert (Ht : 0 <= match encoder p with
                    | Some step => turn_bell maxTime len step
                    | None => len
                    end <= 90).
  { destruct (encoder p); [|exact Hm].
    apply (turn_bell_range maxTime); unfold maxTime; lia. }
  destruct (justPressed (sw1 p)); [|destruct (justPressed (sw2 p))]; intros H.
  - injection H as <-.
    rewrite (proj2 (setBeepTimers_keeps _ _)).
    match goal with
    | |- context [EEPROM_update ?a ?v ?d] =>
        destruct (EEPROM_update_cases a v d) as [-> | ->]
    end; exact Ht.
  - injection H as <-. destruct (encoder p); exact Hc.
  - eapply IH; [exact Ht| |exact H]. destruct (encoder p); exact Hc.
Qed.

Lemma sat_range (lo hi v step : Z) : lo <= hi -> lo <= sat lo hi v step <= hi.
Proof. unfold sat. lia. Qed.

Lemma turn_mem_sat (v step : Z) :
  1 <= v <= 64 -> -128 <= step <= 127 -> 0 <= v + step ->
  turn_mem v (Some step) = sat 1 64 v step.
Proof.
  intros Hv Hs Hn. unfold turn_mem, maxStore, sat.
  rewrite (to_uint8_id (v + step)) by lia.
  destruct (Z.ltb_spec (v + step) 1); repeat split_if; lia.
Qed.

Lemma turn_brightness_sat (v step : Z) :
  1 <= v <= 16 -> -128 <= step <= 127 -> 0 <= v + step ->
  turn_brightness v (Some step) = sat 1 16 v step.
Proof.
  intros Hv Hs Hn. unfold turn_brightness, sat.
  rewrite (to_uint8_id (v + step)) by lia.
  destruct (Z.ltb_spec (v + step) 1); repeat split_if; lia.
Qed.

Lemma turn_bell_sat (top v step : Z) :
  0 <= top <= 254 -> 0 <= v <= top ->
  turn_bell top v step = bell_step top v step.
Proof.
  intros Ht Hv. unfold turn_bell, bell_step, sat.
  repeat split_if; rewrite ?to_uint8_id in * by lia; lia.
Qed.

(** One pass of an editor on the working value, when no step wraps. *)
Lemma no_wrap_pass (lo hi v : Z) (p : poll) (ps : list poll)
    (turned : Z -> option Z -> Z) :
  lo <= hi -> lo <= v <= hi ->
  (forall step, -128 <= step <= 127 -> 0 <= v + step ->
                turned v (Some step) = sat lo hi v step) ->
  turned v None = v ->
  no_wrap lo hi v (p :: ps) = true ->
  turned v (encoder p)
  = match encoder p with Some step => sat lo hi v step | None => v end /\
  lo <= turned v (encoder p) <= hi /\
  (justPressed (sw1 p) = false -> justPressed (sw2 p) = false ->
   no_wrap lo hi (turned v (encoder p)) ps = true).
Proof.
  intros Hb Hv Hsat Hnone H. cbn [no_wrap] in H.
  destruct (encoder p) as [step|].
  - apply andb_prop in H. destruct H as [H H4].
    apply andb_prop in H. destruct H as [H H3].
    apply andb_prop in H. destruct H as [H1 H2].
    apply Z.leb_le in H1, H2, H3.
    rewrite (Hsat step) by lia.
    split; [reflexivity|]. split; [apply sat_range; exact Hb|].
    intros B1 B2. rewrite B1, B2 in H4. exact H4.
  - rewrite Hnone. split; [reflexivity|]. split; [exact Hv|].
    intros B1 B2. rewrite B1, B2 in H. exact H.
Qed.

Lemma storeTime_loop_sat (ps : list poll) :
  forall mem c c',
    1 <= mem <= 64 -> no_wrap 1 64 mem ps = true ->
    storeTime_loop mem ps c = Some c' ->
    currentMem c' = editor_value (sat 1 64) (currentMem c) mem ps.
Proof.
  induction ps as [|p ps IH]; intros mem c c' Hm Hw; [discriminate|].
  destruct (no_wrap_pass 1 64 mem p ps turn_mem) as (T & R & N);
    [lia|exact Hm|intros; apply turn_mem_sat; assumption|reflexivity
    |exact Hw|].
  cbn [storeTime_loop editor_value]. cbv zeta. rewrite <- T.
  destruct (justPressed (sw1 p)); [|destruct (justPressed (sw2 p))]; intros H.
  - injection H as <-.
    repeat match goal with
    | |- context [EEPROM_update ?a ?v ?d] =>
        destruct (EEPROM_update_cases a v d) as [-> | ->]
    end; reflexivity.
  - injection H as <-. reflexivity.
  - exact (IH _ _ c' R (N eq_refl eq_refl) H).
Qed.

Lemma recallTime_loop_sat (ps : list poll) :
  forall mem c c',
    1 <= mem <= 64 -> no_wrap 1 64 mem ps = true ->
    recallTime_loop mem ps c = Some c' ->
    currentMem c' = editor_value (sat 1 64) (currentMem c) mem ps.
Proof.
  induction ps as [|p ps IH]; intros mem c c' Hm Hw; [discriminate|].
  destruct (no_wrap_pass 1 64 mem p ps turn_mem) as (T & R & N);
    [lia|exact Hm|intros; apply turn_mem_sat; assumption|reflexivity
    |exact Hw|].
  cbn [recallTime_loop editor_value]. cbv zeta. rewrite <- T.
  destruct (justPressed (sw1 p)); [|destruct (justPressed (sw2 p))]; intros H.
  - injection H as <-. reflexivity.
  - injection H as <-. reflexivity.
  - exact (IH _ _ c' R (N eq_refl eq_refl) H).
Qed.

Lemma setBrightness_loop_sat (ps : list poll) :
  forall temp c c',
    1 <= temp <= 16 -> no_wrap 1 16 temp ps = true ->
    setBrightness_loop temp ps c = Some c' ->
    brightness c' = editor_value (sat 1 16) (brightness c) temp ps.
Proof.
  induction ps as [|p ps IH]; intros temp c c' Hm Hw; [discriminate|].
  destruct (no_wrap_pass 1 16 temp p ps turn_brightness) as (T & R & N);
    [lia|exact Hm|intros; apply turn_brightness_sat; assumption|reflexivity
    |exact Hw|].
  cbn [setBrightness_loop editor_value]. cbv zeta. rewrite <- T.
  destruct (justPressed (sw1 p)); [|destruct (justPressed (sw2 p))]; intros H.
  - injection H as <-.
    match goal with
    | |- context [EEPROM_update ?a ?v ?d] =>
        destruct (EEPROM_update_cases a v d) as [-> | ->]
    end; reflexivity.
  - injection H as <-. reflexivity.
  - exact (IH _ _ c' R (N eq_refl eq_refl) H).
Qed.

Lemma setBellType_loop_sat (ps : list poll) :
  forall type c c',
    0 <= type <= 8 ->
    setBellType_loop type ps c = Some c' ->
    bellType c' = editor_value (bell_step maxType) (bellType c) type ps.
Proof.
  induction ps as [|p ps IH]; intros type c c' Hm; [discriminate|].
  cbn [setBellType_loop editor_value]. cbv zeta.
  assert (T : match encoder p with
              | Some step => turn_bell maxType type step
              | None => type
              end
              = match encoder p with
                | Some step => bell_step maxType type step
                | None => type
                end).
  { destruct (encoder p); [|reflexivity].
    apply turn_bell_sat; unfold maxType; lia. }
  rewrite <- T.
  assert (R : 0 <= match encoder p with
                   | Some step => turn_bell maxType type step
                   | None => type
                   end <= 8).
  { destruct (encoder p); [|exact Hm].
    apply (turn_bell_range maxType); unfold maxType; lia. }
  destruct (justPressed (sw1 p)); [|destruct (justPressed (sw2 p))]; intros H.
  - injection H as <-.
    rewrite (proj1 (setBeepTimers_keeps _ _)).
    match goal with
    | |- context [EEPROM_update ?a ?v ?d] =>
        destruct (EEPROM_update_cases a v d) as [-> | ->]
    end; reflexivity.
  - injection H as <-. destruct (encoder p); reflexivity.
  - rewrite (IH _ _ c' R H). destruct (encoder p); reflexivity.
Qed.

Lemma setBellLength_loop_sat (ps : list poll) :
  forall len c c',
    0 <= len <= 90 ->
    setBellLength_loop len ps c = Some c' ->
    bellLength c' = editor_value (bell_step maxTime) (bellLength c) len ps.
Proof.
  induction ps as [|p ps IH]; intros len c c' Hm; [discriminate|].
  cbn [setBellLength_loop editor_value]. cbv zeta.
  assert (T : match encoder p with
              | Some step => turn_bell maxTime len step
              | None => len
              end
              = match encoder p with
                | Some step => bell_step maxTime len step
                | None => len
                end).
  { destruct (encoder p); [|reflexivity].
    apply turn_bell_sat; unfold maxTime; lia. }
  rewrite <- T.
  assert (R : 0 <= match encoder p with
                   | Some step => turn_bell maxTime len step
                   | None => len
                   end <= 90).
  { destruct (encoder p); [|exact Hm].
    apply (turn_bell_range maxTime); unfold maxTime; lia. }
  destruct (justPressed (sw1 p)); [|destruct (justPressed (sw2 p))]; intros H.
  - injection H as <-.
    rewrite (proj2 (setBeepTimers_keeps _ _)).
    match goal with
    | |- context [EEPROM_update ?a ?v ?d] =>
        destruct (EEPROM_update_cases a v d) as [-> | ->]
    end; reflexivity.
  - injection H as <-. destruct (encoder p); reflexivity.
  - rewrite (IH _ _ c' R H). destruct (encoder p); reflexivity.
Qed.

(** C8 (counterexample).  A recalled duration can leave 00:00..99:59: over
    an erased EEPROM (every byte 255) recalling slot 1 sets minutes and
    seconds to -1. *)
Lemma recallTime_not_clamped :
  exists c',
    recallTime [press_sw1 0] (started (fun _ => 255)) = Some c' /\
    minutes c' = -1 /\ seconds c' = -1 /\ ~ valid_time c'.
Proof.
  eexists. split; [reflexivity|].
  split; [reflexivity|]. split; [reflexivity|].
  unfold valid_time. cbn. lia.
Qed.

(** C8 (amended).  What the encoder changes saturates at its bounds: from
    values in range, every sequence of steps of at most two detents keeps
    the set time in 00:00..99:59, and every sequence of readings given to
    an editor leaves the saturating sum of the steps: the slot index
    clamped to 1..64, the brightness to 1..16, the alert type to 0..8 and
    the alert length to 0..90 (one unit per encoder event for the last
    two), as long as no step takes a slot index or a brightness below
    zero.  What is read back from the EEPROM is not validated: a recall
    sets minutes and seconds to the two bytes of the slot, as they are
    stored. *)
Theorem encoder_values_clamped :
  (forall steps c,
     Forall (fun v => -2 <= v <= 2) steps ->
     valid_time c -> valid_time (setTime_seq steps c)) /\
  (forall ps c c',
     1 <= currentMem c <= 64 -> no_wrap 1 64 (currentMem c) ps = true ->
     storeTime ps c = Some c' ->
     currentMem c'
     = editor_value (sat 1 64) (currentMem c) (currentMem c) ps /\
     1 <= currentMem c' <= 64) /\
  (forall ps c c',
     1 <= currentMem c <= 64 -> no_wrap 1 64 (currentMem c) ps = true ->
     recallTime ps c = Some c' ->
     currentMem c'
     = editor_value (sat 1 64) (currentMem c) (currentMem c) ps /\
     1 <= currentMem c' <= 64 /\
     ((minutes c' = minutes c /\ seconds c' = seconds c) \/
      (minutes c' = to_int8 (EEPROM_read (memAdd + 2 * currentMem c') c) /\
       seconds c'
       = to_int8 (EEPROM_read (memAdd + 2 * currentMem c' + 1) c)))) /\
  (forall ps c c',
     1 <= brightness c <= 16 -> no_wrap 1 16 (brightness c) ps = true ->
     setBrightness ps c = Some c' ->
     brightness c'
     = editor_value (sat 1 16) (brightness c) (brightness c) ps /\
     1 <= brightness c' <= 16) /\
  (forall ps c c',
     0 <= bellType c <= 8 -> setBellType ps c = Some c' ->
     bellType c'
     = editor_value (bell_step maxType) (bellType c) (bellType c) ps /\
     0 <= bellType c' <= 8) /\
  (forall ps c c',
     0 <= bellLength c <= 90 -> setBellLength ps c = Some c' ->
     bellLength c'
     = editor_value (bell_step maxTime) (bellLength c) (bellLength c) ps /\
     0 <= bellLength c' <= 90).
Proof.
  split; [|split; [|split; [|split; [|split]]]].
  - intros steps c Hs Hc. exact (setTime_seq_valid steps Hs c Hc).
  - intros ps c c' Hc Hw H. split.
    + exact (storeTime_loop_sat ps _ (emit LedClrAll c) c' Hc Hw H).
    + exact (storeTime_loop_mem ps _ (emit LedClrAll c) c' Hc Hc H).
  - intros ps c c' Hc Hw H. split.
    + exact (recallTime_loop_sat ps _ (emit LedClrAll c) c' Hc Hw H).
    + exact (recallTime_loop_mem ps _ (emit LedClrAll c) c' Hc Hc H).
  - intros ps c c' Hc Hw H. unfold setBrightness in H.
    destruct (setBrightness_loop _ _ _) as [c1|] eqn:E; [|discriminate].
    injection H as <-. split.
    + exact (setBrightness_loop_sat ps _ (emit LedClrAll c) c1 Hc Hw E).
    + exact (setBrightness_loop_range ps _ (emit LedClrAll c) c1 Hc Hc E).
  - intros ps c c' Hc H.
    unfold setBellType in H. cbv zeta in H. split.
    + exact (setBellType_loop_sat ps _ _ c' Hc H).
    + eapply setBellType_loop_range; [| |exact H]; exact Hc.
  - intros ps c c' Hc H.
    unfold setBellLength in H. cbv zeta in H. split.
    + exact (setBellLength_loop_sat ps _ _ c' Hc H).
    + eapply setBellLength_loop_range; [| |exact H]; exact Hc.
Qed.

Lemma encoder_values_clamped_witness :
  let c := started (fun _ => 0) in
  let ps := [turn 70; turn (-3); press_sw1 0] in
  Forall (fun v => -2 <= v <= 2) [2; -1; 2] /\
  valid_time c /\
  valid_time (setTime_seq [2; -1; 2] c) /\
  1 <= currentMem c <= 64 /\
  no_wrap 1 64 (currentMem c) ps = true /\
  match storeTime ps c with
  | Some c' => currentMem c' = 61
  | None => True
  end.
Proof.
  intros c ps.
  assert (F : Forall (fun v => -2 <= v <= 2) [2; -1; 2])
    by (repeat constructor; lia).
  assert (V : valid_time c) by (vm_compute; intuition discriminate).
  assert (M : 1 <= currentMem c <= 64) by (vm_compute; intuition discriminate).
  assert (W : no_wrap 1 64 (currentMem c) ps = true)
    by (vm_compute; reflexivity).
  split; [exact F|]. split; [exact V|].
  split; [exact (proj1 encoder_values_clamped [2; -1; 2] c F V)|].
  split; [exact M|]. split; [exact W|].
  destruct (storeTime ps c) as [c'|] eqn:E; [|exact I].
  rewrite (proj1 (proj1 (proj2 encoder_values_clamped) ps c c' M W E)).
  vm_compute. reflexivity.
Defined.

(** ** Encoder steps on a valid time *)

(** What one call of [setSeconds] does to the pair and to the display, on a
    valid time and for a scaled step of at most 60 seconds. *)
Lemma setSeconds_effect (value : Z) (c : ctx) :
  valid_time c -> -60 <= value <= 60 ->
  let s := seconds c + value in
  let c' := setSeconds value c in
  (0 <= s < 60 /\ minutes c' = minutes c /\ seconds c' = s /\
   trace c' = ClockSetSeconds s :: trace c) \/
  (60 <= s /\ minutes c < 98 /\ minutes c' = minutes c + 1 /\
   seconds c' = s - 60 /\
   trace c' = ClockSetSeconds (s - 60) :: ClockSetMinutes (minutes c + 1)
              :: trace c) \/
  (60 <= s /\ 98 <= minutes c /\ minutes c' = 99 /\ seconds c' = 59 /\
   trace c' = ClockSetSeconds 59 :: trace c) \/
  (s < 0 /\ 0 < minutes c /\ minutes c' = minutes c - 1 /\
   seconds c' = s + 60 /\
   trace c' = ClockSetSeconds (s + 60) :: ClockSetMinutes (minutes c - 1)
              :: trace c) \/
  (s < 0 /\ minutes c = 0 /\ minutes c' = 0 /\ seconds c' = 0 /\
   trace c' = ClockSetSeconds 0 :: trace c).
Proof.
  intros [Hm Hs] Hv s c'. subst s c'.
  unfold setSeconds, setMinutes. proj_ctx.
  rewrite (to_int8_id (seconds c + value)) by lia.
  rewrite (to_int8_id (minutes c + 1)) by lia.
  rewrite (to_int8_id (minutes c + -1)) by lia.
  assert (R : 60 <= seconds c + value ->
              to_int8 (Z.rem (seconds c + value) 60) = seconds c + value - 60).
  { intros H. rewrite Z.rem_mod_nonneg by lia.
    assert (E : (seconds c + value) mod 60 = seconds c + value - 60).
    { symmetry. apply (Z.mod_unique _ 60 1); lia. }
    rewrite E. apply to_int8_id. lia. }
  repeat (split_if; proj_ctx); try lia.
  all: rewrite ?R by lia;
       rewrite ?(to_int8_id (seconds c + value + 60)) by lia;
       replace (minutes c + -1) with (minutes c - 1) by lia.
  all: first
    [ left; solve [repeat split; first [lia | reflexivity]]
    | right; left; solve [repeat split; first [lia | reflexivity]]
    | right; right; left; solve [repeat split; first [lia | reflexivity]]
    | right; right; right; left;
      solve [repeat split; first [lia | reflexivity]]
    | right; right; right; right;
      solve [repeat split; first [lia | reflexivity]] ].
Qed.

Lemma setTime_fields (v : Z) (c : ctx) :
  let c1 := setSeconds (to_int8 (v * multiplier (duration c))) c in
  minutes (setTime v c) = minutes c1 /\
  seconds (setTime v c) = seconds c1 /\
  trace (setTime v c) = trace c1 /\
  duration (setTime v c) = to_int16 (60 * minutes c1 + seconds c1).
Proof.
  unfold setTime, multiplier.
  repeat split_if; rewrite ?Z.mul_1_r; repeat split; reflexivity.
Qed.

Lemma scaled_step_bound (v d : Z) :
  -2 <= v <= 2 ->
  to_int8 (v * multiplier d) = v * multiplier d /\
  -60 <= v * multiplier d <= 60 /\
  (0 <= v -> 0 <= v * multiplier d) /\ (v <= 0 -> v * multiplier d <= 0).
Proof.
  intros H. rewrite scaled_step_fits by lia.
  unfold multiplier. repeat split_if; lia.
Qed.

Lemma setTime_move (v : Z) (c : ctx) :
  valid_time c -> -2 <= v <= 2 ->
  let k := v * multiplier (duration c) in
  let c' := setTime v c in
  duration c' = total c' /\
  (v <= 0 -> total c' = Z.max 0 (total c + k)) /\
  (0 <= v -> total c + k < 5940 -> total c' = total c + k) /\
  (0 <= v -> total c <= total c' <= 5999).
Proof.
  intros Hc Hv k c'. subst k c'.
  destruct (scaled_step_bound v (duration c) Hv) as (Hk & Hr & Hp & Hn).
  destruct (setTime_fields v c) as (Em & Es & _ & Ed).
  cbv zeta in *. rewrite Hk in *.
  pose proof (setSeconds_effect (v * multiplier (duration c)) c Hc Hr) as H.
  cbv zeta in H. unfold total. rewrite Ed, Em, Es.
  destruct Hc as [Hm Hs].
  destruct H as [H|[H|[H|[H|H]]]];
    decompose [and] H; clear H;
    repeat match goal with E : _ (setSeconds _ _) = _ |- _ => rewrite E end;
    (split; [apply to_int16_id; lia|]);
    repeat split; intros; lia.
Qed.

(** An encoder step of at most two detents moves the set time by exactly
    step x multiplier seconds: downwards it stops at 00:00; upwards the move
    is exact while the result stays below 99:00, and the time never
    decreases nor passes 99:59.  The cached duration is the new total. *)
Theorem setTime_total (v : Z) (c : ctx) :
  valid_time c -> -2 <= v <= 2 ->
  let k := v * multiplier (duration c) in
  let c' := setTime v c in
  duration c' = total c' /\
  (v <= 0 -> total c' = Z.max 0 (total c + k)) /\
  (0 <= v -> total c + k < 5940 -> total c' = total c + k) /\
  (0 <= v -> total c <= total c' <= 5999).
Proof. exact (setTime_move v c). Qed.

Lemma setTime_total_witness :
  let c := setTime_seq (repeat 1 86) (started (fun _ => 0)) in
  valid_time c /\ -2 <= -2 <= 2 /\
  duration (setTime (-2) c) = total (setTime (-2) c) /\
  total (setTime (-2) c) = Z.max 0 (total c + -2 * multiplier (duration c)).
Proof.
  intros c.
  assert (V : valid_time c) by (vm_compute; intuition discriminate).
  assert (R : -2 <= -2 <= 2) by lia.
  split; [exact V|]. split; [exact R|].
  destruct (setTime_total (-2) c V R) as (A & B & _).
  split; [exact A|]. apply B. lia.
Defined.

(** One detent up and one detent down from a valid time with a coherent
    cache give back the same minutes, seconds and cached duration, in
    either order, when both steps use the same multiplier, the time stays
    below 99:00 and the step down does not pass 00:00. *)
Theorem setTime_up_down (c : ctx) :
  valid_time c -> duration c = total c ->
  let k := multiplier (total c) in
  (total c + k < 5940 -> multiplier (total c + k) = k ->
   let c' := setTime (-1) (setTime 1 c) in
   minutes c' = minutes c /\ seconds c' = seconds c /\
   duration c' = duration c) /\
  (0 <= total c - k -> total c < 5940 -> multiplier (total c - k) = k ->
   let c' := setTime 1 (setTime (-1) c) in
   minutes c' = minutes c /\ seconds c' = seconds c /\
   duration c' = duration c).
Proof.
  intros Hc Hd k. subst k.
  assert (Hb : 0 <= total c <= 5999) by (unfold total, valid_time in *; lia).
  assert (Hk : 1 <= multiplier (total c) <= 30)
    by (unfold multiplier; repeat split_if; lia).
  assert (Same : forall d, valid_time d -> total d = total c ->
            duration d = total d ->
            minutes d = minutes c /\ seconds d = seconds c /\
            duration d = duration c).
  { intros d Vd Td Dd. unfold total, valid_time in *. lia. }
  split; [intros Hlim Hmul|intros Hlim Htop Hmul]; cbv zeta.
  - pose proof (setTime_valid 1 c Hc ltac:(lia)) as V1.
    destruct (setTime_move 1 c Hc ltac:(lia)) as (D1 & _ & U1 & _).
    cbv zeta in *. rewrite Hd in *.
    specialize (U1 ltac:(lia) ltac:(lia)).
    pose proof (setTime_valid (-1) _ V1 ltac:(lia)) as V2.
    destruct (setTime_move (-1) _ V1 ltac:(lia)) as (D2 & L2 & _).
    cbv zeta in *. specialize (L2 ltac:(lia)).
    rewrite D1, U1 in L2. rewrite Z.mul_1_l in L2. rewrite Hmul in L2.
    apply Same; [exact V2| |exact D2]. lia.
  - pose proof (setTime_valid (-1) c Hc ltac:(lia)) as V1.
    destruct (setTime_move (-1) c Hc ltac:(lia)) as (D1 & L1 & _).
    cbv zeta in *. rewrite Hd in *.
    specialize (L1 ltac:(lia)).
    pose proof (setTime_valid 1 _ V1 ltac:(lia)) as V2.
    destruct (setTime_move 1 _ V1 ltac:(lia)) as (D2 & _ & U2 & _).
    cbv zeta in *.
    assert (T1 : total (setTime (-1) c) = total c - multiplier (total c))
      by lia.
    rewrite D1, T1, Hmul in U2.
    specialize (U2 ltac:(lia) ltac:(lia)).
    apply Same; [exact V2| |exact D2]. lia.
Qed.

Lemma setTime_up_down_witness :
  let c := setTime_seq [1; 1; 1] (started (fun _ => 0)) in
  valid_time c /\ duration c = total c /\
  total c + multiplier (total c) < 5940 /\
  multiplier (total c + multiplier (total c)) = multiplier (total c) /\
  minutes (setTime (-1) (setTime 1 c)) = minutes c /\
  seconds (setTime (-1) (setTime 1 c)) = seconds c.
Proof.
  intros c.
  assert (V : valid_time c) by (vm_compute; intuition discriminate).
  assert (D : duration c = total c) by reflexivity.
  assert (L : total c + multiplier (total c) < 5940) by reflexivity.
  assert (M : multiplier (total c + multiplier (total c))
              = multiplier (total c)) by reflexivity.
  split; [exact V|]. split; [exact D|]. split; [exact L|]. split; [exact M|].
  destruct (proj1 (setTime_up_down c V D) L M) as (A & B & _).
  split; [exact A|exact B].
Defined.

(** After an encoder step of at most two detents on a valid time the
    display shows the stored seconds.  It shows the stored minutes as well
    if it did before, except when the step carries out of minute 98: the
    stored minutes become 99 and [clock.setMinutes] is not called, so the
    display keeps 98. *)
Theorem setTime_display (v : Z) (c : ctx) :
  valid_time c -> -2 <= v <= 2 ->
  shown_minutes (trace c) = Some (minutes c) ->
  let k := v * multiplier (duration c) in
  let c' := setTime v c in
  shown_seconds (trace c') = Some (seconds c') /\
  (minutes c = 98 /\ 60 <= seconds c + k ->
   minutes c' = 99 /\ shown_minutes (trace c') = Some 98) /\
  (~ (minutes c = 98 /\ 60 <= seconds c + k) ->
   shown_minutes (trace c') = Some (minutes c')).
Proof.
  intros Hc Hv Hd k c'. subst k c'.
  destruct (scaled_step_bound v (duration c) Hv) as (Hk & Hr & _).
  destruct (setTime_fields v c) as (Em & Es & Et & _).
  cbv zeta in *. rewrite Hk in *.
  pose proof (setSeconds_effect (v * multiplier (duration c)) c Hc Hr) as H.
  cbv zeta in H. rewrite Em, Es, Et.
  destruct Hc as [Hm Hs].
  destruct H as [H|[H|[H|[H|H]]]];
    decompose [and] H; clear H;
    repeat match goal with E : _ (setSeconds _ _) = _ |- _ => rewrite E end;
    cbn [shown_seconds shown_minutes];
    (split; [reflexivity|]);
    split; intros; try lia; try reflexivity;
    rewrite ?Hd; try (split; [reflexivity|]); try (f_equal; lia).
Qed.

Lemma setTime_display_witness :
  let c := setTime_seq (repeat 1 263) (started (fun _ => 0)) in
  valid_time c /\ -2 <= 1 <= 2 /\
  shown_minutes (trace c) = Some (minutes c) /\
  minutes (setTime 1 c) = 99 /\
  shown_minutes (trace (setTime 1 c)) = Some 98.
Proof.
  intros c.
  assert (V : valid_time c) by (vm_compute; intuition discriminate).
  assert (R : -2 <= 1 <= 2) by lia.
  assert (S : shown_minutes (trace c) = Some (minutes c))
    by (vm_compute; reflexivity).
  split; [exact V|]. split; [exact R|]. split; [exact S|].
  apply (proj1 (proj2 (setTime_display 1 c V R S))).
  vm_compute. split; [reflexivity|discriminate].
Defined.

(** ** The duration memories *)

Lemma some_inj {A : Type} (a b : A) : Some a = Some b -> a = b.
Proof. congruence. Qed.

Lemma to_uint8_idem (z : Z) : to_uint8 (to_uint8 z) = to_uint8 z.
Proof.
  apply to_uint8_id. apply to_uint8_range.
Qed.

Lemma to_int8_uint8 (z : Z) : -128 <= z <= 127 -> to_int8 (to_uint8 z) = z.
Proof.
  intros H. unfold to_int8, to_uint8.
  destruct (Z.lt_ge_cases z 0).
  - replace (z mod 256) with (z + 256)
      by (apply (Z.mod_unique _ 256 (-1)); lia).
    replace ((z + 256 + 128) mod 256) with (z + 128)
      by (apply (Z.mod_unique _ 256 1); lia).
    lia.
  - rewrite (Z.mod_small z) by lia. rewrite Z.mod_small by lia. lia.
Qed.

Lemma EEPROM_read_update (a v : Z) (c : ctx) :
  EEPROM_read a (EEPROM_update a v c) = to_uint8 v.
Proof.
  unfold EEPROM_update.
  destruct (EEPROM_read a c =? to_uint8 v) eqn:E.
  - apply Z.eqb_eq. exact E.
  - unfold EEPROM_read, EEPROM_write. proj_ctx.
    rewrite Z.eqb_refl. apply to_uint8_idem.
Qed.

Lemma EEPROM_update_other (a b v : Z) (c : ctx) :
  b <> a -> eeprom (EEPROM_update a v c) b = eeprom c b.
Proof.
  intros H. unfold EEPROM_update.
  destruct (EEPROM_read a c =? to_uint8 v); [reflexivity|].
  unfold EEPROM_write. proj_ctx.
  destruct (Z.eqb_spec b a); [contradiction|reflexivity].
Qed.

Lemma EEPROM_update_kept (a v : Z) (c : ctx) :
  currentMem (EEPROM_update a v c) = currentMem c /\
  minutes (EEPROM_update a v c) = minutes c /\
  seconds (EEPROM_update a v c) = seconds c.
Proof.
  destruct (EEPROM_update_cases a v c) as [-> | ->]; repeat split.
Qed.

Lemma core_EEPROM_update (a v : Z) (c : ctx) :
  core (EEPROM_update a v c) = core c.
Proof.
  destruct (EEPROM_update_cases a v c) as [-> | ->]; reflexivity.
Qed.

Lemma storeTime_loop_confirmed (ps : list poll) :
  forall mem c c1,
    1 <= mem <= 64 ->
    storeTime_loop mem ps c = Some c1 -> confirmed ps = true ->
    let m := currentMem c1 in
    1 <= m <= 64 /\
    EEPROM_read (memAdd + 2 * m) c1 = to_uint8 (minutes c) /\
    EEPROM_read (memAdd + 2 * m + 1) c1 = to_uint8 (seconds c) /\
    (forall a, a <> memAdd + 2 * m -> a <> memAdd + 2 * m + 1 ->
               eeprom c1 a = eeprom c a) /\
    core c1 = core c.
Proof.
  induction ps as [|p ps IH]; intros mem c c1 Hm; [discriminate|].
  cbn [storeTime_loop confirmed]. cbv zeta.
  pose proof (turn_mem_range mem (encoder p) Hm) as Ht.
  set (m := turn_mem mem (encoder p)) in *.
  destruct (justPressed (sw1 p)); [|destruct (justPressed (sw2 p))];
    intros H Hc; try discriminate.
  - apply some_inj in H. subst c1.
    set (c0 := set_currentMem m (show_mem "-M" m c)).
    set (c1 := EEPROM_update (memAdd + 2 * m) (minutes c0) c0).
    destruct (EEPROM_update_kept (memAdd + 2 * m) (minutes c0) c0)
      as (K1 & K2 & K3). fold c1 in K1, K2, K3.
    destruct (EEPROM_update_kept (memAdd + 2 * m + 1) (seconds c1) c1)
      as (L1 & _ & _).
    rewrite L1, K1. change (currentMem c0) with m.
    split; [exact Ht|]. split; [|split; [|split]].
    + unfold EEPROM_read. rewrite EEPROM_update_other by lia.
      apply (EEPROM_read_update (memAdd + 2 * m) (minutes c0) c0).
    + rewrite K3. apply (EEPROM_read_update (memAdd + 2 * m + 1)).
    + intros a H1 H2. subst c1. rewrite !EEPROM_update_other by assumption.
      reflexivity.
    + subst c1. rewrite !core_EEPROM_update. reflexivity.
  - exact (IH m (show_mem "-M" m c) c1 Ht H Hc).
Qed.

Lemma recallTime_loop_confirmed (ps : list poll) :
  forall mem c c2,
    recallTime_loop mem ps c = Some c2 -> confirmed ps = true ->
    minutes c2 = to_int8 (EEPROM_read (memAdd + 2 * currentMem c2) c) /\
    seconds c2 = to_int8 (EEPROM_read (memAdd + 2 * currentMem c2 + 1) c) /\
    state c2 = SETTING /\ eeprom c2 = eeprom c /\ duration c2 = duration c.
Proof.
  induction ps as [|p ps IH]; intros mem c c2; [discriminate|].
  cbn [recallTime_loop confirmed]. cbv zeta.
  destruct (justPressed (sw1 p)); [|destruct (justPressed (sw2 p))];
    intros H Hc; try discriminate.
  - injection H as <-. repeat split.
  - exact (IH _ (show_mem "M-" (turn_mem mem (encoder p)) c) c2 H Hc).
Qed.

(** A duration stored in a slot and recalled from the same slot comes back
    as it was: after a confirmed store, a confirmed recall that ends on the
    same slot index, over the EEPROM content the store left, sets minutes
    and seconds to the stored pair (both within int8_t) and the state to
    SETTING. *)
Theorem storeTime_recallTime (ps qs : list poll) (c c1 d c2 : ctx) :
  1 <= currentMem c <= 64 ->
  -128 <= minutes c <= 127 -> -128 <= seconds c <= 127 ->
  confirmed ps = true -> storeTime ps c = Some c1 ->
  eeprom d = eeprom c1 ->
  confirmed qs = true -> recallTime qs d = Some c2 ->
  currentMem c2 = currentMem c1 ->
  minutes c2 = minutes c /\ seconds c2 = seconds c /\ state c2 = SETTING.
Proof.
  intros Hm Hmin Hsec Hp Hs He Hq Hr Hsame.
  destruct (storeTime_loop_confirmed ps _ (emit LedClrAll c) c1 Hm Hs Hp)
    as (_ & A & B & _).
  destruct (recallTime_loop_confirmed qs _ (emit LedClrAll d) c2 Hr Hq)
    as (M & S & St & _).
  cbv zeta in *. unfold EEPROM_read in *. proj_ctx.
  rewrite Hsame, He in M, S. rewrite A in M. rewrite B in S.
  rewrite to_int8_uint8 in M, S by assumption.
  repeat split; assumption.
Qed.

Lemma storeTime_recallTime_witness :
  let c := setTime_seq [1; 1; 1] (started (fun _ => 255)) in
  let ps := [turn 2; press_sw1 0] in
  let qs := [turn 1; turn 1; press_sw1 0] in
  let c1 := match storeTime ps c with Some x => x | None => c end in
  let d := started (eeprom c1) in
  let c2 := match recallTime qs d with Some x => x | None => d end in
  storeTime ps c = Some c1 /\ recallTime qs d = Some c2 /\
  currentMem c1 = 3 /\ currentMem d = 1 /\ currentMem c2 = 3 /\
  minutes c2 = minutes c /\ seconds c2 = seconds c /\ seconds c2 = 3.
Proof.
  intros c ps qs c1 d c2.
  assert (E1 : storeTime ps c = Some c1) by (vm_compute; reflexivity).
  assert (E2 : recallTime qs d = Some c2) by (vm_compute; reflexivity).
  assert (R : 1 <= currentMem c <= 64) by (vm_compute; intuition discriminate).
  assert (M : -128 <= minutes c <= 127) by (vm_compute; intuition discriminate).
  assert (S : -128 <= seconds c <= 127) by (vm_compute; intuition discriminate).
  assert (P : confirmed ps = true) by reflexivity.
  assert (Q : confirmed qs = true) by reflexivity.
  assert (D : eeprom d = eeprom c1) by (vm_compute; reflexivity).
  assert (K : currentMem c2 = currentMem c1) by (vm_compute; reflexivity).
  destruct (storeTime_recallTime ps qs c c1 d c2 R M S P E1 D Q E2 K)
    as (A & B & _).
  split; [exact E1|]. split; [exact E2|].
  split; [vm_compute; reflexivity|]. split; [vm_compute; reflexivity|].
  split; [vm_compute; reflexivity|].
  split; [exact A|]. split; [exact B|]. vm_compute. reflexivity.
Defined.

Lemma storeTime_loop_cancelled (ps : list poll) :
  forall mem c c1,
    storeTime_loop mem ps c = Some c1 -> confirmed ps = false ->
    silent c1 = silent c.
Proof.
  induction ps as [|p ps IH]; intros mem c c1; [discriminate|].
  cbn [storeTime_loop confirmed]. cbv zeta.
  destruct (justPressed (sw1 p)); [|destruct (justPressed (sw2 p))];
    intros H Hc; try discriminate.
  - apply some_inj in H. subst c1. reflexivity.
  - exact (IH _ (show_mem "-M" (turn_mem mem (encoder p)) c) c1 H Hc).
Qed.

Lemma recallTime_loop_cancelled (ps : list poll) :
  forall mem c c1,
    recallTime_loop mem ps c = Some c1 -> confirmed ps = false ->
    silent c1 = silent c.
Proof.
  induction ps as [|p ps IH]; intros mem c c1; [discriminate|].
  cbn [recallTime_loop confirmed]. cbv zeta.
  destruct (justPressed (sw1 p)); [|destruct (justPressed (sw2 p))];
    intros H Hc; try discriminate.
  - apply some_inj in H. subst c1. reflexivity.
  - exact (IH _ (show_mem "M-" (turn_mem mem (encoder p)) c) c1 H Hc).
Qed.

Lemma setBrightness_loop_cancelled (ps : list poll) :
  forall temp c c1,
    setBrightness_loop temp ps c = Some c1 -> confirmed ps = false ->
    silent c1 = silent c.
Proof.
  induction ps as [|p ps IH]; intros temp c c1; [discriminate|].
  cbn [setBrightness_loop confirmed]. cbv zeta.
  destruct (justPressed (sw1 p)); [|destruct (justPressed (sw2 p))];
    intros H Hc; try discriminate.
  - apply some_inj in H. subst c1. reflexivity.
  - rewrite (IH _ _ c1 H Hc). reflexivity.
Qed.

Lemma setBellType_loop_cancelled (ps : list poll) :
  forall type c c1,
    setBellType_loop type ps c = Some c1 -> confirmed ps = false ->
    silent c1 = silent c.
Proof.
  induction ps as [|p ps IH]; intros type c c1; [discriminate|].
  cbn [setBellType_loop confirmed]. cbv zeta.
  destruct (justPressed (sw1 p)); [|destruct (justPressed (sw2 p))];
    intros H Hc; try discriminate.
  - apply some_inj in H. subst c1. destruct (encoder p); reflexivity.
  - rewrite (IH _ _ c1 H Hc). destruct (encoder p); reflexivity.
Qed.

Lemma setBellLength_loop_cancelled (ps : list poll) :
  forall len c c1,
    setBellLength_loop len ps c = Some c1 -> confirmed ps = false ->
    silent c1 = silent c.
Proof.
  induction ps as [|p ps IH]; intros len c c1; [discriminate|].
  cbn [setBellLength_loop confirmed]. cbv zeta.
  destruct (justPressed (sw1 p)); [|destruct (justPressed (sw2 p))];
    intros H Hc; try discriminate.
  - apply some_inj in H. subst c1. destruct (encoder p); reflexivity.
  - rewrite (IH _ _ c1 H Hc). destruct (encoder p); reflexivity.
Qed.

(** A confirmed store writes the two bytes of the chosen slot and nothing
    else; a cancelled one writes nothing.  Either way only the EEPROM, the
    slot index and the display are touched, the index stays in 1..64, and
    the bytes below the first slot (brightness, alert type and length) are
    never written. *)
Theorem storeTime_one_slot (ps : list poll) (c c1 : ctx) :
  1 <= currentMem c <= 64 -> storeTime ps c = Some c1 ->
  core c1 = core c /\
  1 <= currentMem c1 <= 64 /\
  (forall a, a < memAdd + 2 -> eeprom c1 a = eeprom c a) /\
  (confirmed ps = false ->
   eeprom c1 = eeprom c /\ currentMem c1 = currentMem c) /\
  (confirmed ps = true ->
   let m := currentMem c1 in
   EEPROM_read (memAdd + 2 * m) c1 = to_uint8 (minutes c) /\
   EEPROM_read (memAdd + 2 * m + 1) c1 = to_uint8 (seconds c) /\
   forall a, a <> memAdd + 2 * m -> a <> memAdd + 2 * m + 1 ->
             eeprom c1 a = eeprom c a).
Proof.
  intros Hm H.
  destruct (confirmed ps) eqn:Hc.
  - destruct (storeTime_loop_confirmed ps _ (emit LedClrAll c) c1 Hm H Hc)
      as (A & B & C & D & E).
    cbv zeta in *.
    split; [exact E|]. split; [exact A|].
    split; [intros a Ha; apply D; unfold memAdd in *; lia|].
    split; [discriminate|]. intros _. repeat split; assumption.
  - pose proof (storeTime_loop_cancelled ps _ (emit LedClrAll c) c1 H Hc) as S.
    assert (Ee : eeprom c1 = eeprom c) by exact (f_equal eeprom S).
    assert (Em : currentMem c1 = currentMem c) by exact (f_equal currentMem S).
    split; [exact (f_equal core S)|].
    split; [rewrite Em; exact Hm|].
    split; [intros a _; rewrite Ee; reflexivity|].
    split; [intros _; split; assumption|discriminate].
Qed.

Lemma storeTime_one_slot_witness :
  let c := setTime_seq [1; 1; 1] (started (fun _ => 255)) in
  let ps := [turn 2; press_sw1 0] in
  let c1 := match storeTime ps c with Some x => x | None => c end in
  storeTime ps c = Some c1 /\ currentMem c1 = 3 /\
  EEPROM_read 9 c1 = 0 /\ EEPROM_read 10 c1 = 3 /\
  eeprom c1 11 = 255 /\ eeprom c1 0 = 255.
Proof.
  intros c ps c1.
  assert (E1 : storeTime ps c = Some c1) by (vm_compute; reflexivity).
  assert (R : 1 <= currentMem c <= 64) by (vm_compute; intuition discriminate).
  assert (M : currentMem c1 = 3) by (vm_compute; reflexivity).
  destruct (storeTime_one_slot ps c c1 R E1) as (_ & _ & L & _ & W).
  destruct (W eq_refl) as (A & B & O). cbv zeta in *. rewrite M in *.
  split; [exact E1|]. split; [exact M|].
  split; [exact A|]. split; [exact B|].
  split; [exact (O 11 ltac:(unfold memAdd; lia) ltac:(unfold memAdd; lia))|].
  exact (L 0 ltac:(unfold memAdd; lia)).
Defined.

(** Cancelling an editor with switch 2 changes nothing but what the display
    shows: every variable, timer and EEPROM byte is as before.  After the
    brightness editor the display intensity is set back to the stored
    brightness. *)
Theorem editors_cancelled (ps : list poll) (c c1 : ctx) :
  confirmed ps = false ->
  (storeTime ps c = Some c1 -> silent c1 = silent c) /\
  (recallTime ps c = Some c1 -> silent c1 = silent c) /\
  (setBrightness ps c = Some c1 ->
   silent c1 = silent c /\
   exists tr, trace c1 = LedSetIntensity (brightness c - 1) :: tr) /\
  (setBellType ps c = Some c1 -> silent c1 = silent c) /\
  (setBellLength ps c = Some c1 -> silent c1 = silent c).
Proof.
  intros Hc. repeat split.
  - intros H. exact (storeTime_loop_cancelled ps _ (emit LedClrAll c) c1 H Hc).
  - intros H. exact (recallTime_loop_cancelled ps _ (emit LedClrAll c) c1 H Hc).
  - unfold setBrightness in H.
    destruct (setBrightness_loop _ _ _) as [c0|] eqn:E; [|discriminate].
    apply some_inj in H. subst c1.
    exact (setBrightness_loop_cancelled ps _ (emit LedClrAll c) c0 E Hc).
  - unfold setBrightness in H.
    destruct (setBrightness_loop _ _ _) as [c0|] eqn:E; [|discriminate].
    apply some_inj in H. subst c1.
    pose proof (setBrightness_loop_cancelled ps _ (emit LedClrAll c) c0 E Hc)
      as S.
    rewrite (f_equal brightness S : brightness c0 = brightness c).
    eexists. reflexivity.
  - intros H. unfold setBellType in H. cbv zeta in H.
    exact (setBellType_loop_cancelled ps _ _ c1 H Hc).
  - intros H. unfold setBellLength in H. cbv zeta in H.
    exact (setBellLength_loop_cancelled ps _ _ c1 H Hc).
Qed.

Lemma editors_cancelled_witness :
  let c := started (fun _ => 8) in
  let ps := [turn 3; press_sw2 0] in
  confirmed ps = false /\
  match setBrightness ps c with
  | Some c1 => silent c1 = silent c
  | None => True
  end.
Proof.
  intros c ps.
  assert (Hc : confirmed ps = false) by reflexivity.
  split; [exact Hc|].
  destruct (setBrightness ps c) as [c1|] eqn:E; [|exact I].
  exact (proj1 (proj1 (proj2 (proj2 (editors_cancelled ps c c1 Hc))) E)).
Defined.

(** ** First-run initialisation *)

Lemma eepromInit_loop_eeprom (n : nat) :
  forall i c a,
    eeprom (eepromInit_loop n i c) a
    = if (0 <? Z.of_nat n) && (memAdd + i <=? a)
         && (a <=? memAdd + i + Z.of_nat n)
      then 0 else eeprom c a.
Proof.
  induction n as [|n IH]; intros i c a.
  - cbn [eepromInit_loop Z.of_nat Z.ltb Z.compare andb]. reflexivity.
  - cbn [eepromInit_loop]. rewrite IH.
    unfold EEPROM_write. proj_ctx.
    change (to_uint8 0) with 0.
    rewrite Nat2Z.inj_succ.
    destruct (Z.ltb_spec 0 (Z.of_nat n)), (Z.ltb_spec 0 (Z.succ (Z.of_nat n))),
      (Z.leb_spec (memAdd + (i + 1)) a), (Z.leb_spec (memAdd + i) a),
      (Z.leb_spec a (memAdd + (i + 1) + Z.of_nat n)),
      (Z.leb_spec a (memAdd + i + Z.succ (Z.of_nat n)));
      cbn [andb]; try lia; try reflexivity;
      destruct (Z.eqb_spec a (memAdd + i + 1)); try lia; try reflexivity;
      destruct (Z.eqb_spec a (memAdd + i)); try lia; reflexivity.
Qed.

Lemma eepromInit_loop_silent (n : nat) :
  forall i c,
    set_eeprom (fun _ => 0) (eepromInit_loop n i c)
    = set_eeprom (fun _ => 0) c.
Proof.
  induction n as [|n IH]; intros i c; [reflexivity|].
  cbn [eepromInit_loop]. rewrite IH. reflexivity.
Qed.

(** [eepromInit] writes brightness 8, alert type 1 and alert length 5, and
    zeroes the 65 bytes from address 3 to address 67 (its loop advances by
    one byte per slot, not two); every other byte and every variable is left
    as it was.  So slots 1 to 31 read 00:00, slot 32 has its minutes
    cleared and its seconds untouched, and slots 33 to 64 are untouched. *)
Theorem eepromInit_effect (c : ctx) :
  let c' := eepromInit c in
  set_eeprom (fun _ => 0) c' = set_eeprom (fun _ => 0) c /\
  EEPROM_read brightAdd c' = 8 /\ EEPROM_read bellTAdd c' = 1 /\
  EEPROM_read bellLAdd c' = 5 /\
  (forall a, 3 <= a <= 67 -> eeprom c' a = 0) /\
  (forall a, a < 0 \/ 67 < a -> eeprom c' a = eeprom c a) /\
  (forall m, 1 <= m <= 31 ->
     EEPROM_read (memAdd + 2 * m) c' = 0 /\
     EEPROM_read (memAdd + 2 * m + 1) c' = 0) /\
  (EEPROM_read (memAdd + 2 * 32) c' = 0 /\
   EEPROM_read (memAdd + 2 * 32 + 1) c' = EEPROM_read (memAdd + 2 * 32 + 1) c) /\
  (forall m, 33 <= m <= 64 ->
     EEPROM_read (memAdd + 2 * m) c' = EEPROM_read (memAdd + 2 * m) c /\
     EEPROM_read (memAdd + 2 * m + 1) c'
     = EEPROM_read (memAdd + 2 * m + 1) c).
Proof.
  cbv zeta.
  assert (E : forall a,
             eeprom (eepromInit c) a
             = if (3 <=? a) && (a <=? 67) then 0
               else if a =? 2 then 5 else if a =? 1 then 1
               else if a =? 0 then 8 else eeprom c a).
  { intros a. unfold eepromInit. cbv zeta. rewrite eepromInit_loop_eeprom.
    unfold EEPROM_write, memAdd, maxStore, brightAdd, bellTAdd, bellLAdd.
    proj_ctx.
    change (Z.of_nat (Z.to_nat 64)) with 64.
    change (0 <? 64) with true. cbn [andb].
    change (3 + 0 + 64) with 67. change (3 + 0) with 3.
    destruct ((3 <=? a) && (a <=? 67)); reflexivity. }
  assert (Lo : forall a, 3 <= a <= 67 -> eeprom (eepromInit c) a = 0).
  { intros a Ha. rewrite E.
    destruct (Z.leb_spec 3 a), (Z.leb_spec a 67); cbn [andb]; lia. }
  assert (Hi : forall a, a < 0 \/ 67 < a ->
                         eeprom (eepromInit c) a = eeprom c a).
  { intros a Ha. rewrite E.
    destruct (Z.leb_spec 3 a), (Z.leb_spec a 67); cbn [andb]; try lia;
      repeat match goal with
             | |- context [?x =? ?y] => destruct (Z.eqb_spec x y); try lia
             end; reflexivity. }
  split.
  { unfold eepromInit. cbv zeta. rewrite eepromInit_loop_silent. reflexivity. }
  unfold EEPROM_read, memAdd, brightAdd, bellTAdd, bellLAdd in *.
  split; [rewrite E; reflexivity|].
  split; [rewrite E; reflexivity|].
  split; [rewrite E; reflexivity|].
  split; [exact Lo|]. split; [exact Hi|].
  split; [intros m Hm; rewrite !Lo by lia; split; reflexivity|].
  split; [rewrite Lo by lia; rewrite Hi by lia; split; reflexivity|].
  intros m Hm. rewrite !Hi by lia. split; reflexivity.
Qed.

Lemma eepromInit_effect_witness :
  let c := started (fun _ => 255) in
  EEPROM_read (memAdd + 2 * 31) (eepromInit c) = 0 /\
  EEPROM_read (memAdd + 2 * 40) (eepromInit c) = 255.
Proof.
  intros c.
  destruct (eepromInit_effect c) as (_ & _ & _ & _ & _ & _ & A & _ & B).
  split.
  - exact (proj1 (A 31 ltac:(lia))).
  - rewrite (proj1 (B 40 ltac:(lia))). reflexivity.
Defined.

(** ** Encoder steps in the editors *)

(** In the slot and brightness editors the encoder step is added in a
    uint8_t before the clamp: while the sum is not negative the value
    saturates at both ends; a step that takes the sum below zero wraps and
    lands on the upper bound (slot 64, brightness 16). *)
Theorem turn_wraps_below_zero (v step : Z) :
  -128 <= step <= 127 ->
  (1 <= v <= 64 ->
   (0 <= v + step -> turn_mem v (Some step) = Z.max 1 (Z.min 64 (v + step))) /\
   (v + step < 0 -> turn_mem v (Some step) = 64)) /\
  (1 <= v <= 16 ->
   (0 <= v + step ->
    turn_brightness v (Some step) = Z.max 1 (Z.min 16 (v + step))) /\
   (v + step < 0 -> turn_brightness v (Some step) = 16)).
Proof.
  intros Hs. unfold turn_mem, turn_brightness, maxStore, to_uint8.
  split; intros Hv; split; intros H.
  - rewrite Z.mod_small by lia.
    destruct (Z.ltb_spec (v + step) 1); repeat split_if; lia.
  - replace ((v + step) mod 256) with (v + step + 256)
      by (apply (Z.mod_unique _ 256 (-1)); lia).
    destruct (Z.ltb_spec (v + step + 256) 1); repeat split_if; lia.
  - rewrite Z.mod_small by lia.
    destruct (Z.ltb_spec (v + step) 1); repeat split_if; lia.
  - replace ((v + step) mod 256) with (v + step + 256)
      by (apply (Z.mod_unique _ 256 (-1)); lia).
    destruct (Z.ltb_spec (v + step + 256) 1); repeat split_if; lia.
Qed.

Lemma turn_wraps_below_zero_witness :
  -128 <= -2 <= 127 /\ 1 <= 1 <= 64 /\ 1 + -2 < 0 /\
  turn_mem 1 (Some (-2)) = 64.
Proof.
  assert (S : -128 <= -2 <= 127) by lia.
  assert (V : 1 <= 1 <= 64) by lia.
  assert (N : 1 + -2 < 0) by lia.
  split; [exact S|]. split; [exact V|]. split; [exact N|].
  exact (proj2 (proj1 (turn_wraps_below_zero 1 (-2) S) V) N).
Defined.

(** ** Settings in every reachable state *)

Lemma kept_settings_inv (c c' : ctx) :
  kept_settings c c' ->
  (settings_inv c -> settings_inv c') /\ (persisted c -> persisted c').
Proof.
  intros K. unfold kept_settings in K.
  pose proof (f_equal menuState K) as K1.
  pose proof (f_equal brightness K) as K2.
  pose proof (f_equal bellType K) as K3.
  pose proof (f_equal bellLength K) as K4.
  pose proof (f_equal bellLoops K) as K5.
  pose proof (f_equal currentMem K) as K6.
  pose proof (f_equal eeprom K) as K7.
  cbn [settings_part menuState brightness bellType bellLength bellLoops
       currentMem eeprom] in K1, K2, K3, K4, K5, K6, K7.
  unfold settings_inv, persisted, EEPROM_read.
  rewrite K1, K2, K3, K4, K5, K6, K7. split; exact (fun x => x).
Qed.

Lemma kept_settings_trans (a b c : ctx) :
  kept_settings a b -> kept_settings b c -> kept_settings a c.
Proof.
  unfold kept_settings. intros H1 H2. rewrite H2. exact H1.
Qed.

Lemma setTime_kept (v : Z) (c : ctx) : kept_settings c (setTime v c).
Proof.
  unfold kept_settings, setTime, setSeconds, setMinutes.
  repeat (split_if; proj_ctx); reflexivity.
Qed.

Lemma setting_kept (e : option Z) (c : ctx) : kept_settings c (setting e c).
Proof.
  unfold setting. destruct e as [step|]; [|reflexivity].
  exact (setTime_kept (to_int8 step) c).
Qed.

Lemma running_kept (p : poll) (c : ctx) : kept_settings c (running p c).
Proof.
  unfold kept_settings, running.
  destruct (Timer.update (now p) (timerDots c)) as [blink td].
  destruct blink; proj_ctx;
    destruct (Timer.update (now p) (timerMain c)) as [e tm];
    destruct e; try split_if; reflexivity.
Qed.

Lemma pause_kept (p : poll) (c : ctx) : kept_settings c (pause p c).
Proof.
  unfold kept_settings, pause.
  destruct (Timer.update (now p) (timerPause _)) as [blink tp].
  destruct blink; reflexivity.
Qed.

Lemma beeping_kept (p : poll) (c : ctx) : kept_settings c (beeping p c).
Proof.
  unfold kept_settings, beeping.
  destruct (Timer.update (now p) (timerBeep1 c)) as [f1 t1].
  destruct f1; proj_ctx;
    match goal with
    | |- context [Timer.update (now p) ?x] =>
        destruct (Timer.update (now p) x) as [f2 t2]
    end;
    destruct f2; proj_ctx;
    destruct (Timer.update (now p) (timerBeep3 c)) as [f3 t3];
    destruct f3; reflexivity.
Qed.

Lemma manageSW1_kept (p : poll) (c : ctx) : kept_settings c (manageSW1 p c).
Proof.
  unfold manageSW1.
  destruct (state c); try reflexivity;
    destruct (isLongPressed (sw1 p)); try reflexivity;
    destruct (justPressed (sw1 p)); try reflexivity.
  apply setting_kept.
Qed.

Lemma setBeepTimers_shape (type : Z) (c : ctx) :
  exists t1 t2 t3,
    setBeepTimers type c
    = set_timerBeep3 t3
        (set_bellLoops
           (to_uint16 (to_uint32 (to_int16 (bellLength c * 1000))
                       / onDelay type))
           (set_timerBeep2 t2 (set_timerBeep1 t1 c))).
Proof.
  unfold setBeepTimers, onDelay.
  destruct (beep_delays type) as [[d1 d2] d3]. cbn [fst].
  eexists. eexists. eexists. reflexivity.
Qed.

Lemma silent_fields (d c : ctx) :
  silent d = silent c ->
  menuState d = menuState c /\ brightness d = brightness c /\
  bellType d = bellType c /\ bellLength d = bellLength c /\
  bellLoops d = bellLoops c /\ currentMem d = currentMem c /\
  eeprom d = eeprom c /\ state d = state c.
Proof.
  intros S.
  exact (conj (f_equal menuState S) (conj (f_equal brightness S)
        (conj (f_equal bellType S) (conj (f_equal bellLength S)
        (conj (f_equal bellLoops S) (conj (f_equal currentMem S)
        (conj (f_equal eeprom S) (f_equal state S)))))))).
Qed.

Lemma silent_kept (c d : ctx) : silent d = silent c -> kept_settings c d.
Proof.
  intros S. destruct (silent_fields d c S) as (A & B & C & D & E & F & G & _).
  unfold kept_settings, settings_part. rewrite A, B, C, D, E, F, G.
  reflexivity.
Qed.

Lemma turn_brightness_byte (b : Z) (enc : option Z) :
  0 <= b <= 255 -> 0 <= turn_brightness b enc <= 255.
Proof.
  intros H. unfold turn_brightness. destruct enc as [step|]; [|exact H].
  pose proof (to_uint8_range (b + step)).
  destruct (Z.ltb_spec (to_uint8 (b + step)) 1); repeat split_if; lia.
Qed.

Lemma turn_bell_byte (top v step : Z) :
  0 <= top <= 255 -> 0 <= v <= 255 -> 0 <= turn_bell top v step <= 255.
Proof.
  intros Ht H. unfold turn_bell.
  pose proof (to_uint8_range (v + 1)). pose proof (to_uint8_range (v - 1)).
  repeat split_if; lia.
Qed.

Lemma setBrightness_loop_confirmed (ps : list poll) :
  forall temp c c',
    setBrightness_loop temp ps c = Some c' -> confirmed ps = true ->
    0 <= temp <= 255 ->
    exists t d,
      0 <= t <= 255 /\ silent d = silent c /\
      c' = EEPROM_update brightAdd t (set_brightness t d).
Proof.
  induction ps as [|p ps IH]; intros temp c c'; [discriminate|].
  cbn [setBrightness_loop confirmed]. cbv zeta.
  destruct (justPressed (sw1 p)); [|destruct (justPressed (sw2 p))];
    intros H Hc Ht; try discriminate.
  - apply some_inj in H. subst c'.
    exists (turn_brightness temp (encoder p)).
    exists (emit (LedSetIntensity (turn_brightness temp (encoder p) - 1))
              (emit (LedSetDigit 2 (turn_brightness temp (encoder p) / 10))
                 (emit (LedSetDigit 3 (turn_brightness temp (encoder p) mod 10))
                    (emit (LedSetChar 0 "L") c)))).
    split; [exact (turn_brightness_byte _ (encoder p) Ht)|].
    split; reflexivity.
  - destruct (IH _ _ c' H Hc (turn_brightness_byte _ (encoder p) Ht))
      as (t & d & A & B & C).
    exists t, d. split; [exact A|]. split; [|exact C].
    rewrite B. reflexivity.
Qed.

Lemma EEPROM_update_bell (a v : Z) (c : ctx) :
  bellType (EEPROM_update a v c) = bellType c /\
  bellLength (EEPROM_update a v c) = bellLength c.
Proof.
  destruct (EEPROM_update_cases a v c) as [-> | ->]; split; reflexivity.
Qed.

Lemma setBellType_loop_confirmed (ps : list poll) :
  forall type c c',
    setBellType_loop type ps c = Some c' -> confirmed ps = true ->
    0 <= type <= 255 ->
    exists t d,
      0 <= t <= 255 /\ silent d = silent c /\
      c' = setBeepTimers (to_int8 t)
             (EEPROM_update bellTAdd t (set_bellType t d)).
Proof.
  induction ps as [|p ps IH]; intros type c c'; [discriminate|].
  cbn [setBellType_loop confirmed]. cbv zeta.
  set (t := match encoder p with
            | Some step => turn_bell maxType type step
            | None => type
            end).
  set (d := match encoder p with
            | Some _ => emit (LedSetDigit 3 t) (emit (LedSetText "BT") c)
            | None => c
            end).
  assert (Hb : 0 <= type <= 255 -> 0 <= t <= 255).
  { intros Ht. subst t. destruct (encoder p); [|exact Ht].
    apply turn_bell_byte; [unfold maxType; lia|exact Ht]. }
  assert (Sd : silent d = silent c)
    by (subst d; destruct (encoder p); reflexivity).
  destruct (justPressed (sw1 p)); [|destruct (justPressed (sw2 p))];
    intros H Hc Ht; try discriminate.
  - apply some_inj in H. subst c'.
    exists t, d. split; [exact (Hb Ht)|]. split; [exact Sd|].
    rewrite (proj1 (EEPROM_update_bell bellTAdd t (set_bellType t d))).
    reflexivity.
  - destruct (IH _ _ c' H Hc (Hb Ht)) as (t' & d' & A & B & C).
    exists t', d'. split; [exact A|]. split; [|exact C].
    rewrite B. exact Sd.
Qed.

Lemma setBellLength_loop_confirmed (ps : list poll) :
  forall len c c',
    setBellLength_loop len ps c = Some c' -> confirmed ps = true ->
    0 <= len <= 255 ->
    exists t d,
      0 <= t <= 255 /\ silent d = silent c /\
      c' = setBeepTimers (to_int8 (bellType d))
             (EEPROM_update bellLAdd t (set_bellLength t d)).
Proof.
  induction ps as [|p ps IH]; intros len c c'; [discriminate|].
  cbn [setBellLength_loop confirmed]. cbv zeta.
  set (t := match encoder p with
            | Some step => turn_bell maxTime len step
            | None => len
            end).
  set (d := match encoder p with
            | Some _ => show_mem "BL" t c
            | None => c
            end).
  assert (Hb : 0 <= len <= 255 -> 0 <= t <= 255).
  { intros Ht. subst t. destruct (encoder p); [|exact Ht].
    apply turn_bell_byte; [unfold maxTime; lia|exact Ht]. }
  assert (Sd : silent d = silent c)
    by (subst d; destruct (encoder p); reflexivity).
  destruct (justPressed (sw1 p)); [|destruct (justPressed (sw2 p))];
    intros H Hc Ht; try discriminate.
  - apply some_inj in H. subst c'.
    exists t, d. split; [exact (Hb Ht)|]. split; [exact Sd|].
    rewrite (proj1 (EEPROM_update_bell bellLAdd t (set_bellLength t d))).
    reflexivity.
  - destruct (IH _ _ c' H Hc (Hb Ht)) as (t' & d' & A & B & C).
    exists t', d'. split; [exact A|]. split; [|exact C].
    rewrite B. exact Sd.
Qed.

Lemma EEPROM_update_noeeprom (a v : Z) (c : ctx) :
  set_eeprom (fun _ => 0) (EEPROM_update a v c) = set_eeprom (fun _ => 0) c.
Proof.
  destruct (EEPROM_update_cases a v c) as [-> | ->]; reflexivity.
Qed.

Lemma EEPROM_update_settings (a v : Z) (c : ctx) :
  menuState (EEPROM_update a v c) = menuState c /\
  brightness (EEPROM_update a v c) = brightness c /\
  bellType (EEPROM_update a v c) = bellType c /\
  bellLength (EEPROM_update a v c) = bellLength c /\
  bellLoops (EEPROM_update a v c) = bellLoops c /\
  currentMem (EEPROM_update a v c) = currentMem c.
Proof.
  pose proof (EEPROM_update_noeeprom a v c) as S.
  exact (conj (f_equal menuState S) (conj (f_equal brightness S)
        (conj (f_equal bellType S) (conj (f_equal bellLength S)
        (conj (f_equal bellLoops S) (f_equal currentMem S)))))).
Qed.

Lemma EEPROM_read_update_other (a b v : Z) (c : ctx) :
  b <> a -> EEPROM_read b (EEPROM_update a v c) = EEPROM_read b c.
Proof.
  intros H. unfold EEPROM_read. rewrite EEPROM_update_other by exact H.
  reflexivity.
Qed.

Lemma setBeepTimers_settings (type : Z) (c : ctx) :
  menuState (setBeepTimers type c) = menuState c /\
  brightness (setBeepTimers type c) = brightness c /\
  bellType (setBeepTimers type c) = bellType c /\
  bellLength (setBeepTimers type c) = bellLength c /\
  currentMem (setBeepTimers type c) = currentMem c /\
  eeprom (setBeepTimers type c) = eeprom c /\
  bellLoops (setBeepTimers type c)
  = to_uint16 (to_uint32 (to_int16 (bellLength c * 1000)) / onDelay type).
Proof.
  destruct (setBeepTimers_shape type c) as (t1 & t2 & t3 & ->).
  repeat split.
Qed.

Lemma kept_keeps (c c' : ctx) :
  kept_settings c c' -> settings_inv c ->
  settings_inv c' /\ (persisted c -> persisted c').
Proof.
  intros K I. destruct (kept_settings_inv c c' K) as [A B].
  split; [exact (A I)|exact B].
Qed.

Lemma storeTime_keeps (ps : list poll) (c c' : ctx) :
  settings_inv c -> storeTime ps c = Some c' ->
  settings_inv c' /\ (persisted c -> persisted c').
Proof.
  intros I H. destruct (confirmed ps) eqn:Hc.
  - destruct I as (I1 & I2 & I3 & I4 & I5 & I6).
    destruct (storeTime_loop_confirmed ps _ (emit LedClrAll c) c' I1 H Hc)
      as (A & _ & _ & D & E).
    cbv zeta in *.
    pose proof (f_equal menuState E) as E1.
    pose proof (f_equal brightness E) as E2.
    pose proof (f_equal bellType E) as E3.
    pose proof (f_equal bellLength E) as E4.
    pose proof (f_equal bellLoops E) as E5.
    cbn [core emit set_trace set_eeprom set_currentMem menuState brightness
         bellType bellLength bellLoops] in E1, E2, E3, E4, E5.
    assert (Lo : forall a, a < 5 -> eeprom c' a = eeprom c a).
    { intros a Ha.
      rewrite (D a) by (unfold memAdd; lia). reflexivity. }
    split.
    + unfold settings_inv. rewrite E1, E2, E3, E4, E5.
      repeat split; try lia; try exact I6.
    + unfold persisted, EEPROM_read, brightAdd, bellTAdd, bellLAdd.
      rewrite E2, E3, E4, !Lo by lia. exact (fun x => x).
  - apply kept_keeps; [|exact I]. apply silent_kept.
    exact (storeTime_loop_cancelled ps _ (emit LedClrAll c) c' H Hc).
Qed.

Lemma recallTime_loop_settings (ps : list poll) :
  forall mem c c',
    recallTime_loop mem ps c = Some c' ->
    1 <= mem <= 64 -> 1 <= currentMem c <= 64 ->
    1 <= currentMem c' <= 64 /\
    set_currentMem 0 (settings_part c') = set_currentMem 0 (settings_part c).
Proof.
  induction ps as [|p ps IH]; intros mem c c'; [discriminate|].
  cbn [recallTime_loop]. cbv zeta.
  destruct (justPressed (sw1 p)); [|destruct (justPressed (sw2 p))];
    intros H Hm Hc.
  - apply some_inj in H. subst c'.
    split; [exact (turn_mem_range mem (encoder p) Hm)|reflexivity].
  - apply some_inj in H. subst c'. split; [exact Hc|reflexivity].
  - exact (IH _ (show_mem "M-" (turn_mem mem (encoder p)) c) c' H
             (turn_mem_range mem (encoder p) Hm) Hc).
Qed.

Lemma recallTime_keeps (ps : list poll) (c c' : ctx) :
  settings_inv c -> recallTime ps c = Some c' ->
  settings_inv c' /\ (persisted c -> persisted c').
Proof.
  intros (I1 & I2 & I3 & I4 & I5 & I6) H.
  destruct (recallTime_loop_settings ps _ (emit LedClrAll c) c' H I1 I1)
    as (A & E).
  pose proof (f_equal menuState E) as E1.
  pose proof (f_equal brightness E) as E2.
  pose proof (f_equal bellType E) as E3.
  pose proof (f_equal bellLength E) as E4.
  pose proof (f_equal bellLoops E) as E5.
  pose proof (f_equal eeprom E) as E6.
  cbn [settings_part emit set_trace set_currentMem menuState brightness
       bellType bellLength bellLoops eeprom trace] in E1, E2, E3, E4, E5, E6.
  split.
  - unfold settings_inv. rewrite E1, E2, E3, E4, E5.
    repeat split; try lia; try exact I6.
  - unfold persisted, EEPROM_read. rewrite E2, E3, E4, E6. exact (fun x => x).
Qed.

Lemma setBrightness_keeps (ps : list poll) (c c' : ctx) :
  settings_inv c -> setBrightness ps c = Some c' ->
  settings_inv c' /\ (persisted c -> persisted c').
Proof.
  intros I H. unfold setBrightness in H.
  destruct (setBrightness_loop _ _ _) as [c0|] eqn:E; [|discriminate].
  apply some_inj in H. subst c'.
  assert (G : settings_inv c0 /\ (persisted c -> persisted c0)).
  { destruct (confirmed ps) eqn:Hc.
    - destruct I as (I1 & I2 & I3 & I4 & I5 & I6).
      destruct (setBrightness_loop_confirmed ps _ (emit LedClrAll c) c0 E Hc I3)
        as (t & d & Ht & Sd & ->).
      destruct (silent_fields d (emit LedClrAll c) Sd)
        as (A1 & A2 & A3 & A4 & A5 & A6 & A7 & _).
      proj_ctx.
      destruct (EEPROM_update_settings brightAdd t (set_brightness t d))
        as (B1 & B2 & B3 & B4 & B5 & B6).
      proj_ctx.
      split.
      + unfold settings_inv. rewrite B1, B2, B3, B4, B5, B6.
        rewrite A1, A3, A4, A5, A6. repeat split; try lia; try exact I6.
      + unfold persisted. rewrite B2, B3, B4.
        rewrite EEPROM_read_update.
        rewrite !EEPROM_read_update_other
          by (unfold brightAdd, bellTAdd, bellLAdd; lia).
        unfold EEPROM_read. proj_ctx. rewrite A3, A4, A7.
        rewrite (to_uint8_id t) by exact Ht.
        intros (_ & P2 & P3). repeat split; assumption.
    - apply kept_keeps; [|exact I]. apply silent_kept.
      exact (setBrightness_loop_cancelled ps _ (emit LedClrAll c) c0 E Hc). }
  destruct G as [G1 G2]. split; [exact G1|exact G2].
Qed.

Lemma setBellType_keeps (ps : list poll) (c c' : ctx) :
  settings_inv c -> setBellType ps c = Some c' ->
  settings_inv c' /\ (persisted c -> persisted c').
Proof.
  intros I H. unfold setBellType in H. cbv zeta in H.
  destruct (confirmed ps) eqn:Hc.
  - destruct I as (I1 & I2 & I3 & I4 & I5 & I6).
    destruct (setBellType_loop_confirmed ps _ _ c' H Hc I4)
      as (t & d & Ht & Sd & ->).
    destruct (silent_fields d _ Sd) as (A1 & A2 & A3 & A4 & A5 & A6 & A7 & _).
    proj_ctx.
    set (e := EEPROM_update bellTAdd t (set_bellType t d)).
    destruct (setBeepTimers_settings (to_int8 t) e)
      as (S1 & S2 & S3 & S4 & S5 & S6 & S7).
    destruct (EEPROM_update_settings bellTAdd t (set_bellType t d))
      as (B1 & B2 & B3 & B4 & B5 & B6).
    fold e in B1, B2, B3, B4, B5, B6. proj_ctx.
    split.
    + unfold settings_inv. rewrite S1, S2, S3, S4, S5, S7.
      rewrite B1, B2, B3, B4, B6. rewrite A1, A2, A4, A6.
      repeat split; try lia; try reflexivity.
    + unfold persisted, EEPROM_read. rewrite S2, S3, S4, S6.
      rewrite B2, B3, B4.
      change (to_uint8 (eeprom e bellTAdd)) with (EEPROM_read bellTAdd e).
      change (to_uint8 (eeprom e brightAdd)) with (EEPROM_read brightAdd e).
      change (to_uint8 (eeprom e bellLAdd)) with (EEPROM_read bellLAdd e).
      subst e. rewrite EEPROM_read_update.
      rewrite !EEPROM_read_update_other
        by (unfold brightAdd, bellTAdd, bellLAdd; lia).
      unfold EEPROM_read. proj_ctx. rewrite A2, A4, A7.
      rewrite (to_uint8_id t) by exact Ht.
      intros (P1 & _ & P3). repeat split; assumption.
  - apply kept_keeps; [|exact I]. apply silent_kept.
    rewrite (setBellType_loop_cancelled ps _ _ c' H Hc). reflexivity.
Qed.

Lemma setBellLength_keeps (ps : list poll) (c c' : ctx) :
  settings_inv c -> setBellLength ps c = Some c' ->
  settings_inv c' /\ (persisted c -> persisted c').
Proof.
  intros I H. unfold setBellLength in H. cbv zeta in H.
  destruct (confirmed ps) eqn:Hc.
  - destruct I as (I1 & I2 & I3 & I4 & I5 & I6).
    destruct (setBellLength_loop_confirmed ps _ _ c' H Hc I5)
      as (t & d & Ht & Sd & ->).
    destruct (silent_fields d _ Sd) as (A1 & A2 & A3 & A4 & A5 & A6 & A7 & _).
    unfold show_mem in A1, A2, A3, A4, A5, A6, A7. proj_ctx.
    set (e := EEPROM_update bellLAdd t (set_bellLength t d)).
    destruct (setBeepTimers_settings (to_int8 (bellType d)) e)
      as (S1 & S2 & S3 & S4 & S5 & S6 & S7).
    destruct (EEPROM_update_settings bellLAdd t (set_bellLength t d))
      as (B1 & B2 & B3 & B4 & B5 & B6).
    fold e in B1, B2, B3, B4, B5, B6. proj_ctx.
    split.
    + unfold settings_inv. rewrite S1, S2, S3, S4, S5, S7.
      rewrite B1, B2, B3, B4, B6. rewrite A1, A2, A3, A6.
      repeat split; try lia; try reflexivity.
    + unfold persisted, EEPROM_read. rewrite S2, S3, S4, S6.
      rewrite B2, B3, B4.
      change (to_uint8 (eeprom e bellTAdd)) with (EEPROM_read bellTAdd e).
      change (to_uint8 (eeprom e brightAdd)) with (EEPROM_read brightAdd e).
      change (to_uint8 (eeprom e bellLAdd)) with (EEPROM_read bellLAdd e).
      subst e. rewrite EEPROM_read_update.
      rewrite !EEPROM_read_update_other
        by (unfold brightAdd, bellTAdd, bellLAdd; lia).
      unfold EEPROM_read. proj_ctx. rewrite A2, A3, A7.
      rewrite (to_uint8_id t) by exact Ht.
      intros (P1 & P2 & _). repeat split; assumption.
  - apply kept_keeps; [|exact I]. apply silent_kept.
    rewrite (setBellLength_loop_cancelled ps _ _ c' H Hc). reflexivity.
Qed.

Lemma menuItem_keeps (clicked : bool) (ps : list poll) (c c' : ctx) :
  settings_inv c -> menuItem clicked ps c = Some c' ->
  settings_inv c' /\ (persisted c -> persisted c').
Proof.
  intros I H. unfold menuItem in H.
  repeat match type of H with
         | context [match ?x with _ => _ end] => destruct x
         end.
  all: first
    [ apply some_inj in H; subst c'; split; [exact I|exact (fun x => x)]
    | exact (recallTime_keeps ps (emit (LedSetText "MEM-") c) c' I H)
    | exact (storeTime_keeps ps (emit (LedSetText "-MEM") c) c' I H)
    | exact (setBrightness_keeps ps (emit (LedSetText "LUM") c) c' I H)
    | exact (setBellType_keeps ps (emit (LedSetText "BL T") c) c' I H)
    | exact (setBellLength_keeps ps (emit (LedSetText "BL L") c) c' I H) ].
Qed.

Lemma menuNaviguate_loop_keeps (ms : list menu_poll) :
  forall c c',
    settings_inv c -> menuNaviguate_loop ms c = Some c' ->
    settings_inv c' /\ (persisted c -> persisted c').
Proof.
  induction ms as [|m ms IH]; intros c c' I H; [discriminate|].
  cbn [menuNaviguate_loop] in H. cbv zeta in H.
  match type of H with
  | context [menuItem ?k ?ps ?d] => set (d0 := d) in H
  end.
  assert (Hd : settings_inv d0 /\ (persisted c -> persisted d0)).
  { subst d0. destruct I as (I1 & I2 & I3 & I4 & I5 & I6).
    unfold settings_inv, persisted, EEPROM_read, SOUND_LENGTH.
    destruct (update (sw2 (pass m)) && justPressed (sw2 (pass m)));
      (destruct (encoder (pass m)) as [s|];
       [ destruct (Z.ltb_spec 0 (to_int8 s)),
           (Z.ltb_spec (menuState c) 4); cbn [andb]; proj_ctx;
         repeat match goal with
                | |- context [?a <? ?b] =>
                    destruct (Z.ltb_spec a b); cbn [andb]; proj_ctx
                end
       | proj_ctx ]);
      rewrite ?to_uint8_id by lia;
      (split; [repeat split; try lia; exact I6|exact (fun x => x)]). }
  clearbody d0. destruct Hd as [Id Pd].
  destruct (menuItem _ (editor m) d0) as [c1|] eqn:E; [|discriminate].
  destruct (menuItem_keeps _ (editor m) d0 c1 Id E) as [I1 P1].
  destruct (state c1).
  5: { destruct (IH c1 c' I1 H) as [I2 P2].
       split; [exact I2|]. intros P. exact (P2 (P1 (Pd P))). }
  all: apply some_inj in H; subst c';
       (split; [exact I1|]); intros P; exact (P1 (Pd P)).
Qed.

Lemma stop_kept (c : ctx) : kept_settings c (stop c).
Proof. reflexivity. Qed.

Lemma menuNaviguate_keeps (ms : list menu_poll) (c c' : ctx) :
  settings_inv c -> menuNaviguate ms c = Some c' ->
  settings_inv c' /\ (persisted c -> persisted c').
Proof.
  intros I H. unfold menuNaviguate in H.
  destruct (menuNaviguate_loop ms c) as [c1|] eqn:E; [|discriminate].
  apply some_inj in H. subst c'.
  destruct (menuNaviguate_loop_keeps ms c c1 I E) as [I1 P1].
  destruct (kept_keeps c1 (stop (emit (ClockSetDots true) (emit LedClrAll c1)))
              (stop_kept _) I1) as [I2 P2].
  split; [exact I2|]. intros P. exact (P2 (P1 P)).
Qed.

Lemma manageSW2_keeps (p : poll) (ms : list menu_poll) (c c' : ctx) :
  settings_inv c -> manageSW2 p ms c = Some c' ->
  settings_inv c' /\ (persisted c -> persisted c').
Proof.
  intros I. unfold manageSW2.
  assert (K : forall d, kept_settings c d -> Some d = Some c' ->
                        settings_inv c' /\ (persisted c -> persisted c')).
  { intros d Kd E. apply some_inj in E. subst d. exact (kept_keeps c c' Kd I). }
  destruct (state c); cbn [state_eqb orb andb].
  4: { apply K. reflexivity. }
  all: destruct (justPressed (sw2 p)), (isLongPressed (sw2 p));
       cbn [andb]; try (apply K; reflexivity).
  all: intros E;
       exact (menuNaviguate_keeps ms (emit LedClrAll (set_state MENU c)) c'
                I E).
Qed.

Lemma loop_keeps (i : loop_input) (c c' : ctx) :
  settings_inv c -> loop i c = Some c' ->
  settings_inv c' /\ (persisted c -> persisted c').
Proof.
  intros I. unfold loop.
  set (c1 := if update (sw1 (top i)) then manageSW1 (top i) c else c).
  assert (H1 : settings_inv c1 /\ (persisted c -> persisted c1)).
  { subst c1. destruct (update (sw1 (top i))).
    - exact (kept_keeps _ _ (manageSW1_kept (top i) c) I).
    - split; [exact I|exact (fun x => x)]. }
  clearbody c1. destruct H1 as [I1 P1].
  destruct (if update (sw2 (top i)) then manageSW2 (top i) (menu_sw2 i) c1
            else Some c1) as [c2|] eqn:E2; [|discriminate].
  assert (H2 : settings_inv c2 /\ (persisted c1 -> persisted c2)).
  { destruct (update (sw2 (top i))).
    - exact (manageSW2_keeps _ _ _ _ I1 E2).
    - apply some_inj in E2. subst c2. split; [exact I1|exact (fun x => x)]. }
  destruct H2 as [I2 P2].
  assert (K : forall d, kept_settings c2 d -> Some d = Some c' ->
                        settings_inv c' /\ (persisted c -> persisted c')).
  { intros d Kd E. apply some_inj in E. subst d.
    destruct (kept_keeps c2 c' Kd I2) as [A B].
    split; [exact A|]. intros P. exact (B (P2 (P1 P))). }
  destruct (state c2).
  - apply K. apply setting_kept.
  - apply K. apply running_kept.
  - apply K. apply pause_kept.
  - apply K. apply beeping_kept.
  - intros E. destruct (menuNaviguate_keeps _ c2 c' I2 E) as [A B].
    split; [exact A|]. intros P. exact (B (P2 (P1 P))).
Qed.

Lemma eepromInit_bytes (c : ctx) (a : Z) :
  eeprom (eepromInit c) a
  = if (3 <=? a) && (a <=? 67) then 0
    else if a =? 2 then 5 else if a =? 1 then 1
    else if a =? 0 then 8 else eeprom c a.
Proof.
  unfold eepromInit. cbv zeta. rewrite eepromInit_loop_eeprom.
  unfold EEPROM_write, memAdd, maxStore, brightAdd, bellTAdd, bellLAdd.
  proj_ctx.
  change (Z.of_nat (Z.to_nat 64)) with 64.
  change (0 <? 64) with true. cbn [andb].
  change (3 + 0 + 64) with 67. change (3 + 0) with 3.
  destruct ((3 <=? a) && (a <=? 67)); reflexivity.
Qed.

Lemma vars_emit (e : io) (c : ctx) : vars_part (emit e c) = vars_part c.
Proof. reflexivity. Qed.

Lemma eeprom_emit (e : io) (c : ctx) : eeprom (emit e c) = eeprom c.
Proof. reflexivity. Qed.

Lemma vars_noeeprom (c : ctx) :
  vars_part c = vars_part (set_eeprom (fun _ => 0) c).
Proof. reflexivity. Qed.

Lemma vars_eepromInit (c : ctx) : vars_part (eepromInit c) = vars_part c.
Proof.
  unfold eepromInit. cbv zeta.
  rewrite (vars_noeeprom (eepromInit_loop _ _ _)).
  rewrite eepromInit_loop_silent. reflexivity.
Qed.

Lemma vars_showVersion (n : nat) :
  forall i v c,
    vars_part (showVersion n i v c) = vars_part c /\
    eeprom (showVersion n i v c) = eeprom c.
Proof.
  induction n as [|n IH]; intros i v c; [split; reflexivity|].
  cbn [showVersion].
  destruct (IH (i + 1) (v / 10) (emit (LedSetDigit (3 - i) (v mod 10)) c))
    as [A B].
  rewrite A, B. split; reflexivity.
Qed.

Lemma vars_fields (c d : ctx) :
  vars_part d = vars_part c ->
  menuState d = menuState c /\ brightness d = brightness c /\
  bellType d = bellType c /\ bellLength d = bellLength c /\
  bellLoops d = bellLoops c /\ currentMem d = currentMem c.
Proof.
  intros S.
  exact (conj (f_equal menuState S) (conj (f_equal brightness S)
        (conj (f_equal bellType S) (conj (f_equal bellLength S)
        (conj (f_equal bellLoops S) (f_equal currentMem S)))))).
Qed.

Lemma setup_split (pinSW1 pinSW2 : bool) (c : ctx) :
  setup pinSW1 pinSW2 c
  = setup_tail pinSW1 pinSW2
      (setBeepTimers (to_int8 (bellType (setup_read c))) (setup_read c)).
Proof. reflexivity. Qed.

(** The variables and the EEPROM content that [setup] leaves. *)
Lemma setup_vars (rom : Z -> Z) (pinSW1 pinSW2 : bool) :
  let c := setup pinSW1 pinSW2 (power_on rom) in
  currentMem c = 1 /\ menuState c = 0 /\
  brightness c = to_uint8 (rom brightAdd) /\
  bellType c = to_uint8 (rom bellTAdd) /\
  bellLength c = to_uint8 (rom bellLAdd) /\
  bellLoops c = derived_loops (bellType c) (bellLength c) /\
  (negb pinSW1 && pinSW2 = false -> eeprom c = rom) /\
  (negb pinSW1 && pinSW2 = true ->
   forall a, eeprom c a
             = if (3 <=? a) && (a <=? 67) then 0
               else if a =? 2 then 5 else if a =? 1 then 1
               else if a =? 0 then 8 else rom a).
Proof.
  cbv zeta. rewrite setup_split.
  set (w := setup_read (power_on rom)).
  assert (Hw : menuState w = 0 /\ brightness w = to_uint8 (rom brightAdd) /\
               bellType w = to_uint8 (rom bellTAdd) /\
               bellLength w = to_uint8 (rom bellLAdd) /\
               currentMem w = 1 /\ eeprom w = rom)
    by (repeat split).
  clearbody w. destruct Hw as (W1 & W2 & W3 & W4 & W5 & W6).
  destruct (setBeepTimers_settings (to_int8 (bellType w)) w)
    as (S1 & S2 & S3 & S4 & S5 & S6 & S7).
  set (c0 := setBeepTimers (to_int8 (bellType w)) w) in *.
  rewrite W1 in S1. rewrite W2 in S2. rewrite W3 in S3, S7.
  rewrite W4 in S4, S7. rewrite W5 in S5. rewrite W6 in S6.
  clearbody c0. unfold setup_tail. cbv zeta.
  match goal with
  | |- context [beepOff ?y] => set (c1 := beepOff y)
  end.
  assert (V1 : vars_part c1 = vars_part c0 /\ eeprom c1 = eeprom c0)
    by (split; reflexivity).
  clearbody c1. destruct V1 as [V1 E1].
  destruct (vars_showVersion 4 0 SW_VERSION c1) as [V2 E2].
  pose proof (vars_eepromInit (showVersion 4 0 SW_VERSION c1)) as V3.
  assert (G : forall d, vars_part d = vars_part c0 ->
            currentMem d = 1 /\ menuState d = 0 /\
            brightness d = to_uint8 (rom brightAdd) /\
            bellType d = to_uint8 (rom bellTAdd) /\
            bellLength d = to_uint8 (rom bellLAdd) /\
            bellLoops d = derived_loops (bellType d) (bellLength d)).
  { intros d Vd.
    destruct (vars_fields c0 d Vd) as (A1 & A2 & A3 & A4 & A5 & A6).
    rewrite A1, A2, A3, A4, A5, A6, S1, S2, S3, S4, S5, S7.
    unfold derived_loops. repeat split. }
  assert (W : forall d, vars_part d = vars_part c0 ->
            forall P Q : Prop, P -> Q ->
            currentMem d = 1 /\ menuState d = 0 /\
            brightness d = to_uint8 (rom brightAdd) /\
            bellType d = to_uint8 (rom bellTAdd) /\
            bellLength d = to_uint8 (rom bellLAdd) /\
            bellLoops d = derived_loops (bellType d) (bellLength d) /\
            P /\ Q).
  { intros d Vd P Q HP HQ. destruct (G d Vd) as (A & B & C & D & E & F).
    exact (conj A (conj B (conj C (conj D (conj E (conj F (conj HP HQ))))))). }
  destruct pinSW1, pinSW2; cbn [negb andb]; apply W;
    rewrite ?vars_emit, ?V3, ?V2; try exact V1;
    try (intros Hf; discriminate Hf); intros _.
  - rewrite !eeprom_emit, E1, S6. reflexivity.
  - rewrite !eeprom_emit, E1, S6. reflexivity.
  - intros a. rewrite !eeprom_emit, eepromInit_bytes, E2, E1, S6. reflexivity.
  - rewrite !eeprom_emit, E2, E1, S6. reflexivity.
Qed.

Lemma setup_settings_inv (rom : Z -> Z) (pinSW1 pinSW2 : bool) :
  settings_inv (setup pinSW1 pinSW2 (power_on rom)).
Proof.
  destruct (setup_vars rom pinSW1 pinSW2) as (A & B & C & D & E & F & _).
  unfold settings_inv. rewrite A, B, C, D, E in *.
  pose proof (to_uint8_range (rom brightAdd)).
  pose proof (to_uint8_range (rom bellTAdd)).
  pose proof (to_uint8_range (rom bellLAdd)).
  repeat split; try lia; try exact F.
Qed.

Lemma reachable_settings_inv (c : ctx) : reachable c -> settings_inv c.
Proof.
  induction 1 as [rom a b|c c' i _ IH E].
  - apply setup_settings_inv.
  - exact (proj1 (loop_keeps i c c' IH E)).
Qed.

(** In every state reached from [setup()] by passes of [loop()], whatever
    the EEPROM held and whatever was done in the menu: the slot index is in
    1..64, the menu item in 0..4, brightness, alert type and alert length
    are bytes, and the repeat count of the beep is the one [setBeepTimers]
    derives from the current alert type and length. *)
Theorem reachable_settings (c : ctx) :
  reachable c ->
  1 <= currentMem c <= 64 /\ 0 <= menuState c <= 4 /\
  0 <= brightness c <= 255 /\ 0 <= bellType c <= 255 /\
  0 <= bellLength c <= 255 /\
  bellLoops c
  = to_uint16 (to_uint32 (to_int16 (bellLength c * 1000))
               / onDelay (to_int8 (bellType c))).
Proof.
  intros R. exact (reachable_settings_inv c R).
Qed.

Lemma reachable_settings_witness :
  reachable running_ctx /\ 1 <= currentMem running_ctx <= 64 /\
  bellLoops running_ctx = 0.
Proof.
  assert (R : reachable running_ctx).
  { apply (reachable_run_loops
             [mkLoopInput (turn 1) [] []; mkLoopInput (turn 1) [] [];
              mkLoopInput (press_sw1 0) [] []]
             (started (fun _ => 0))).
    - exact (reach_setup (fun _ => 0) HIGH HIGH).
    - vm_compute. reflexivity. }
  destruct (reachable_settings running_ctx R) as (A & _ & _ & _ & _ & B).
  split; [exact R|]. split; [exact A|].
  rewrite B. reflexivity.
Defined.

Lemma run_loops_keeps (inputs : list loop_input) :
  forall c c',
    settings_inv c -> persisted c ->
    run_loops inputs (Some c) = Some c' -> settings_inv c' /\ persisted c'.
Proof.
  induction inputs as [|i inputs IH]; intros c c' I P H.
  - apply some_inj in H. subst c'. split; assumption.
  - cbn [run_loops fold_left] in H.
    destruct (loop i c) as [c1|] eqn:E.
    + destruct (loop_keeps i c c1 I E) as [I1 P1].
      exact (IH c1 c' I1 (P1 P) H).
    + exfalso. clear -H. induction inputs as [|j inputs IHi]; [discriminate|].
      exact (IHi H).
Qed.

(** When start-up does not run [eepromInit] (switch 1 released, or switch 2
    held with it), then after [setup()] and any number of passes of
    [loop()] the brightness, the alert type and the alert length in use are
    the bytes stored for them in the EEPROM: the editors write through, and
    nothing else writes these three bytes. *)
Theorem settings_persisted (rom : Z -> Z) (pinSW1 pinSW2 : bool)
    (inputs : list loop_input) (c : ctx) :
  negb pinSW1 && pinSW2 = false ->
  run_loops inputs (Some (setup pinSW1 pinSW2 (power_on rom))) = Some c ->
  brightness c = EEPROM_read brightAdd c /\
  bellType c = EEPROM_read bellTAdd c /\
  bellLength c = EEPROM_read bellLAdd c.
Proof.
  intros Hp H.
  destruct (setup_vars rom pinSW1 pinSW2) as (_ & _ & C & D & E & _ & F & _).
  cbv zeta in *. specialize (F Hp).
  assert (P : persisted (setup pinSW1 pinSW2 (power_on rom))).
  { unfold persisted, EEPROM_read. rewrite C, D, E, F. repeat split. }
  exact (proj2 (run_loops_keeps inputs _ c
                  (setup_settings_inv rom pinSW1 pinSW2) P H)).
Qed.

Lemma manageSW1_quiet (p : poll) (c : ctx) :
  state c <> MENU -> quiet_step c (manageSW1 p c).
Proof.
  intros N. split; [apply manageSW1_kept|].
  unfold manageSW1.
  destruct (state c) eqn:Hs; try discriminate; try congruence;
    destruct (isLongPressed (sw1 p)); try discriminate;
    destruct (justPressed (sw1 p)); try discriminate; congruence.
Qed.

Lemma manageSW2_quiet (p : poll) (ms : list menu_poll) (c c' : ctx) :
  state c <> MENU -> justPressed (sw2 p) = false ->
  manageSW2 p ms c = Some c' -> quiet_step c c'.
Proof.
  intros N J. unfold manageSW2. rewrite J. cbn [andb].
  destruct (state c) eqn:Hs; try congruence; cbn [state_eqb orb andb];
    try destruct (isLongPressed (sw2 p)); cbn [andb];
    intros E; apply some_inj in E; subst c';
    (split; [reflexivity|]); try discriminate; congruence.
Qed.

Lemma running_quiet (p : poll) (c : ctx) :
  state c = RUN -> quiet_step c (running p c).
Proof.
  intros Hs. split; [apply running_kept|].
  unfold running.
  destruct (Timer.update (now p) (timerDots c)) as [blink td].
  destruct blink; proj_ctx;
    destruct (Timer.update (now p) (timerMain c)) as [e tm];
    destruct e; try split_if; try discriminate;
    proj_ctx; rewrite Hs; discriminate.
Qed.

Lemma pause_quiet (p : poll) (c : ctx) :
  state c = PAUSE -> quiet_step c (pause p c).
Proof.
  intros Hs. split; [apply pause_kept|].
  unfold pause.
  destruct (Timer.update (now p) (timerPause _)) as [blink tp].
  destruct blink; proj_ctx; rewrite Hs; discriminate.
Qed.

Lemma beeping_quiet (p : poll) (c : ctx) :
  state c = BEEPING -> quiet_step c (beeping p c).
Proof.
  intros Hs. split; [apply beeping_kept|].
  unfold beeping.
  destruct (Timer.update (now p) (timerBeep1 c)) as [f1 t1].
  destruct f1; proj_ctx;
    match goal with
    | |- context [Timer.update (now p) ?x] =>
        destruct (Timer.update (now p) x) as [f2 t2]
    end;
    destruct f2; proj_ctx;
    destruct (Timer.update (now p) (timerBeep3 c)) as [f3 t3];
    destruct f3; try discriminate; proj_ctx; rewrite Hs; discriminate.
Qed.

Lemma loop_quiet (i : loop_input) (c c' : ctx) :
  state c <> MENU -> justPressed (sw2 (top i)) = false ->
  loop i c = Some c' -> quiet_step c c'.
Proof.
  intros N J. unfold loop.
  set (c1 := if update (sw1 (top i)) then manageSW1 (top i) c else c).
  assert (H1 : quiet_step c c1).
  { subst c1. destruct (update (sw1 (top i))).
    - exact (manageSW1_quiet (top i) c N).
    - split; [reflexivity|exact N]. }
  clearbody c1. destruct H1 as [K1 N1].
  destruct (if update (sw2 (top i)) then manageSW2 (top i) (menu_sw2 i) c1
            else Some c1) as [c2|] eqn:E2; [|discriminate].
  assert (H2 : quiet_step c1 c2).
  { destruct (update (sw2 (top i))).
    - exact (manageSW2_quiet _ _ c1 c2 N1 J E2).
    - apply some_inj in E2. subst c2. split; [reflexivity|exact N1]. }
  destruct H2 as [K2 N2].
  pose proof (kept_settings_trans c c1 c2 K1 K2) as K.
  destruct (state c2) eqn:Hs; intros E; try congruence;
    apply some_inj in E; subst c'.
  - split.
    + exact (kept_settings_trans c c2 _ K (setting_kept _ c2)).
    + rewrite (proj1 (setting_same (encoder (top i)) c2)), Hs. discriminate.
  - destruct (running_quiet (top i) c2 Hs) as [K3 N3].
    split; [exact (kept_settings_trans c c2 _ K K3)|exact N3].
  - destruct (pause_quiet (top i) c2 Hs) as [K3 N3].
    split; [exact (kept_settings_trans c c2 _ K K3)|exact N3].
  - destruct (beeping_quiet (top i) c2 Hs) as [K3 N3].
    split; [exact (kept_settings_trans c c2 _ K K3)|exact N3].
Qed.

Lemma run_loops_quiet (inputs : list loop_input) :
  forall c c',
    state c <> MENU ->
    Forall (fun i => justPressed (sw2 (top i)) = false) inputs ->
    run_loops inputs (Some c) = Some c' -> kept_settings c c'.
Proof.
  induction inputs as [|i inputs IH]; intros c c' N F H.
  - apply some_inj in H. subst c'. reflexivity.
  - cbn [run_loops fold_left] in H.
    inversion F as [|i0 l0 J F' Eq]; subst.
    destruct (loop i c) as [c1|] eqn:E.
    + destruct (loop_quiet i c c1 N J E) as [K1 N1].
      exact (kept_settings_trans c c1 c' K1 (IH c1 c' N1 F' H)).
    + exfalso. clear -H. induction inputs as [|j inputs IHi]; [discriminate|].
      exact (IHi H).
Qed.

(** What [setup()] leaves when it runs the first-run initialisation. *)
Lemma setup_init_facts (rom : Z -> Z) :
  let c0 := setup LOW HIGH (power_on rom) in
  state c0 <> MENU /\
  brightness c0 = to_uint8 (rom brightAdd) /\
  bellType c0 = to_uint8 (rom bellTAdd) /\
  bellLength c0 = to_uint8 (rom bellLAdd) /\
  bellLoops c0 = derived_loops (to_uint8 (rom bellTAdd))
                   (to_uint8 (rom bellLAdd)) /\
  EEPROM_read brightAdd c0 = 8 /\ EEPROM_read bellTAdd c0 = 1 /\
  EEPROM_read bellLAdd c0 = 5.
Proof.
  pose proof (setup_vars rom LOW HIGH) as V.
  pose proof (setup_relay rom LOW HIGH) as S.
  set (c0 := setup LOW HIGH (power_on rom)) in *. clearbody c0.
  cbv zeta in V, S.
  destruct V as (_ & _ & C & D & E & L & _ & G).
  destruct S as [S _].
  specialize (G eq_refl).
  split; [rewrite S; discriminate|].
  unfold EEPROM_read. rewrite !G, L, C, D, E.
  split; [reflexivity|]. split; [reflexivity|]. split; [reflexivity|].
  split; [reflexivity|]. split; [reflexivity|]. split; reflexivity.
Qed.

Lemma kept_fields (c c' : ctx) :
  kept_settings c c' ->
  brightness c' = brightness c /\ bellType c' = bellType c /\
  bellLength c' = bellLength c /\ bellLoops c' = bellLoops c /\
  eeprom c' = eeprom c.
Proof.
  intros K. unfold kept_settings in K.
  exact (conj (f_equal brightness K) (conj (f_equal bellType K)
        (conj (f_equal bellLength K) (conj (f_equal bellLoops K)
        (f_equal eeprom K))))).
Qed.

Lemma kept_init_settings (c0 c : ctx) (rom : Z -> Z) :
  kept_settings c0 c ->
  (brightness c0 = to_uint8 (rom brightAdd) /\
  bellType c0 = to_uint8 (rom bellTAdd) /\
  bellLength c0 = to_uint8 (rom bellLAdd) /\
  bellLoops c0 = derived_loops (to_uint8 (rom bellTAdd))
                   (to_uint8 (rom bellLAdd)) /\
  EEPROM_read brightAdd c0 = 8 /\ EEPROM_read bellTAdd c0 = 1 /\
  EEPROM_read bellLAdd c0 = 5) ->
  brightness c = to_uint8 (rom brightAdd) /\
  bellType c = to_uint8 (rom bellTAdd) /\
  bellLength c = to_uint8 (rom bellLAdd) /\
  bellLoops c = derived_loops (to_uint8 (rom bellTAdd))
                  (to_uint8 (rom bellLAdd)) /\
  EEPROM_read brightAdd c = 8 /\ EEPROM_read bellTAdd c = 1 /\
  EEPROM_read bellLAdd c = 5.
Proof.
  intros K A.
  destruct (kept_fields c0 c K) as (K1 & K2 & K3 & K4 & K5).
  unfold EEPROM_read in *. rewrite K1, K2, K3, K4, K5. exact A.
Qed.

(** The first-run initialisation at start-up (switch 1 held, switch 2
    released) rewrites the EEPROM after the settings have been read, and
    they are not read again: after [setup()] and any number of passes of
    [loop()] in which switch 2 is not pressed (the menu is never opened),
    the controller runs with the old bytes as brightness, alert type, alert
    length and beep count while the EEPROM holds 8, 1 and 5. *)
Theorem setup_init_not_loaded (rom : Z -> Z) (inputs : list loop_input)
    (c : ctx) :
  Forall (fun i => justPressed (sw2 (top i)) = false) inputs ->
  run_loops inputs (Some (setup LOW HIGH (power_on rom))) = Some c ->
  brightness c = to_uint8 (rom brightAdd) /\
  bellType c = to_uint8 (rom bellTAdd) /\
  bellLength c = to_uint8 (rom bellLAdd) /\
  bellLoops c = derived_loops (to_uint8 (rom bellTAdd))
                  (to_uint8 (rom bellLAdd)) /\
  EEPROM_read brightAdd c = 8 /\ EEPROM_read bellTAdd c = 1 /\
  EEPROM_read bellLAdd c = 5.
Proof.
  intros F H.
  destruct (setup_init_facts rom) as [N A].
  exact (kept_init_settings _ c rom
           (run_loops_quiet inputs _ c N F H) A).
Qed.

Lemma setup_init_not_loaded_witness :
  let rom := fun _ : Z => 3 in
  let inputs := [mkLoopInput (turn 1) [] []; mkLoopInput (press_sw1 0) [] [];
                 mkLoopInput (quiet 2000) [] []] in
  Forall (fun i => justPressed (sw2 (top i)) = false) inputs /\
  match run_loops inputs (Some (setup LOW HIGH (power_on rom))) with
  | Some c => brightness c = 3 /\ EEPROM_read brightAdd c = 8
  | None => True
  end.
Proof.
  intros rom inputs.
  assert (F : Forall (fun i => justPressed (sw2 (top i)) = false) inputs)
    by (repeat constructor).
  split; [exact F|].
  destruct (run_loops inputs (Some (setup LOW HIGH (power_on rom))))
    as [c|] eqn:E; [|exact I].
  destruct (setup_init_not_loaded rom inputs c F E)
    as (A & _ & _ & _ & B & _).
  split; [exact A|exact B].
Defined.

Lemma settings_persisted_witness :
  let rom := fun _ : Z => 8 in
  let inputs :=
    [mkLoopInput (press_sw2 0)
       [mkMenuPoll (turn 1) []; mkMenuPoll (turn 1) [];
        mkMenuPoll (press_sw1 0) [turn 3; press_sw1 0];
        mkMenuPoll (press_sw2 0) []] []] in
  let c := match run_loops inputs (Some (setup HIGH HIGH (power_on rom))) with
           | Some x => x
           | None => power_on rom
           end in
  negb HIGH && HIGH = false /\
  run_loops inputs (Some (setup HIGH HIGH (power_on rom))) = Some c /\
  brightness c = 11 /\ EEPROM_read brightAdd c = 11.
Proof.
  intros rom inputs c.
  assert (P : negb HIGH && HIGH = false) by reflexivity.
  assert (R : run_loops inputs (Some (setup HIGH HIGH (power_on rom)))
              = Some c) by (vm_compute; reflexivity).
  assert (B : brightness c = 11) by (vm_compute; reflexivity).
  split; [exact P|]. split; [exact R|]. split; [exact B|].
  rewrite <- (proj1 (settings_persisted rom HIGH HIGH inputs c P R)).
  exact B.
Defined.

(** ** The second output *)

Lemma pins_kept_agree (c c' : ctx) :
  pins_kept c c' -> outs_agree c -> outs_agree c'.
Proof.
  intros K H. unfold outs_agree. rewrite !K. exact H.
Qed.

Lemma setTime_pins (v : Z) (c : ctx) : pins_kept c (setTime v c).
Proof.
  intros pin. unfold setTime, setSeconds, setMinutes.
  repeat (split_if; proj_ctx); reflexivity.
Qed.

Lemma setting_pins (e : option Z) (c : ctx) : pins_kept c (setting e c).
Proof.
  intros pin. unfold setting. destruct e as [step|]; proj_ctx.
  - cbn [pin_level]. apply setTime_pins.
  - reflexivity.
Qed.

Lemma manageSW1_agree (p : poll) (c : ctx) :
  outs_agree c -> outs_agree (manageSW1 p c).
Proof.
  intros H. unfold manageSW1.
  destruct (state c).
  5: { destruct (isLongPressed (sw1 p)); [reflexivity|].
       destruct (justPressed (sw1 p)); [|exact H].
       exact (pins_kept_agree c _ (setting_pins _ c) H). }
  4: { exact H. }
  all: destruct (isLongPressed (sw1 p)); [reflexivity|];
       destruct (justPressed (sw1 p)); [reflexivity|exact H].
Qed.

Lemma menuNaviguate_agree (ms : list menu_poll) (c c' : ctx) :
  menuNaviguate ms c = Some c' -> outs_agree c'.
Proof.
  intros H. unfold menuNaviguate in H.
  destruct (menuNaviguate_loop ms c) as [c1|]; [|discriminate].
  apply some_inj in H. subst c'. reflexivity.
Qed.

Lemma manageSW2_agree (p : poll) (ms : list menu_poll) (c c' : ctx) :
  outs_agree c -> manageSW2 p ms c = Some c' -> outs_agree c'.
Proof.
  intros H. unfold manageSW2.
  assert (Same : Some c = Some c' -> outs_agree c').
  { intros E. apply some_inj in E. subst c'. exact H. }
  assert (Stop : Some (set_state SETTING (stop c)) = Some c' -> outs_agree c').
  { intros E. apply some_inj in E. subst c'. reflexivity. }
  destruct (state c); cbn [state_eqb orb andb].
  4: { intros E. apply some_inj in E. subst c'. exact H. }
  all: destruct (justPressed (sw2 p)), (isLongPressed (sw2 p));
       cbn [andb]; try exact Same; try exact Stop.
  all: apply menuNaviguate_agree.
Qed.

Lemma running_agree (p : poll) (c : ctx) :
  outs_agree c -> outs_agree (running p c).
Proof.
  intros H. unfold running.
  destruct (Timer.update (now p) (timerDots c)) as [blink td].
  destruct blink; proj_ctx;
    destruct (Timer.update (now p) (timerMain c)) as [e tm];
    destruct e; try split_if; try reflexivity; exact H.
Qed.

Lemma pause_agree (p : poll) (c : ctx) :
  outs_agree c -> outs_agree (pause p c).
Proof.
  intros H. unfold pause.
  destruct (Timer.update (now p) (timerPause _)) as [blink tp].
  destruct blink; exact H.
Qed.

Lemma beeping_agree (p : poll) (c : ctx) :
  outs_agree c -> outs_agree (beeping p c).
Proof.
  intros H. unfold beeping.
  destruct (Timer.update (now p) (timerBeep1 c)) as [f1 t1].
  destruct f1; proj_ctx;
    match goal with
    | |- context [Timer.update (now p) ?x] =>
        destruct (Timer.update (now p) x) as [f2 t2]
    end;
    destruct f2; proj_ctx;
    destruct (Timer.update (now p) (timerBeep3 c)) as [f3 t3];
    destruct f3; try reflexivity; exact H.
Qed.

Lemma showVersion_pins (n : nat) :
  forall i v c, pins_kept c (showVersion n i v c).
Proof.
  induction n as [|n IH]; intros i v c pin; [reflexivity|].
  cbn [showVersion]. rewrite IH. reflexivity.
Qed.

Lemma trace_noeeprom (c : ctx) : trace c = trace (set_eeprom (fun _ => 0) c).
Proof. reflexivity. Qed.

Lemma trace_eepromInit (c : ctx) : trace (eepromInit c) = trace c.
Proof.
  unfold eepromInit. cbv zeta.
  rewrite (trace_noeeprom (eepromInit_loop _ _ _)).
  rewrite eepromInit_loop_silent. reflexivity.
Qed.

Lemma setup_agree (rom : Z -> Z) (pinSW1 pinSW2 : bool) :
  outs_agree (setup pinSW1 pinSW2 (power_on rom)).
Proof.
  rewrite setup_split.
  set (c0 := setBeepTimers _ _). clearbody c0.
  unfold setup_tail. cbv zeta.
  match goal with
  | |- context [beepOff ?y] => set (c1 := beepOff y)
  end.
  assert (H1 : pin_level OUT2 (trace c1) = Some HIGH /\
               pin_level OUT (trace c1) = Some HIGH)
    by (split; reflexivity).
  clearbody c1. destruct H1 as [P2 P1].
  pose proof (showVersion_pins 4 0 SW_VERSION c1) as V.
  pose proof (trace_eepromInit (showVersion 4 0 SW_VERSION c1)) as T.
  unfold outs_agree.
  destruct pinSW1, pinSW2; cbn [negb];
    rewrite !trace_emit, !pin_level_skip by exact I;
    rewrite ?T, ?V, P1, P2; reflexivity.
Qed.

Lemma loop_agree (i : loop_input) (c c' : ctx) :
  outs_agree c -> loop i c = Some c' -> outs_agree c'.
Proof.
  intros H. unfold loop.
  set (c1 := if update (sw1 (top i)) then manageSW1 (top i) c else c).
  assert (H1 : outs_agree c1).
  { subst c1. destruct (update (sw1 (top i))); [apply manageSW1_agree|];
      exact H. }
  clearbody c1.
  destruct (if update (sw2 (top i)) then manageSW2 (top i) (menu_sw2 i) c1
            else Some c1) as [c2|] eqn:E2; [|discriminate].
  assert (H2 : outs_agree c2).
  { destruct (update (sw2 (top i))).
    - exact (manageSW2_agree _ _ _ _ H1 E2).
    - apply some_inj in E2. subst c2. exact H1. }
  destruct (state c2); intros E.
  - apply some_inj in E. subst c'.
    exact (pins_kept_agree c2 _ (setting_pins _ c2) H2).
  - apply some_inj in E. subst c'. exact (running_agree _ _ H2).
  - apply some_inj in E. subst c'. exact (pause_agree _ _ H2).
  - apply some_inj in E. subst c'. exact (beeping_agree _ _ H2).
  - exact (menuNaviguate_agree _ c2 c' E).
Qed.

(** The second output follows the relay output: in every state reached from
    [setup()] by passes of [loop()], the last level written to OUT2 is the
    last level written to OUT. *)
Theorem outputs_agree (c : ctx) :
  reachable c -> pin_level OUT2 (trace c) = pin_level OUT (trace c).
Proof.
  induction 1 as [rom a b|c c' i _ IH E].
  - apply setup_agree.
  - exact (loop_agree i c c' IH E).
Qed.

Lemma outputs_agree_witness :
  reachable running_ctx /\
  pin_level OUT2 (trace running_ctx) = Some LOW /\
  pin_level OUT (trace running_ctx) = Some LOW.
Proof.
  assert (R : reachable running_ctx).
  { apply (reachable_run_loops
             [mkLoopInput (turn 1) [] []; mkLoopInput (turn 1) [] [];
              mkLoopInput (press_sw1 0) [] []]
             (started (fun _ => 0))).
    - exact (reach_setup (fun _ => 0) HIGH HIGH).
    - vm_compute. reflexivity. }
  split; [exact R|].
  split; [rewrite (outputs_agree running_ctx R)|]; vm_compute; reflexivity.
Defined.

(** ** Leaving the menu *)

Lemma duration_EEPROM_update (a v : Z) (c : ctx) :
  duration (EEPROM_update a v c) = duration c.
Proof. exact (f_equal duration (EEPROM_update_noeeprom a v c)). Qed.

Lemma duration_setBeepTimers (type : Z) (c : ctx) :
  duration (setBeepTimers type c) = duration c.
Proof.
  destruct (setBeepTimers_shape type c) as (t1 & t2 & t3 & ->). reflexivity.
Qed.

Lemma storeTime_loop_duration (ps : list poll) :
  forall mem c c',
    storeTime_loop mem ps c = Some c' -> duration c' = duration c.
Proof.
  induction ps as [|p ps IH]; intros mem c c'; [discriminate|].
  cbn [storeTime_loop]. cbv zeta.
  destruct (justPressed (sw1 p)); [|destruct (justPressed (sw2 p))]; intros H.
  - apply some_inj in H. subst c'. rewrite !duration_EEPROM_update.
    reflexivity.
  - apply some_inj in H. subst c'. reflexivity.
  - rewrite (IH _ _ c' H). reflexivity.
Qed.

Lemma recallTime_loop_duration (ps : list poll) :
  forall mem c c',
    recallTime_loop mem ps c = Some c' -> duration c' = duration c.
Proof.
  induction ps as [|p ps IH]; intros mem c c'; [discriminate|].
  cbn [recallTime_loop]. cbv zeta.
  destruct (justPressed (sw1 p)); [|destruct (justPressed (sw2 p))]; intros H.
  - apply some_inj in H. subst c'. reflexivity.
  - apply some_inj in H. subst c'. reflexivity.
  - rewrite (IH _ _ c' H). reflexivity.
Qed.

Lemma setBrightness_loop_duration (ps : list poll) :
  forall temp c c',
    setBrightness_loop temp ps c = Some c' -> duration c' = duration c.
Proof.
  induction ps as [|p ps IH]; intros temp c c'; [discriminate|].
  cbn [setBrightness_loop]. cbv zeta.
  destruct (justPressed (sw1 p)); [|destruct (justPressed (sw2 p))]; intros H.
  - apply some_inj in H. subst c'. rewrite duration_EEPROM_update.
    reflexivity.
  - apply some_inj in H. subst c'. reflexivity.
  - rewrite (IH _ _ c' H). reflexivity.
Qed.

Lemma setBellType_loop_duration (ps : list poll) :
  forall type c c',
    setBellType_loop type ps c = Some c' -> duration c' = duration c.
Proof.
  induction ps as [|p ps IH]; intros type c c'; [discriminate|].
  cbn [setBellType_loop]. cbv zeta.
  destruct (justPressed (sw1 p)); [|destruct (justPressed (sw2 p))]; intros H.
  - apply some_inj in H. subst c'.
    rewrite duration_setBeepTimers, duration_EEPROM_update.
    destruct (encoder p); reflexivity.
  - apply some_inj in H. subst c'. destruct (encoder p); reflexivity.
  - rewrite (IH _ _ c' H). destruct (encoder p); reflexivity.
Qed.

Lemma setBellLength_loop_duration (ps : list poll) :
  forall len c c',
    setBellLength_loop len ps c = Some c' -> duration c' = duration c.
Proof.
  induction ps as [|p ps IH]; intros len c c'; [discriminate|].
  cbn [setBellLength_loop]. cbv zeta.
  destruct (justPressed (sw1 p)); [|destruct (justPressed (sw2 p))]; intros H.
  - apply some_inj in H. subst c'.
    rewrite duration_setBeepTimers, duration_EEPROM_update.
    destruct (encoder p); reflexivity.
  - apply some_inj in H. subst c'. destruct (encoder p); reflexivity.
  - rewrite (IH _ _ c' H). destruct (encoder p); reflexivity.
Qed.

Lemma menuItem_duration (clicked : bool) (ps : list poll) (c c' : ctx) :
  menuItem clicked ps c = Some c' -> duration c' = duration c.
Proof.
  intros H. unfold menuItem in H.
  repeat match type of H with
         | context [match ?x with _ => _ end] => destruct x
         end.
  all: first
    [ apply some_inj in H; subst c'; reflexivity
    | exact (recallTime_loop_duration ps _ _ c' H)
    | exact (storeTime_loop_duration ps _ _ c' H)
    | unfold setBrightness in H;
      destruct (setBrightness_loop _ _ _) as [c0|] eqn:E; [|discriminate];
      apply some_inj in H; subst c';
      exact (setBrightness_loop_duration ps _ _ c0 E)
    | exact (setBellType_loop_duration ps _ _ c' H)
    | exact (setBellLength_loop_duration ps _ _ c' H) ].
Qed.

Lemma menuNaviguate_loop_duration (ms : list menu_poll) :
  forall c c', menuNaviguate_loop ms c = Some c' -> duration c' = duration c.
Proof.
  induction ms as [|m ms IH]; intros c c' H; [discriminate|].
  cbn [menuNaviguate_loop] in H. cbv zeta in H.
  match type of H with
  | context [menuItem ?k ?ps ?d] => set (d0 := d) in H
  end.
  assert (Hd : duration d0 = duration c).
  { subst d0.
    destruct (update (sw2 (pass m)) && justPressed (sw2 (pass m)));
      destruct (encoder (pass m));
      repeat match goal with
             | |- context [if ?b then _ else _] => destruct b
             end; reflexivity. }
  clearbody d0.
  destruct (menuItem _ (editor m) d0) as [c1|] eqn:E; [|discriminate].
  pose proof (menuItem_duration _ _ d0 c1 E) as H1.
  destruct (state c1).
  5: { rewrite (IH c1 c' H), H1. exact Hd. }
  all: apply some_inj in H; subst c'; rewrite H1; exact Hd.
Qed.

(** However the menu is used and left, the controller comes out of it in
    SETTING with the relay output released and the display showing the
    minutes and seconds now set (recalled or not); the cached duration is
    the one from before the menu, since nothing in the menu recomputes
    it. *)
Theorem menuNaviguate_exit (ms : list menu_poll) (c c' : ctx) :
  in_menu c -> menuNaviguate ms c = Some c' ->
  state c' = SETTING /\
  pin_level OUT (trace c') = Some HIGH /\
  shown_minutes (trace c') = Some (minutes c') /\
  shown_seconds (trace c') = Some (seconds c') /\
  duration c' = duration c.
Proof.
  intros Hc H.
  destruct (menuNaviguate_relay ms c c' Hc H) as [A B].
  unfold menuNaviguate in H.
  destruct (menuNaviguate_loop ms c) as [c1|] eqn:E; [|discriminate].
  apply some_inj in H. subst c'.
  split; [exact A|]. split; [exact B|].
  split; [reflexivity|]. split; [reflexivity|].
  exact (menuNaviguate_loop_duration ms c c1 E).
Qed.

Lemma menuNaviguate_exit_witness :
  let c := set_state MENU (started (fun a => if a =? 5 then 10 else 0)) in
  let ms := [mkMenuPoll (press_sw1 0) [press_sw1 0]] in
  in_menu c /\
  match menuNaviguate ms c with
  | Some c' => shown_minutes (trace c') = Some (minutes c') /\
               duration c' = duration c
  | None => True
  end.
Proof.
  intros c ms.
  assert (M : in_menu c) by (left; reflexivity).
  split; [exact M|].
  destruct (menuNaviguate ms c) as [c'|] eqn:E; [|exact I].
  destruct (menuNaviguate_exit ms c c' M E) as (_ & _ & A & _ & B).
  split; [exact A|exact B].
Defined.

(** ** The EEPROM preparation sketch and the presets it leaves *)

Lemma setup_loop_presets (n : nat) :
  forall i s m c,
    0 <= i -> i + Z.of_nat n <= 64 ->
    60 * m + s = 15 * (i + 1) -> 0 <= s <= 59 -> 0 <= m ->
    (forall j, i <= j < i + Z.of_nat n ->
       60 * eeprom (EepromSketch.setup_loop n i s m c) (memAdd + 2 * j)
       + eeprom (EepromSketch.setup_loop n i s m c) (memAdd + 2 * j + 1)
       = 15 * (j + 1) /\
       0 <= eeprom (EepromSketch.setup_loop n i s m c) (memAdd + 2 * j + 1)
         <= 59) /\
    (forall a, a < memAdd + 2 * i \/ memAdd + 2 * (i + Z.of_nat n) <= a ->
       eeprom (EepromSketch.setup_loop n i s m c) a = eeprom c a).
Proof.
  induction n as [|n IH]; intros i s m c Hi Hn Hs Hr Hm.
  - split; [intros j Hj; lia|]. intros a _. reflexivity.
  - cbn [EepromSketch.setup_loop]. cbv zeta.
    set (c1 := EEPROM_write (memAdd + 2 * i + 1) s
                 (EEPROM_write (memAdd + 2 * i) m c)).
    assert (E0 : eeprom c1 (memAdd + 2 * i) = m).
    { subst c1. unfold EEPROM_write. proj_ctx.
      replace (memAdd + 2 * i =? memAdd + 2 * i + 1) with false
        by (symmetry; apply Z.eqb_neq; lia).
      rewrite Z.eqb_refl. apply to_uint8_id. lia. }
    assert (E1 : eeprom c1 (memAdd + 2 * i + 1) = s).
    { subst c1. unfold EEPROM_write. proj_ctx.
      rewrite Z.eqb_refl. apply to_uint8_id. lia. }
    assert (F : forall a, a < memAdd + 2 * i \/ memAdd + 2 * (i + 1) <= a ->
                          eeprom c1 a = eeprom c a).
    { intros a Ha. subst c1. unfold EEPROM_write. proj_ctx.
      replace (a =? memAdd + 2 * i + 1) with false
        by (symmetry; apply Z.eqb_neq; lia).
      replace (a =? memAdd + 2 * i) with false
        by (symmetry; apply Z.eqb_neq; lia).
      reflexivity. }
    clearbody c1.
    rewrite (to_uint8_id (i + 1)) by lia.
    rewrite (to_uint8_id (s + 15)) by lia.
    rewrite (to_uint8_id (m + 1)) by lia.
    assert (G : exists s' m',
               (if 59 <? s + 15
                then EepromSketch.setup_loop n (i + 1) 0 (m + 1) c1
                else EepromSketch.setup_loop n (i + 1) (s + 15) m c1)
               = EepromSketch.setup_loop n (i + 1) s' m' c1 /\
               60 * m' + s' = 15 * (i + 1 + 1) /\ 0 <= s' <= 59 /\ 0 <= m').
    { destruct (Z.ltb_spec 59 (s + 15)).
      - exists 0, (m + 1). split; [reflexivity|]. lia.
      - exists (s + 15), m. split; [reflexivity|]. lia. }
    destruct G as (s' & m' & -> & Gs & Gr & Gm).
    destruct (IH (i + 1) s' m' c1 ltac:(lia) ltac:(lia) Gs Gr Gm) as [P Q].
    split.
    + intros j Hj. destruct (Z.eq_dec j i) as [->|Hne].
      * rewrite !Q by lia. rewrite E0, E1. lia.
      * apply P. lia.
    + intros a Ha. rewrite Q by lia. apply F. lia.
Qed.

Lemma setup_loop_vars (n : nat) :
  forall i s m c,
    vars_part (EepromSketch.setup_loop n i s m c) = vars_part c.
Proof.
  induction n as [|n IH]; intros i s m c; [reflexivity|].
  cbn [EepromSketch.setup_loop]. cbv zeta.
  destruct (59 <? to_uint8 (s + 15)); rewrite IH; reflexivity.
Qed.

Lemma eeprom_sketch_cases (c : ctx) :
  (EEPROM_read brightAdd c = 8 /\
   EepromSketch.setup c = set_brightness 8 c) \/
  (EEPROM_read brightAdd c <> 8 /\
   EepromSketch.setup c
   = EepromSketch.setup_loop 64 0 15 0
       (EEPROM_write bellLAdd 5
          (EEPROM_write bellTAdd 1
             (EEPROM_write brightAdd 8
                (set_brightness (EEPROM_read brightAdd c) c))))).
Proof.
  unfold EepromSketch.setup. cbv zeta.
  change (brightness (set_brightness (EEPROM_read brightAdd c) c))
    with (EEPROM_read brightAdd c).
  destruct (Z.eqb_spec (EEPROM_read brightAdd c) 8) as [E|E]; cbn [negb].
  - left. split; [exact E|]. rewrite E. reflexivity.
  - right. split; [exact E|]. reflexivity.
Qed.

Lemma eeprom_sketch_bytes (c : ctx) :
  EEPROM_read brightAdd c <> 8 ->
  eeprom (EepromSketch.setup c) brightAdd = 8 /\
  eeprom (EepromSketch.setup c) bellTAdd = 1 /\
  eeprom (EepromSketch.setup c) bellLAdd = 5 /\
  (forall j, 0 <= j < 64 ->
     60 * eeprom (EepromSketch.setup c) (memAdd + 2 * j)
     + eeprom (EepromSketch.setup c) (memAdd + 2 * j + 1) = 15 * (j + 1) /\
     0 <= eeprom (EepromSketch.setup c) (memAdd + 2 * j + 1) <= 59) /\
  (forall a, a < 0 \/ 131 <= a ->
     eeprom (EepromSketch.setup c) a = eeprom c a).
Proof.
  intros Hb. destruct (eeprom_sketch_cases c) as [[E _]|[_ ->]]; [congruence|].
  set (c0 := EEPROM_write bellLAdd 5 _).
  assert (B0 : eeprom c0 brightAdd = 8) by reflexivity.
  assert (B1 : eeprom c0 bellTAdd = 1) by reflexivity.
  assert (B2 : eeprom c0 bellLAdd = 5) by reflexivity.
  assert (B3 : forall a, a < 0 \/ 131 <= a -> eeprom c0 a = eeprom c a).
  { intros a Ha. subst c0.
    unfold EEPROM_write, brightAdd, bellTAdd, bellLAdd. proj_ctx.
    replace (a =? 2) with false by (symmetry; apply Z.eqb_neq; lia).
    replace (a =? 1) with false by (symmetry; apply Z.eqb_neq; lia).
    replace (a =? 0) with false by (symmetry; apply Z.eqb_neq; lia).
    reflexivity. }
  clearbody c0.
  destruct (setup_loop_presets 64 0 15 0 c0) as [P Q]; try lia.
  change (Z.of_nat 64) with 64 in P, Q.
  unfold memAdd in P, Q |- *. unfold brightAdd, bellTAdd, bellLAdd in *.
  split; [rewrite Q by lia; exact B0|].
  split; [rewrite Q by lia; exact B1|].
  split; [rewrite Q by lia; exact B2|].
  split; [intros j Hj; apply P; lia|].
  intros a Ha. rewrite Q by lia. apply B3. exact Ha.
Qed.

(** Run on an EEPROM whose first byte is not 8, the preparation sketch
    leaves the three default settings 8, 1 and 5 in bytes 0 to 2 and 64
    presets behind them: the pair at index j (bytes 3+2j and 4+2j, minutes
    then seconds) is the time 15*(j+1) seconds, with seconds below 60; the
    bytes from 131 on are as they were. *)
Theorem eeprom_sketch_presets (c : ctx) :
  EEPROM_read brightAdd c <> 8 ->
  eeprom (EepromSketch.setup c) brightAdd = 8 /\
  eeprom (EepromSketch.setup c) bellTAdd = 1 /\
  eeprom (EepromSketch.setup c) bellLAdd = 5 /\
  (forall j, 0 <= j < 64 ->
     60 * eeprom (EepromSketch.setup c) (memAdd + 2 * j)
     + eeprom (EepromSketch.setup c) (memAdd + 2 * j + 1) = 15 * (j + 1) /\
     0 <= eeprom (EepromSketch.setup c) (memAdd + 2 * j + 1) <= 59) /\
  (forall a, a < 0 \/ 131 <= a ->
     eeprom (EepromSketch.setup c) a = eeprom c a).
Proof. exact (eeprom_sketch_bytes c). Qed.

Lemma eeprom_sketch_presets_witness :
  let c := power_on (fun _ => 255) in
  EEPROM_read brightAdd c <> 8 /\
  eeprom (EepromSketch.setup c) (memAdd + 2 * 63) = 16 /\
  eeprom (EepromSketch.setup c) (memAdd + 2 * 63 + 1) = 0.
Proof.
  intros c.
  assert (H : EEPROM_read brightAdd c <> 8) by (vm_compute; discriminate).
  split; [exact H|].
  destruct (eeprom_sketch_presets c H) as (_ & _ & _ & P & _).
  destruct (P 63 ltac:(lia)) as [P1 P2].
  split; lia.
Defined.

(** Running the preparation sketch a second time changes no byte: after
    the first run byte 0 holds 8, which is the mark the sketch tests. *)
Theorem eeprom_sketch_rerun (c : ctx) :
  eeprom (EepromSketch.setup (EepromSketch.setup c))
  = eeprom (EepromSketch.setup c).
Proof.
  assert (M : EEPROM_read brightAdd (EepromSketch.setup c) = 8).
  { destruct (eeprom_sketch_cases c) as [[E ->]|[E _]].
    - exact E.
    - destruct (eeprom_sketch_bytes c E) as (B & _). unfold EEPROM_read.
      rewrite B. reflexivity. }
  destruct (eeprom_sketch_cases (EepromSketch.setup c)) as [[_ ->]|[E _]].
  - reflexivity.
  - congruence.
Qed.

(** The controller on a prepared EEPROM: a confirmed recall ending on slot
    m reads the preset at index m, not m-1.  For m up to 63 the recalled
    time is 15*(m+1) seconds, so the first preset (0:15, index 0) can never
    be recalled; slot 64 reads bytes 131 and 132, which the preparation
    sketch never wrote, and gets what the EEPROM held before. *)
Theorem presets_recalled (qs : list poll) (c0 c c' : ctx) :
  EEPROM_read brightAdd c0 <> 8 ->
  eeprom c = eeprom (EepromSketch.setup c0) ->
  1 <= currentMem c <= 64 ->
  confirmed qs = true -> recallTime qs c = Some c' ->
  1 <= currentMem c' <= 64 /\
  (currentMem c' <= 63 ->
   60 * minutes c' + seconds c' = 15 * (currentMem c' + 1) /\
   0 <= seconds c' <= 59) /\
  (currentMem c' = 64 ->
   minutes c' = to_int8 (EEPROM_read 131 c0) /\
   seconds c' = to_int8 (EEPROM_read 132 c0)).
Proof.
  intros Hb He Hm Hq H. unfold recallTime in H.
  destruct (recallTime_loop_mem qs (currentMem c) (emit LedClrAll c) c' Hm Hm H)
    as [R _].
  destruct (recallTime_loop_confirmed qs _ _ c' H Hq) as (A & B & _).
  unfold EEPROM_read in A, B.
  change (eeprom (emit LedClrAll c)) with (eeprom c) in A, B.
  rewrite He in A, B.
  destruct (eeprom_sketch_bytes c0 Hb) as (_ & _ & _ & P & Q).
  split; [exact R|]. split.
  - intros Hle. destruct (P (currentMem c') ltac:(lia)) as [P1 P2].
    assert (P3 : 0 <= eeprom (EepromSketch.setup c0)
                        (memAdd + 2 * currentMem c') <= 16) by lia.
    rewrite A, B.
    rewrite (to_uint8_id (eeprom _ (memAdd + 2 * currentMem c'))) by lia.
    rewrite (to_uint8_id (eeprom _ (memAdd + 2 * currentMem c' + 1))) by lia.
    rewrite !to_int8_id by lia. split; [exact P1|exact P2].
  - intros E. rewrite A, B, E. unfold memAdd.
    change (3 + 2 * 64) with 131. change (131 + 1) with 132.
    rewrite !Q by lia. unfold EEPROM_read. split; reflexivity.
Qed.

Lemma presets_recalled_witness :
  let c0 := power_on (fun _ => 255) in
  let c := started (eeprom (EepromSketch.setup c0)) in
  let qs := [turn 1; press_sw1 0] in
  EEPROM_read brightAdd c0 <> 8 /\ confirmed qs = true /\
  match recallTime qs c with
  | Some c' => currentMem c' <= 63 ->
               60 * minutes c' + seconds c' = 15 * (currentMem c' + 1)
  | None => True
  end.
Proof.
  intros c0 c qs.
  assert (Hb : EEPROM_read brightAdd c0 <> 8) by (vm_compute; discriminate).
  assert (Hq : confirmed qs = true) by reflexivity.
  assert (Hm : 1 <= currentMem c <= 64) by (vm_compute; split; discriminate).
  assert (He : eeprom c = eeprom (EepromSketch.setup c0))
    by (vm_compute; reflexivity).
  split; [exact Hb|]. split; [exact Hq|].
  destruct (recallTime qs c) as [c'|] eqn:E; [|exact I].
  intros Hle.
  destruct (presets_recalled qs c0 c c' Hb He Hm Hq E) as (_ & P & _).
  exact (proj1 (P Hle)).
Defined.

(** The controller started on a prepared EEPROM, whatever the buttons read
    at start-up, has brightness 8, alert type 1, alert length 5 seconds and
    with them five beeps. *)
Theorem prepared_start (c0 : ctx) (pinSW1 pinSW2 : bool) :
  EEPROM_read brightAdd c0 <> 8 ->
  brightness (setup pinSW1 pinSW2 (power_on (eeprom (EepromSketch.setup c0))))
  = 8 /\
  bellType (setup pinSW1 pinSW2 (power_on (eeprom (EepromSketch.setup c0))))
  = 1 /\
  bellLength (setup pinSW1 pinSW2 (power_on (eeprom (EepromSketch.setup c0))))
  = 5 /\
  bellLoops (setup pinSW1 pinSW2 (power_on (eeprom (EepromSketch.setup c0))))
  = 5.
Proof.
  intros Hb.
  destruct (eeprom_sketch_bytes c0 Hb) as (B0 & B1 & B2 & _).
  destruct (setup_vars (eeprom (EepromSketch.setup c0)) pinSW1 pinSW2)
    as (_ & _ & V0 & V1 & V2 & V3 & _).
  set (c := setup pinSW1 pinSW2 _) in *. clearbody c.
  rewrite B0 in V0. rewrite B1 in V1. rewrite B2 in V2.
  rewrite V1, V2 in V3.
  split; [exact V0|]. split; [exact V1|]. split; [exact V2|]. exact V3.
Qed.

Lemma prepared_start_witness :
  let c0 := power_on (fun _ => 255) in
  EEPROM_read brightAdd c0 <> 8 /\
  bellLoops (setup HIGH HIGH (power_on (eeprom (EepromSketch.setup c0)))) = 5.
Proof.
  intros c0.
  assert (Hb : EEPROM_read brightAdd c0 <> 8) by (vm_compute; discriminate).
  split; [exact Hb|].
  exact (proj2 (proj2 (proj2 (prepared_start c0 HIGH HIGH Hb)))).
Defined.

(** ** The countdown timer follows the state *)

Lemma setTime_countdown (v : Z) (c : ctx) :
  state (setTime v c) = state c /\ timerMain (setTime v c) = timerMain c.
Proof.
  unfold setTime, setSeconds, setMinutes.
  repeat (split_if; proj_ctx); split; reflexivity.
Qed.

Lemma setting_countdown (e : option Z) (c : ctx) :
  state (setting e c) = state c /\ timerMain (setting e c) = timerMain c.
Proof.
  unfold setting. destruct e as [step|]; proj_ctx.
  - exact (setTime_countdown (to_int8 step) c).
  - split; reflexivity.
Qed.

Lemma countdown_idle (c c' : ctx) :
  state c <> RUN -> state c <> PAUSE ->
  state c' = state c -> timerMain c' = timerMain c ->
  countdown_inv c -> countdown_inv c'.
Proof.
  intros N1 N2 Hs Ht H. unfold countdown_inv in *. rewrite Hs, Ht.
  destruct (state c); try exact H; congruence.
Qed.

Lemma manageSW1_countdown (p : poll) (c : ctx) :
  countdown_inv c -> countdown_inv (manageSW1 p c).
Proof.
  intros H. unfold manageSW1.
  destruct (state c) eqn:Hs.
  5: { destruct (isLongPressed (sw1 p)); [reflexivity|].
       destruct (justPressed (sw1 p)); [|exact H].
       destruct (setting_countdown (encoder_sw1 p) c) as [A B].
       apply (countdown_idle c); congruence. }
  4: { unfold countdown_inv in *. rewrite Hs in H. exact H. }
  all: destruct (isLongPressed (sw1 p)); [reflexivity|];
       destruct (justPressed (sw1 p)); [|exact H].
  - unfold countdown_inv, armed. cbn. repeat split.
  - unfold countdown_inv in H. rewrite Hs in H.
    destruct H as (R & D & M).
    unfold countdown_inv, armed. proj_ctx. unfold Timer.pause.
    rewrite R. cbn. repeat split; assumption.
  - unfold countdown_inv in H. rewrite Hs in H.
    destruct H as (R & D & M).
    unfold countdown_inv, armed. proj_ctx. unfold Timer.pause.
    rewrite R. cbn. repeat split; assumption.
Qed.

Lemma menuNaviguate_countdown (ms : list menu_poll) (c c' : ctx) :
  in_menu c -> menuNaviguate ms c = Some c' -> countdown_inv c'.
Proof.
  intros Hc H.
  destruct (menuNaviguate_relay ms c c' Hc H) as [A _].
  unfold menuNaviguate in H.
  destruct (menuNaviguate_loop ms c) as [c1|]; [|discriminate].
  apply some_inj in H. subst c'.
  unfold countdown_inv. rewrite A. reflexivity.
Qed.

Lemma manageSW2_countdown (p : poll) (ms : list menu_poll) (c c' : ctx) :
  countdown_inv c -> manageSW2 p ms c = Some c' -> countdown_inv c'.
Proof.
  intros H. unfold manageSW2.
  assert (Same : Some c = Some c' -> countdown_inv c').
  { intros E. apply some_inj in E. subst c'. exact H. }
  assert (Stop : Some (set_state SETTING (stop c)) = Some c' ->
                 countdown_inv c').
  { intros E. apply some_inj in E. subst c'. reflexivity. }
  destruct (state c) eqn:Hs; cbn [state_eqb orb andb].
  4: { intros E. apply some_inj in E. subst c'.
       unfold countdown_inv in *. rewrite Hs in H. exact H. }
  all: destruct (justPressed (sw2 p)), (isLongPressed (sw2 p));
       cbn [andb]; try exact Same; try exact Stop.
  all: apply menuNaviguate_countdown; left; reflexivity.
Qed.

Lemma update_running (t : Z) (x : Timer.t) :
  Timer.state x = Timer.Running -> Timer.repeatMode x = Timer.Once ->
  Timer.update t x
  = if Timer.delay x <=? Timer.elapsed t x then (true, Timer.stop x)
    else (false, x).
Proof.
  intros R M. unfold Timer.update. rewrite R, M. reflexivity.
Qed.

Lemma running_countdown (p : poll) (c : ctx) :
  state c = RUN -> countdown_inv c -> countdown_inv (running p c).
Proof.
  intros Hs H. unfold countdown_inv in H. rewrite Hs in H.
  destruct H as (R & D & M).
  unfold running.
  destruct (Timer.update (now p) (timerDots c)) as [blink td].
  destruct blink; proj_ctx; rewrite (update_running _ _ R M);
    destruct (Timer.delay (timerMain c) <=? _);
    try split_if; try reflexivity;
    unfold countdown_inv, armed; proj_ctx; rewrite Hs;
    repeat split; assumption.
Qed.

Lemma pause_countdown (p : poll) (c : ctx) :
  state c = PAUSE -> countdown_inv c -> countdown_inv (pause p c).
Proof.
  intros Hs H. unfold countdown_inv in H. rewrite Hs in H.
  destruct H as (R & D & M).
  unfold pause. rewrite (update_paused _ _ R). cbn [snd].
  match goal with
  | |- context [Timer.update (now p) ?x] =>
      destruct (Timer.update (now p) x) as [blink tp]
  end.
  destruct blink; unfold countdown_inv, armed; proj_ctx; rewrite Hs;
    repeat split; assumption.
Qed.

Lemma beeping_countdown (p : poll) (c : ctx) :
  state c = BEEPING -> countdown_inv c -> countdown_inv (beeping p c).
Proof.
  intros Hs H. unfold countdown_inv in H. rewrite Hs in H.
  unfold beeping.
  destruct (Timer.update (now p) (timerBeep1 c)) as [f1 t1].
  destruct f1; proj_ctx;
    match goal with
    | |- context [Timer.update (now p) ?x] =>
        destruct (Timer.update (now p) x) as [f2 t2]
    end;
    destruct f2; proj_ctx;
    destruct (Timer.update (now p) (timerBeep3 c)) as [f3 t3];
    destruct f3; try reflexivity;
    unfold countdown_inv; proj_ctx; rewrite Hs; exact H.
Qed.

Lemma timerMain_showVersion (n : nat) :
  forall i v c, timerMain (showVersion n i v c) = timerMain c.
Proof.
  induction n as [|n IH]; intros i v c; [reflexivity|].
  cbn [showVersion]. rewrite IH. reflexivity.
Qed.

Lemma timerMain_noeeprom (c : ctx) :
  timerMain c = timerMain (set_eeprom (fun _ => 0) c).
Proof. reflexivity. Qed.

Lemma timerMain_eepromInit (c : ctx) : timerMain (eepromInit c) = timerMain c.
Proof.
  unfold eepromInit. cbv zeta.
  rewrite (timerMain_noeeprom (eepromInit_loop _ _ _)).
  rewrite eepromInit_loop_silent. reflexivity.
Qed.

Lemma timerMain_emit (e : io) (c : ctx) : timerMain (emit e c) = timerMain c.
Proof. reflexivity. Qed.

Lemma setup_countdown (rom : Z -> Z) (pinSW1 pinSW2 : bool) :
  countdown_inv (setup pinSW1 pinSW2 (power_on rom)).
Proof.
  destruct (setup_relay rom pinSW1 pinSW2) as [S _].
  unfold countdown_inv. rewrite S. clear S.
  rewrite setup_split.
  destruct (setBeepTimers_shape (to_int8 (bellType (setup_read (power_on rom))))
              (setup_read (power_on rom))) as (t1 & t2 & t3 & ->).
  match goal with
  | |- context [setup_tail _ _ ?x] => set (c0 := x)
  end.
  assert (H0 : Timer.state (timerMain c0) = Timer.Stopped) by reflexivity.
  clearbody c0.
  unfold setup_tail. cbv zeta.
  match goal with
  | |- context [beepOff ?y] => set (c1 := beepOff y)
  end.
  assert (H1 : timerMain c1 = timerMain c0) by reflexivity.
  clearbody c1.
  destruct pinSW1, pinSW2; cbn [negb];
    rewrite !timerMain_emit, ?timerMain_eepromInit, ?timerMain_showVersion,
      H1; exact H0.
Qed.

Lemma loop_countdown (i : loop_input) (c c' : ctx) :
  countdown_inv c -> loop i c = Some c' -> countdown_inv c'.
Proof.
  intros H. unfold loop.
  set (c1 := if update (sw1 (top i)) then manageSW1 (top i) c else c).
  assert (H1 : countdown_inv c1).
  { subst c1. destruct (update (sw1 (top i))); [apply manageSW1_countdown|];
      exact H. }
  clearbody c1.
  destruct (if update (sw2 (top i)) then manageSW2 (top i) (menu_sw2 i) c1
            else Some c1) as [c2|] eqn:E2; [|discriminate].
  assert (H2 : countdown_inv c2).
  { destruct (update (sw2 (top i))).
    - exact (manageSW2_countdown _ _ _ _ H1 E2).
    - apply some_inj in E2. subst c2. exact H1. }
  destruct (state c2) eqn:Hs; intros E.
  - apply some_inj in E. subst c'.
    destruct (setting_countdown (encoder (top i)) c2) as [A B].
    apply (countdown_idle c2); congruence.
  - apply some_inj in E. subst c'. exact (running_countdown _ _ Hs H2).
  - apply some_inj in E. subst c'. exact (pause_countdown _ _ Hs H2).
  - apply some_inj in E. subst c'. exact (beeping_countdown _ _ Hs H2).
  - exact (menuNaviguate_countdown _ c2 c' (or_introl Hs) E).
Qed.

Lemma reachable_countdown_inv (c : ctx) : reachable c -> countdown_inv c.
Proof.
  induction 1 as [rom a b|c c' i _ IH E].
  - apply setup_countdown.
  - exact (loop_countdown i c c' IH E).
Qed.

(** In every state reached from [setup()] by passes of [loop()], the
    countdown timer is running in RUN, paused in PAUSE and stopped in
    SETTING, BEEPING and MENU; in RUN and PAUSE it is a one-shot timer
    whose delay is the set minutes and seconds in milliseconds. *)
Theorem countdown_follows_state (c : ctx) :
  reachable c ->
  match state c with
  | RUN => Timer.state (timerMain c) = Timer.Running /\ armed c
  | PAUSE => Timer.state (timerMain c) = Timer.Paused /\ armed c
  | _ => Timer.state (timerMain c) = Timer.Stopped
  end.
Proof. exact (reachable_countdown_inv c). Qed.

Lemma countdown_follows_state_witness :
  reachable running_ctx /\ state running_ctx = RUN /\
  Timer.state (timerMain running_ctx) = Timer.Running /\
  Timer.delay (timerMain running_ctx) = 2000.
Proof.
  assert (R : reachable running_ctx).
  { apply (reachable_run_loops
             [mkLoopInput (turn 1) [] []; mkLoopInput (turn 1) [] [];
              mkLoopInput (press_sw1 0) [] []]
             (started (fun _ => 0))).
    - exact (reach_setup (fun _ => 0) HIGH HIGH).
    - vm_compute. reflexivity. }
  assert (Hs : state running_ctx = RUN) by (vm_compute; reflexivity).
  pose proof (countdown_follows_state running_ctx R) as H.
  rewrite Hs in H.
  split; [exact R|]. split; [exact Hs|].
  split; [exact (proj1 H)|]. vm_compute. reflexivity.
Defined.

(** A pass of [loop()] in RUN with no button event ends the exposure
    exactly when the time is up: while the timer's elapsed time is below
    the set time the state stays RUN with the relay driven and the timer
    untouched; on the first pass at or past it the state leaves RUN, the
    relay is released, the timer is stopped and the set time is kept for
    the next exposure. *)
Theorem exposure_ends (i : loop_input) (c c' : ctx) :
  reachable c -> state c = RUN ->
  update (sw1 (top i)) = false -> update (sw2 (top i)) = false ->
  loop i c = Some c' ->
  (Timer.elapsed (now (top i)) (timerMain c)
     < (60 * minutes c + seconds c) * 1000 ->
   state c' = RUN /\ relay_on c' = true /\ timerMain c' = timerMain c) /\
  ((60 * minutes c + seconds c) * 1000
     <= Timer.elapsed (now (top i)) (timerMain c) ->
   state c' <> RUN /\ relay_on c' = false /\
   Timer.state (timerMain c') = Timer.Stopped /\
   minutes c' = minutes c /\ seconds c' = seconds c).
Proof.
  intros R Hs U1 U2 E.
  pose proof (reachable_relay_inv c R) as HR.
  pose proof (reachable_countdown_inv c R) as HC.
  unfold relay_inv in HR. rewrite Hs in HR. cbn [state_eqb] in HR.
  unfold countdown_inv in HC. rewrite Hs in HC.
  destruct HC as (T & D & M).
  unfold loop in E. rewrite U1, U2, Hs in E.
  apply some_inj in E. subst c'. unfold running.
  destruct (Timer.update (now (top i)) (timerDots c)) as [blink td].
  rewrite <- D.
  destruct blink; proj_ctx; rewrite (update_running _ _ T M);
    destruct (Z.leb_spec (Timer.delay (timerMain c))
                (Timer.elapsed (now (top i)) (timerMain c))) as [L|L];
    (split; [intros L'; try lia|intros L'; try lia]);
    try split_if; unfold stop, relay_on in *; proj_ctx; cbn;
    repeat split; try assumption; try discriminate; try congruence.
Qed.

Lemma exposure_ends_witness :
  let i := mkLoopInput (quiet 2000) [] [] in
  reachable running_ctx /\ state running_ctx = RUN /\
  match loop i running_ctx with
  | Some c' => state c' <> RUN /\ relay_on c' = false
  | None => True
  end.
Proof.
  intros i.
  assert (R : reachable running_ctx).
  { apply (reachable_run_loops
             [mkLoopInput (turn 1) [] []; mkLoopInput (turn 1) [] [];
              mkLoopInput (press_sw1 0) [] []]
             (started (fun _ => 0))).
    - exact (reach_setup (fun _ => 0) HIGH HIGH).
    - vm_compute. reflexivity. }
  assert (Hs : state running_ctx = RUN) by (vm_compute; reflexivity).
  assert (L : (60 * minutes running_ctx + seconds running_ctx) * 1000
              <= Timer.elapsed (now (top i)) (timerMain running_ctx))
    by (vm_compute; discriminate).
  split; [exact R|]. split; [exact Hs|].
  destruct (loop i running_ctx) as [c'|] eqn:E; [|exact I].
  destruct (exposure_ends i running_ctx c' R Hs eq_refl eq_refl E) as [_ P].
  destruct (P L) as (A & B & _). split; [exact A|exact B].
Defined.

(** ** The first sketch (2016) *)

Lemma setTime_2016_frame (v : Z) (c : Sketch2016.ctx) :
  Sketch2016.state (Sketch2016.setTime v c) = Sketch2016.state c /\
  Sketch2016.timer (Sketch2016.setTime v c) = Sketch2016.timer c /\
  Sketch2016.pin_level Sketch2016.output
    (Sketch2016.trace (Sketch2016.setTime v c))
  = Sketch2016.pin_level Sketch2016.output (Sketch2016.trace c).
Proof.
  unfold Sketch2016.setTime, Sketch2016.setSeconds, Sketch2016.setMinutes.
  repeat (split_if; proj_2016); repeat split; reflexivity.
Qed.

Lemma setting_2016_inv (e : option Z) (c : Sketch2016.ctx) :
  Sketch2016.state c = Sketch2016.SETTING ->
  inv_2016 c -> inv_2016 (Sketch2016.setting e c).
Proof.
  intros Hs H. unfold inv_2016 in *. rewrite Hs in H.
  unfold Sketch2016.setting. destruct e as [step|]; proj_2016.
  - destruct (setTime_2016_frame (to_int8 step) c) as (A & B & C).
    rewrite A, Hs, B. cbn [Sketch2016.pin_level]. rewrite C. exact H.
  - rewrite Hs. exact H.
Qed.

Lemma stop_2016_inv (c : Sketch2016.ctx) : inv_2016 (Sketch2016.stop c).
Proof. split; reflexivity. Qed.

Lemma manageButton_2016_inv (p : Sketch2016.poll) (c : Sketch2016.ctx) :
  inv_2016 c -> inv_2016 (Sketch2016.manageButton p c).
Proof.
  intros H. unfold Sketch2016.manageButton.
  destruct (isLongPressed (Sketch2016.btn p)); [apply stop_2016_inv|].
  destruct (justPressed (Sketch2016.btn p)); [|exact H].
  unfold inv_2016 in *.
  destruct (Sketch2016.state c) eqn:Hs.
  - cbn. repeat split.
  - destruct H as (P & R & D & M). proj_2016. unfold Timer.pause.
    rewrite R. cbn. rewrite D, M. repeat split.
  - destruct H as (P & R & D & M). proj_2016. unfold Timer.pause.
    rewrite R. cbn. rewrite D, M. repeat split.
Qed.

Lemma running_2016_inv (p : Sketch2016.poll) (c : Sketch2016.ctx) :
  Sketch2016.state c = Sketch2016.RUN ->
  inv_2016 c -> inv_2016 (Sketch2016.running p c).
Proof.
  intros Hs H. unfold inv_2016 in H. rewrite Hs in H.
  destruct H as (P & R & D & M).
  unfold Sketch2016.running.
  destruct (Timer.update (Sketch2016.now p) (Sketch2016.timerBlink c))
    as [blink tb].
  destruct blink; proj_2016; rewrite (update_running _ _ R M);
    destruct (Timer.delay (Sketch2016.timer c) <=? _);
    try apply stop_2016_inv;
    unfold inv_2016; proj_2016; rewrite Hs; cbn [Sketch2016.pin_level];
    repeat split; assumption.
Qed.

Lemma pause_2016_inv (p : Sketch2016.poll) (c : Sketch2016.ctx) :
  Sketch2016.state c = Sketch2016.PAUSE ->
  inv_2016 c -> inv_2016 (Sketch2016.pause p c).
Proof.
  intros Hs H. unfold inv_2016 in H. rewrite Hs in H.
  destruct H as (P & R & D & M).
  unfold Sketch2016.pause. rewrite (update_paused _ _ R). cbn [snd].
  match goal with
  | |- context [Timer.update (Sketch2016.now p) ?x] =>
      destruct (Timer.update (Sketch2016.now p) x) as [blink tb]
  end.
  destruct blink; unfold inv_2016; proj_2016; rewrite Hs;
    cbn [Sketch2016.pin_level]; repeat split; assumption.
Qed.

Lemma loop_2016_inv (p : Sketch2016.poll) (c : Sketch2016.ctx) :
  inv_2016 c -> inv_2016 (Sketch2016.loop p c).
Proof.
  intros H. unfold Sketch2016.loop. cbv zeta.
  set (c1 := if update (Sketch2016.btn p) then Sketch2016.manageButton p c
             else c).
  assert (H1 : inv_2016 c1).
  { subst c1. destruct (update (Sketch2016.btn p));
      [apply manageButton_2016_inv|]; exact H. }
  clearbody c1.
  destruct (Sketch2016.state c1) eqn:Hs.
  - exact (setting_2016_inv _ c1 Hs H1).
  - exact (running_2016_inv p c1 Hs H1).
  - exact (pause_2016_inv p c1 Hs H1).
Qed.

Lemma reachable_2016_inv (c : Sketch2016.ctx) : reachable_2016 c -> inv_2016 c.
Proof.
  induction 1 as [|c p _ IH].
  - unfold inv_2016. vm_compute. split; reflexivity.
  - exact (loop_2016_inv p c IH).
Qed.

(** First sketch: in every state reached from [setup()] by passes of
    [loop()], the output pin is high in RUN and low in SETTING and
    PAUSE. *)
Theorem output_iff_run_2016 (c : Sketch2016.ctx) :
  reachable_2016 c ->
  Sketch2016.pin_level Sketch2016.output (Sketch2016.trace c)
  = Some match Sketch2016.state c with
         | Sketch2016.RUN => HIGH
         | _ => LOW
         end.
Proof.
  intros R. pose proof (reachable_2016_inv c R) as H.
  unfold inv_2016 in H.
  destruct (Sketch2016.state c); exact (proj1 H).
Qed.

Lemma output_iff_run_2016_witness :
  let c := Sketch2016.loop
             (Sketch2016.mkPoll 0 (mkButton true false true) None)
             (Sketch2016.loop
                (Sketch2016.mkPoll 0 (mkButton false false false) (Some 1))
                (Sketch2016.setup Sketch2016.power_on)) in
  reachable_2016 c /\ Sketch2016.state c = Sketch2016.RUN /\
  Sketch2016.pin_level Sketch2016.output (Sketch2016.trace c) = Some HIGH.
Proof.
  intros c.
  assert (R : reachable_2016 c)
    by exact (reach_loop_2016 _ _ (reach_loop_2016 _ _ reach_setup_2016)).
  assert (Hs : Sketch2016.state c = Sketch2016.RUN)
    by (vm_compute; reflexivity).
  pose proof (output_iff_run_2016 c R) as H.
  rewrite Hs in H.
  split; [exact R|]. split; [exact Hs|]. exact H.
Defined.

(** First sketch: from any reachable RUN state, a pass of [loop()] with no
    button event ends the exposure exactly when the time is up: before it
    the state stays RUN with the output high; at or past it the state is
    SETTING, the output is low, the display shows the set time again and
    the set time is kept. *)
Theorem exposure_ends_2016 (p : Sketch2016.poll) (c : Sketch2016.ctx) :
  reachable_2016 c -> Sketch2016.state c = Sketch2016.RUN ->
  update (Sketch2016.btn p) = false ->
  (Timer.elapsed (Sketch2016.now p) (Sketch2016.timer c)
     < (60 * Sketch2016.minutes c + Sketch2016.seconds c) * 1000 ->
   Sketch2016.state (Sketch2016.loop p c) = Sketch2016.RUN /\
   Sketch2016.pin_level Sketch2016.output
     (Sketch2016.trace (Sketch2016.loop p c)) = Some HIGH) /\
  ((60 * Sketch2016.minutes c + Sketch2016.seconds c) * 1000
     <= Timer.elapsed (Sketch2016.now p) (Sketch2016.timer c) ->
   Sketch2016.state (Sketch2016.loop p c) = Sketch2016.SETTING /\
   Sketch2016.pin_level Sketch2016.output
     (Sketch2016.trace (Sketch2016.loop p c)) = Some LOW /\
   Sketch2016.shown_minutes (Sketch2016.trace (Sketch2016.loop p c))
   = Some (Sketch2016.minutes c) /\
   Sketch2016.shown_seconds (Sketch2016.trace (Sketch2016.loop p c))
   = Some (Sketch2016.seconds c) /\
   Sketch2016.minutes (Sketch2016.loop p c) = Sketch2016.minutes c /\
   Sketch2016.seconds (Sketch2016.loop p c) = Sketch2016.seconds c).
Proof.
  intros R Hs U.
  pose proof (reachable_2016_inv c R) as H.
  unfold inv_2016 in H. rewrite Hs in H. destruct H as (P & T & D & M).
  unfold Sketch2016.loop. cbv zeta. rewrite U, Hs.
  unfold Sketch2016.running.
  destruct (Timer.update (Sketch2016.now p) (Sketch2016.timerBlink c))
    as [blink tb].
  rewrite <- D.
  destruct blink; proj_2016; rewrite (update_running _ _ T M);
    destruct (Z.leb_spec (Timer.delay (Sketch2016.timer c))
                (Timer.elapsed (Sketch2016.now p) (Sketch2016.timer c)))
      as [L|L];
    (split; [intros L'; try lia|intros L'; try lia]);
    unfold Sketch2016.stop; proj_2016;
    cbn [Sketch2016.pin_level Sketch2016.shown_minutes
         Sketch2016.shown_seconds];
    repeat split; try assumption; reflexivity.
Qed.

Lemma exposure_ends_2016_witness :
  let c := Sketch2016.loop
             (Sketch2016.mkPoll 0 (mkButton true false true) None)
             (Sketch2016.loop
                (Sketch2016.mkPoll 0 (mkButton false false false) (Some 1))
                (Sketch2016.setup Sketch2016.power_on)) in
  let p := Sketch2016.mkPoll 1000 (mkButton false false false) None in
  reachable_2016 c /\ Sketch2016.state c = Sketch2016.RUN /\
  Sketch2016.state (Sketch2016.loop p c) = Sketch2016.SETTING /\
  Sketch2016.pin_level Sketch2016.output
    (Sketch2016.trace (Sketch2016.loop p c)) = Some LOW.
Proof.
  intros c p.
  assert (R : reachable_2016 c)
    by exact (reach_loop_2016 _ _ (reach_loop_2016 _ _ reach_setup_2016)).
  assert (Hs : Sketch2016.state c = Sketch2016.RUN)
    by (vm_compute; reflexivity).
  assert (L : (60 * Sketch2016.minutes c + Sketch2016.seconds c) * 1000
              <= Timer.elapsed (Sketch2016.now p) (Sketch2016.timer c))
    by (vm_compute; discriminate).
  split; [exact R|]. split; [exact Hs|].
  destruct (exposure_ends_2016 p c R Hs eq_refl) as [_ E].
  destruct (E L) as (A & B & _). split; [exact A|exact B].
Defined.

Lemma setSeconds_2016_effect (value : Z) (c : Sketch2016.ctx) :
  valid_time_2016 c -> -60 <= value <= 60 ->
  let s := Sketch2016.seconds c + value in
  let c' := Sketch2016.setSeconds value c in
  (0 <= s < 60 /\ Sketch2016.minutes c' = Sketch2016.minutes c /\
   Sketch2016.seconds c' = s) \/
  (60 <= s /\ Sketch2016.minutes c < 98 /\
   Sketch2016.minutes c' = Sketch2016.minutes c + 1 /\
   Sketch2016.seconds c' = s - 60) \/
  (60 <= s /\ 98 <= Sketch2016.minutes c /\
   Sketch2016.minutes c' = 99 /\ Sketch2016.seconds c' = 59) \/
  (s < 0 /\ 0 < Sketch2016.minutes c /\
   Sketch2016.minutes c' = Sketch2016.minutes c - 1 /\
   Sketch2016.seconds c' = s + 60) \/
  (s < 0 /\ Sketch2016.minutes c = 0 /\
   Sketch2016.minutes c' = 0 /\ Sketch2016.seconds c' = 0).
Proof.
  intros [Hm Hs] Hv s c'. subst s c'.
  unfold Sketch2016.setSeconds, Sketch2016.setMinutes. proj_2016.
  rewrite (to_int8_id (Sketch2016.seconds c + value)) by lia.
  rewrite (to_int8_id (Sketch2016.minutes c + 1)) by lia.
  rewrite (to_int8_id (Sketch2016.minutes c + -1)) by lia.
  assert (R : 60 <= Sketch2016.seconds c + value ->
              to_int8 (Z.rem (Sketch2016.seconds c + value) 60)
              = Sketch2016.seconds c + value - 60).
  { intros H. rewrite Z.rem_mod_nonneg by lia.
    assert (E : (Sketch2016.seconds c + value) mod 60
                = Sketch2016.seconds c + value - 60).
    { symmetry. apply (Z.mod_unique _ 60 1); lia. }
    rewrite E. apply to_int8_id. lia. }
  repeat (split_if; proj_2016); try lia.
  all: rewrite ?R by lia;
       rewrite ?(to_int8_id (Sketch2016.seconds c + value + 60)) by lia;
       replace (Sketch2016.minutes c + -1) with (Sketch2016.minutes c - 1)
         by lia.
  all: first
    [ left; solve [repeat split; first [lia | reflexivity]]
    | right; left; solve [repeat split; first [lia | reflexivity]]
    | right; right; left; solve [repeat split; first [lia | reflexivity]]
    | right; right; right; left;
      solve [repeat split; first [lia | reflexivity]]
    | right; right; right; right;
      solve [repeat split; first [lia | reflexivity]] ].
Qed.

Lemma setTime_2016_fields (v : Z) (c : Sketch2016.ctx) :
  let c1 := Sketch2016.setSeconds
              (to_int8 (v * multiplier_2016 (Sketch2016.duration c))) c in
  Sketch2016.minutes (Sketch2016.setTime v c) = Sketch2016.minutes c1 /\
  Sketch2016.seconds (Sketch2016.setTime v c) = Sketch2016.seconds c1 /\
  Sketch2016.duration (Sketch2016.setTime v c)
  = to_int16 (60 * Sketch2016.minutes c1 + Sketch2016.seconds c1).
Proof.
  unfold Sketch2016.setTime, multiplier_2016.
  repeat split_if; rewrite ?Z.mul_1_r; repeat split; reflexivity.
Qed.

(** First sketch: an encoder step of at most four detents on a valid time
    (minutes 0..99, seconds 0..59) gives a valid time again and moves it by
    step x multiplier seconds (x15 from five minutes, x5 from two minutes):
    downwards it stops at 00:00, upwards the move is exact while the result
    stays below 99:00; the cached duration is the new total. *)
Theorem setTime_2016_total (v : Z) (c : Sketch2016.ctx) :
  valid_time_2016 c -> -4 <= v <= 4 ->
  let k := v * multiplier_2016 (Sketch2016.duration c) in
  let c' := Sketch2016.setTime v c in
  valid_time_2016 c' /\
  Sketch2016.duration c' = total_2016 c' /\
  (v <= 0 -> total_2016 c' = Z.max 0 (total_2016 c + k)) /\
  (0 <= v -> total_2016 c + k < 5940 -> total_2016 c' = total_2016 c + k).
Proof.
  intros Hc Hv k c'. subst k c'.
  assert (Hk : -60 <= v * multiplier_2016 (Sketch2016.duration c) <= 60 /\
               (0 <= v -> 0 <= v * multiplier_2016 (Sketch2016.duration c)) /\
               (v <= 0 -> v * multiplier_2016 (Sketch2016.duration c) <= 0))
    by (unfold multiplier_2016; repeat split_if; lia).
  destruct Hk as (Hr & Hp & Hn).
  destruct (setTime_2016_fields v c) as (Em & Es & Ed).
  cbv zeta in *.
  rewrite (to_int8_id (v * multiplier_2016 (Sketch2016.duration c))) in *
    by lia.
  pose proof (setSeconds_2016_effect
                (v * multiplier_2016 (Sketch2016.duration c)) c Hc Hr) as H.
  cbv zeta in H. unfold total_2016, valid_time_2016. rewrite Ed, Em, Es.
  destruct Hc as [Hm Hs].
  destruct H as [H|[H|[H|[H|H]]]];
    decompose [and] H; clear H;
    repeat match goal with
           | E : _ (Sketch2016.setSeconds _ _) = _ |- _ => rewrite E
           end;
    (split; [lia|]); (split; [apply to_int16_id; lia|]);
    split; intros; lia.
Qed.

Lemma setTime_2016_total_witness :
  let c := Sketch2016.set_duration 300
             (Sketch2016.set_minutes 5
                (Sketch2016.setup Sketch2016.power_on)) in
  valid_time_2016 c /\ -4 <= 4 <= 4 /\
  valid_time_2016 (Sketch2016.setTime 4 c) /\
  total_2016 (Sketch2016.setTime 4 c) = 360.
Proof.
  intros c.
  assert (V : valid_time_2016 c) by (vm_compute; intuition discriminate).
  assert (R : -4 <= 4 <= 4) by lia.
  split; [exact V|]. split; [exact R|].
  destruct (setTime_2016_total 4 c V R) as (A & _ & _ & B).
  split; [exact A|]. vm_compute. reflexivity.
Defined.

(** ** The buzzer is silent outside BEEPING *)

Lemma beep_EEPROM_update (a v : Z) (c : ctx) :
  beep_is_on (trace (EEPROM_update a v c)) = beep_is_on (trace c).
Proof.
  exact (f_equal (fun x => beep_is_on (trace x))
           (EEPROM_update_noeeprom a v c)).
Qed.

Lemma beep_setBeepTimers (type : Z) (c : ctx) :
  beep_is_on (trace (setBeepTimers type c)) = beep_is_on (trace c).
Proof.
  destruct (setBeepTimers_shape type c) as (t1 & t2 & t3 & ->). reflexivity.
Qed.

Lemma storeTime_loop_beep (ps : list poll) :
  forall mem c c',
    storeTime_loop mem ps c = Some c' ->
    beep_is_on (trace c') = beep_is_on (trace c).
Proof.
  induction ps as [|p ps IH]; intros mem c c'; [discriminate|].
  cbn [storeTime_loop]. cbv zeta.
  destruct (justPressed (sw1 p)); [|destruct (justPressed (sw2 p))]; intros H.
  - apply some_inj in H. subst c'. rewrite !beep_EEPROM_update.
    reflexivity.
  - apply some_inj in H. subst c'. reflexivity.
  - rewrite (IH _ _ c' H). reflexivity.
Qed.

Lemma recallTime_loop_beep (ps : list poll) :
  forall mem c c',
    recallTime_loop mem ps c = Some c' ->
    beep_is_on (trace c') = beep_is_on (trace c).
Proof.
  induction ps as [|p ps IH]; intros mem c c'; [discriminate|].
  cbn [recallTime_loop]. cbv zeta.
  destruct (justPressed (sw1 p)); [|destruct (justPressed (sw2 p))]; intros H.
  - apply some_inj in H. subst c'. reflexivity.
  - apply some_inj in H. subst c'. reflexivity.
  - rewrite (IH _ _ c' H). reflexivity.
Qed.

Lemma setBrightness_loop_beep (ps : list poll) :
  forall temp c c',
    setBrightness_loop temp ps c = Some c' ->
    beep_is_on (trace c') = beep_is_on (trace c).
Proof.
  induction ps as [|p ps IH]; intros temp c c'; [discriminate|].
  cbn [setBrightness_loop]. cbv zeta.
  destruct (justPressed (sw1 p)); [|destruct (justPressed (sw2 p))]; intros H.
  - apply some_inj in H. subst c'. rewrite beep_EEPROM_update.
    reflexivity.
  - apply some_inj in H. subst c'. reflexivity.
  - rewrite (IH _ _ c' H). reflexivity.
Qed.

Lemma setBellType_loop_beep (ps : list poll) :
  forall type c c',
    setBellType_loop type ps c = Some c' ->
    beep_is_on (trace c') = beep_is_on (trace c).
Proof.
  induction ps as [|p ps IH]; intros type c c'; [discriminate|].
  cbn [setBellType_loop]. cbv zeta.
  destruct (justPressed (sw1 p)); [|destruct (justPressed (sw2 p))]; intros H.
  - apply some_inj in H. subst c'.
    rewrite beep_setBeepTimers, beep_EEPROM_update.
    destruct (encoder p); reflexivity.
  - apply some_inj in H. subst c'. destruct (encoder p); reflexivity.
  - rewrite (IH _ _ c' H). destruct (encoder p); reflexivity.
Qed.

Lemma setBellLength_loop_beep (ps : list poll) :
  forall len c c',
    setBellLength_loop len ps c = Some c' ->
    beep_is_on (trace c') = beep_is_on (trace c).
Proof.
  induction ps as [|p ps IH]; intros len c c'; [discriminate|].
  cbn [setBellLength_loop]. cbv zeta.
  destruct (justPressed (sw1 p)); [|destruct (justPressed (sw2 p))]; intros H.
  - apply some_inj in H. subst c'.
    rewrite beep_setBeepTimers, beep_EEPROM_update.
    destruct (encoder p); reflexivity.
  - apply some_inj in H. subst c'. destruct (encoder p); reflexivity.
  - rewrite (IH _ _ c' H). destruct (encoder p); reflexivity.
Qed.

Lemma menuItem_beep (clicked : bool) (ps : list poll) (c c' : ctx) :
  menuItem clicked ps c = Some c' ->
    beep_is_on (trace c') = beep_is_on (trace c).
Proof.
  intros H. unfold menuItem in H.
  repeat match type of H with
         | context [match ?x with _ => _ end] => destruct x
         end.
  all: first
    [ apply some_inj in H; subst c'; reflexivity
    | exact (recallTime_loop_beep ps _ _ c' H)
    | exact (storeTime_loop_beep ps _ _ c' H)
    | unfold setBrightness in H;
      destruct (setBrightness_loop _ _ _) as [c0|] eqn:E; [|discriminate];
      apply some_inj in H; subst c';
      exact (setBrightness_loop_beep ps _ _ c0 E)
    | exact (setBellType_loop_beep ps _ _ c' H)
    | exact (setBellLength_loop_beep ps _ _ c' H) ].
Qed.

Lemma menuNaviguate_loop_beep (ms : list menu_poll) :
  forall c c', menuNaviguate_loop ms c = Some c' ->
    beep_is_on (trace c') = beep_is_on (trace c).
Proof.
  induction ms as [|m ms IH]; intros c c' H; [discriminate|].
  cbn [menuNaviguate_loop] in H. cbv zeta in H.
  match type of H with
  | context [menuItem ?k ?ps ?d] => set (d0 := d) in H
  end.
  assert (Hd : beep_is_on (trace d0) = beep_is_on (trace c)).
  { subst d0.
    destruct (update (sw2 (pass m)) && justPressed (sw2 (pass m)));
      destruct (encoder (pass m));
      repeat match goal with
             | |- context [if ?b then _ else _] => destruct b
             end; reflexivity. }
  clearbody d0.
  destruct (menuItem _ (editor m) d0) as [c1|] eqn:E; [|discriminate].
  pose proof (menuItem_beep _ _ d0 c1 E) as H1.
  destruct (state c1).
  5: { rewrite (IH c1 c' H), H1. exact Hd. }
  all: apply some_inj in H; subst c'; rewrite H1; exact Hd.
Qed.

Lemma setTime_beep (v : Z) (c : ctx) :
  beep_is_on (trace (setTime v c)) = beep_is_on (trace c).
Proof.
  unfold setTime, setSeconds, setMinutes.
  repeat (split_if; proj_ctx); reflexivity.
Qed.

Lemma setting_beep (e : option Z) (c : ctx) :
  state (setting e c) = state c /\
  beep_is_on (trace (setting e c)) = beep_is_on (trace c).
Proof.
  split; [exact (proj1 (setting_same e c))|].
  unfold setting. destruct e as [step|]; proj_ctx; cbn [beep_is_on].
  - apply setTime_beep.
  - reflexivity.
Qed.

Lemma buzzer_same (c c' : ctx) :
  state c' = state c -> beep_is_on (trace c') = beep_is_on (trace c) ->
  buzzer_inv c -> buzzer_inv c'.
Proof.
  intros Hs Hb H. unfold buzzer_inv in *. rewrite Hs, Hb. exact H.
Qed.

Lemma manageSW1_buzzer (p : poll) (c : ctx) :
  buzzer_inv c -> buzzer_inv (manageSW1 p c).
Proof.
  intros H. unfold manageSW1.
  destruct (state c) eqn:Hs.
  4: { intros _. reflexivity. }
  all: assert (Hq : beep_is_on (trace c) = false)
         by (apply H; rewrite Hs; discriminate).
  all: destruct (isLongPressed (sw1 p)); [intros _; exact Hq|].
  all: destruct (justPressed (sw1 p)); [|exact H].
  1-3: intros _; exact Hq.
  destruct (setting_beep (encoder_sw1 p) c) as [A B].
  exact (buzzer_same c _ A B H).
Qed.

Lemma menuNaviguate_buzzer (ms : list menu_poll) (c c' : ctx) :
  beep_is_on (trace c) = false -> menuNaviguate ms c = Some c' ->
  buzzer_inv c'.
Proof.
  intros Hq H. unfold menuNaviguate in H.
  destruct (menuNaviguate_loop ms c) as [c1|] eqn:E; [|discriminate].
  apply some_inj in H. subst c'. intros _.
  pose proof (menuNaviguate_loop_beep ms c c1 E) as B.
  unfold stop. proj_ctx. cbn [beep_is_on]. rewrite B. exact Hq.
Qed.

Lemma manageSW2_buzzer (p : poll) (ms : list menu_poll) (c c' : ctx) :
  buzzer_inv c -> manageSW2 p ms c = Some c' -> buzzer_inv c'.
Proof.
  intros H. unfold manageSW2.
  destruct (state c) eqn:Hs; cbn [state_eqb orb andb].
  4: { intros E. apply some_inj in E. subst c'. intros _. reflexivity. }
  all: assert (Hq : beep_is_on (trace c) = false)
         by (apply H; rewrite Hs; discriminate).
  all: assert (Same : Some c = Some c' -> buzzer_inv c')
         by (intros E; apply some_inj in E; subst c'; exact H).
  all: assert (Stop : Some (set_state SETTING (stop c)) = Some c' ->
                      buzzer_inv c')
         by (intros E; apply some_inj in E; subst c'; intros _; exact Hq).
  all: destruct (justPressed (sw2 p)), (isLongPressed (sw2 p));
       cbn [andb]; try exact Same; try exact Stop.
  all: apply menuNaviguate_buzzer; exact Hq.
Qed.

Lemma running_buzzer (p : poll) (c : ctx) :
  state c = RUN -> buzzer_inv c -> buzzer_inv (running p c).
Proof.
  intros Hs H.
  assert (Hq : beep_is_on (trace c) = false)
    by (apply H; rewrite Hs; discriminate).
  unfold running.
  destruct (Timer.update (now p) (timerDots c)) as [blink td].
  destruct blink; proj_ctx;
    destruct (Timer.update (now p) (timerMain c)) as [e tm];
    destruct e; try split_if; unfold buzzer_inv, stop; proj_ctx;
    cbn [beep_is_on]; intros N; first [exact Hq | congruence].
Qed.

Lemma pause_buzzer (p : poll) (c : ctx) :
  buzzer_inv c -> buzzer_inv (pause p c).
Proof.
  intros H. unfold pause.
  destruct (Timer.update (now p) (timerPause _)) as [blink tp].
  destruct blink; exact H.
Qed.

Lemma beeping_buzzer (p : poll) (c : ctx) :
  state c = BEEPING -> buzzer_inv (beeping p c).
Proof.
  intros Hs. unfold beeping.
  destruct (Timer.update (now p) (timerBeep1 c)) as [f1 t1].
  destruct f1; proj_ctx;
    match goal with
    | |- context [Timer.update (now p) ?x] =>
        destruct (Timer.update (now p) x) as [f2 t2]
    end;
    destruct f2; proj_ctx;
    destruct (Timer.update (now p) (timerBeep3 c)) as [f3 t3];
    destruct f3; unfold buzzer_inv, stop; proj_ctx; intros N;
    first [reflexivity | congruence].
Qed.

Lemma setup_buzzer (rom : Z -> Z) (pinSW1 pinSW2 : bool) :
  buzzer_inv (setup pinSW1 pinSW2 (power_on rom)).
Proof.
  intros _. rewrite setup_split.
  set (c0 := setBeepTimers _ _). clearbody c0.
  unfold setup_tail. cbv zeta.
  match goal with
  | |- context [beepOff ?y] => set (c1 := beepOff y)
  end.
  assert (H1 : beep_is_on (trace c1) = false) by reflexivity.
  clearbody c1.
  assert (V : forall n i v c,
             beep_is_on (trace (showVersion n i v c)) = beep_is_on (trace c)).
  { induction n as [|n IH]; intros i v c; [reflexivity|].
    cbn [showVersion]. rewrite IH. reflexivity. }
  destruct pinSW1, pinSW2; cbn [negb];
    rewrite !trace_emit; cbn [beep_is_on];
    rewrite ?trace_eepromInit, ?V; exact H1.
Qed.

Lemma loop_buzzer (i : loop_input) (c c' : ctx) :
  buzzer_inv c -> loop i c = Some c' -> buzzer_inv c'.
Proof.
  intros H. unfold loop.
  set (c1 := if update (sw1 (top i)) then manageSW1 (top i) c else c).
  assert (H1 : buzzer_inv c1).
  { subst c1. destruct (update (sw1 (top i))); [apply manageSW1_buzzer|];
      exact H. }
  clearbody c1.
  destruct (if update (sw2 (top i)) then manageSW2 (top i) (menu_sw2 i) c1
            else Some c1) as [c2|] eqn:E2; [|discriminate].
  assert (H2 : buzzer_inv c2).
  { destruct (update (sw2 (top i))).
    - exact (manageSW2_buzzer _ _ _ _ H1 E2).
    - apply some_inj in E2. subst c2. exact H1. }
  destruct (state c2) eqn:Hs; intros E.
  - apply some_inj in E. subst c'.
    destruct (setting_beep (encoder (top i)) c2) as [A B].
    exact (buzzer_same c2 _ A B H2).
  - apply some_inj in E. subst c'. exact (running_buzzer _ _ Hs H2).
  - apply some_inj in E. subst c'. exact (pause_buzzer _ _ H2).
  - apply some_inj in E. subst c'. exact (beeping_buzzer _ _ Hs).
  - apply (menuNaviguate_buzzer (menu_dispatch i) c2 c'); [|exact E].
    apply H2. rewrite Hs. discriminate.
Qed.

(** In every state reached from [setup()] by passes of [loop()] the buzzer
    is off unless the controller is in BEEPING: every way out of BEEPING
    (end of the alert, either switch) switches it off, and nothing else
    switches it on. *)
Theorem buzzer_only_beeping (c : ctx) :
  reachable c -> state c <> BEEPING -> beep_is_on (trace c) = false.
Proof.
  induction 1 as [rom a b|c c' i _ IH E].
  - apply setup_buzzer.
  - exact (loop_buzzer i c c' IH E).
Qed.

Lemma buzzer_only_beeping_witness :
  reachable running_ctx /\ state running_ctx <> BEEPING /\
  beep_is_on (trace running_ctx) = false.
Proof.
  assert (R : reachable running_ctx).
  { apply (reachable_run_loops
             [mkLoopInput (turn 1) [] []; mkLoopInput (turn 1) [] [];
              mkLoopInput (press_sw1 0) [] []]
             (started (fun _ => 0))).
    - exact (reach_setup (fun _ => 0) HIGH HIGH).
    - vm_compute. reflexivity. }
  assert (N : state running_ctx <> BEEPING) by (vm_compute; discriminate).
  split; [exact R|]. split; [exact N|].
  exact (buzzer_only_beeping running_ctx R N).
Defined.

(** ** The step is scaled by the current total (C6) *)

Lemma time_showVersion (n : nat) :
  forall i v c, time_part (showVersion n i v c) = time_part c.
Proof.
  induction n as [|n IH]; intros i v c; [reflexivity|].
  cbn [showVersion]. rewrite IH. reflexivity.
Qed.

Lemma time_noeeprom (c : ctx) :
  time_part c = time_part (set_eeprom (fun _ => 0) c).
Proof. reflexivity. Qed.

Lemma time_eepromInit (c : ctx) : time_part (eepromInit c) = time_part c.
Proof.
  unfold eepromInit. cbv zeta.
  rewrite (time_noeeprom (eepromInit_loop _ _ _)).
  rewrite eepromInit_loop_silent. reflexivity.
Qed.

Lemma time_emit (e : io) (c : ctx) : time_part (emit e c) = time_part c.
Proof. reflexivity. Qed.

(** [setup()] leaves 00:00 with a cached duration of 0. *)
Lemma setup_time (rom : Z -> Z) (pinSW1 pinSW2 : bool) :
  time_part (setup pinSW1 pinSW2 (power_on rom)) = (0, 0, 0).
Proof.
  rewrite setup_split.
  destruct (setBeepTimers_shape (to_int8 (bellType (setup_read (power_on rom))))
              (setup_read (power_on rom))) as (t1 & t2 & t3 & ->).
  match goal with
  | |- context [setup_tail _ _ ?x] => set (c0 := x)
  end.
  assert (H0 : time_part c0 = (0, 0, 0)) by reflexivity.
  clearbody c0.
  unfold setup_tail. cbv zeta.
  match goal with
  | |- context [beepOff ?y] => set (c1 := beepOff y)
  end.
  assert (H1 : time_part c1 = time_part c0) by reflexivity.
  clearbody c1.
  destruct pinSW1, pinSW2; cbn [negb];
    rewrite !time_emit, ?time_eepromInit, ?time_showVersion, H1; exact H0.
Qed.

(** A scaled step of at most 60 seconds on a valid time: the effect on the
    total. *)
Lemma setTime_scaled (v : Z) (c : ctx) :
  valid_time c -> -60 <= v * multiplier (duration c) <= 60 ->
  valid_time (setTime v c) /\
  duration (setTime v c) = total (setTime v c) /\
  (0 <= total c + v * multiplier (duration c) < 5940 ->
   total (setTime v c) = total c + v * multiplier (duration c)) /\
  (total c + v * multiplier (duration c) < 0 -> total (setTime v c) = 0).
Proof.
  intros Hc Hr.
  destruct (setTime_fields v c) as (Em & Es & _ & Ed).
  cbv zeta in *.
  rewrite (to_int8_id (v * multiplier (duration c))) in * by lia.
  pose proof (setSeconds_effect (v * multiplier (duration c)) c Hc Hr) as H.
  cbv zeta in H. unfold total, valid_time. rewrite Ed, Em, Es.
  destruct Hc as [Hm Hs].
  destruct H as [H|[H|[H|[H|H]]]];
    decompose [and] H; clear H;
    repeat match goal with E : _ (setSeconds _ _) = _ |- _ => rewrite E end;
    (split; [lia|]); (split; [apply to_int16_id; lia|]);
    split; intros; lia.
Qed.

Lemma setTime_2016_scaled (v : Z) (c : Sketch2016.ctx) :
  valid_time_2016 c ->
  -60 <= v * multiplier_2016 (Sketch2016.duration c) <= 60 ->
  valid_time_2016 (Sketch2016.setTime v c) /\
  Sketch2016.duration (Sketch2016.setTime v c)
  = total_2016 (Sketch2016.setTime v c) /\
  (0 <= total_2016 c + v * multiplier_2016 (Sketch2016.duration c) < 5940 ->
   total_2016 (Sketch2016.setTime v c)
   = total_2016 c + v * multiplier_2016 (Sketch2016.duration c)) /\
  (total_2016 c + v * multiplier_2016 (Sketch2016.duration c) < 0 ->
   total_2016 (Sketch2016.setTime v c) = 0).
Proof.
  intros Hc Hr.
  destruct (setTime_2016_fields v c) as (Em & Es & Ed).
  cbv zeta in *.
  rewrite (to_int8_id (v * multiplier_2016 (Sketch2016.duration c))) in *
    by lia.
  pose proof (setSeconds_2016_effect
                (v * multiplier_2016 (Sketch2016.duration c)) c Hc Hr) as H.
  cbv zeta in H. unfold total_2016, valid_time_2016. rewrite Ed, Em, Es.
  destruct Hc as [Hm Hs].
  destruct H as [H|[H|[H|[H|H]]]];
    decompose [and] H; clear H;
    repeat match goal with
           | E : _ (Sketch2016.setSeconds _ _) = _ |- _ => rewrite E
           end;
    (split; [lia|]); (split; [apply to_int16_id; lia|]);
    split; intros; lia.
Qed.

(** C6 (counterexample).  The multiplier does not follow the current total
    in every Setting state of the controller, and the first sketch has
    another table.  With 10:00 stored in slot 1 and recalled from the
    menu, the controller is in SETTING at a total of 600 s, for which the
    table gives 30, and the next step of +1 leads to 601 s.  In the first
    sketch, thirty steps of +1 from start-up lead to 30 s, for which the
    table gives 5, and the next step of +1 leads to 31 s. *)
Lemma setTime_multiplier_fails :
  let rom := fun a => if a =? memAdd + 2 * 1 then 10 else 0 in
  let recall := mkLoopInput (press_sw2 0)
                  [mkMenuPoll (press_sw1 0) [press_sw1 0]] [] in
  let step := mkLoopInput (turn 1) [] [] in
  let old := fold_left (fun c v => Sketch2016.setTime v c) (repeat 1 30)
               (Sketch2016.setup Sketch2016.power_on) in
  (exists c1 c2,
     loop recall (started rom) = Some c1 /\ loop step c1 = Some c2 /\
     state c1 = SETTING /\ total c1 = 600 /\ multiplier (total c1) = 30 /\
     total c2 = 601 /\
     total c2 <> total c1 + 1 * multiplier (total c1)) /\
  (Sketch2016.state old = Sketch2016.SETTING /\
   total_2016 old = 30 /\ Sketch2016.duration old = 30 /\
   multiplier (total_2016 old) = 5 /\
   total_2016 (Sketch2016.setting (Some 1) old) = 31 /\
   total_2016 (Sketch2016.setting (Some 1) old)
   <> total_2016 old + 1 * multiplier (total_2016 old)).
Proof.
  split.
  - eexists. eexists.
    split; [vm_compute; reflexivity|].
    split; [vm_compute; reflexivity|].
    vm_compute. repeat split. discriminate.
  - vm_compute. repeat split. discriminate.
Qed.

(** C6 (amended).  Start-up leaves a valid time whose cached duration is
    its total.  On a valid time whose cached duration is its total, an
    encoder step is scaled by the multiplier that the current total
    selects (controller: 30 from 600 s, 15 from 300 s, 10 from 120 s, 5
    from 30 s, else 1; first sketch: 15 from 300 s, 5 from 120 s, else 1):
    for a scaled step of at most 60 seconds the time is valid again, the
    cache is the new total, and the new total is the old one plus step x
    multiplier while that stays in 00:00..98:59, and 00:00 when it is
    negative. *)
Theorem setTime_multiplier :
  (forall rom pinSW1 pinSW2,
     valid_time (setup pinSW1 pinSW2 (power_on rom)) /\
     duration (setup pinSW1 pinSW2 (power_on rom))
     = total (setup pinSW1 pinSW2 (power_on rom))) /\
  (forall v c,
     valid_time c -> duration c = total c ->
     exists m,
       ((600 <= total c /\ m = 30) \/
        (300 <= total c < 600 /\ m = 15) \/
        (120 <= total c < 300 /\ m = 10) \/
        (30 <= total c < 120 /\ m = 5) \/
        (total c < 30 /\ m = 1)) /\
       (-60 <= v * m <= 60 ->
        valid_time (setTime v c) /\
        duration (setTime v c) = total (setTime v c) /\
        (0 <= total c + v * m < 5940 ->
         total (setTime v c) = total c + v * m) /\
        (total c + v * m < 0 -> total (setTime v c) = 0))) /\
  (forall v c,
     valid_time_2016 c -> Sketch2016.duration c = total_2016 c ->
     exists m,
       ((300 <= total_2016 c /\ m = 15) \/
        (120 <= total_2016 c < 300 /\ m = 5) \/
        (total_2016 c < 120 /\ m = 1)) /\
       (-60 <= v * m <= 60 ->
        valid_time_2016 (Sketch2016.setTime v c) /\
        Sketch2016.duration (Sketch2016.setTime v c)
        = total_2016 (Sketch2016.setTime v c) /\
        (0 <= total_2016 c + v * m < 5940 ->
         total_2016 (Sketch2016.setTime v c) = total_2016 c + v * m) /\
        (total_2016 c + v * m < 0 ->
         total_2016 (Sketch2016.setTime v c) = 0))).
Proof.
  split; [|split].
  - intros rom a b. pose proof (setup_time rom a b) as H.
    set (c := setup a b (power_on rom)) in *. clearbody c.
    unfold time_part in H. injection H as Hm Hs Hd.
    unfold valid_time, total. rewrite Hm, Hs, Hd. lia.
  - intros v c Hc Hd. exists (multiplier (duration c)). split.
    + rewrite Hd. unfold multiplier. repeat split_if; lia.
    + intros Hr. exact (setTime_scaled v c Hc Hr).
  - intros v c Hc Hd. exists (multiplier_2016 (Sketch2016.duration c)). split.
    + rewrite Hd. unfold multiplier_2016. repeat split_if; lia.
    + intros Hr. exact (setTime_2016_scaled v c Hc Hr).
Qed.

Lemma setTime_multiplier_witness :
  let c := setTime_seq (repeat 1 86) (started (fun _ => 0)) in
  valid_time c /\ duration c = total c /\ total c = 600 /\
  total (setTime 2 c) = 660.
Proof.
  intros c.
  assert (V : valid_time c) by (vm_compute; intuition discriminate).
  assert (D : duration c = total c) by (vm_compute; reflexivity).
  assert (T : total c = 600) by (vm_compute; reflexivity).
  split; [exact V|]. split; [exact D|]. split; [exact T|].
  destruct (proj1 (proj2 setTime_multiplier) 2 c V D) as (m & Hm & E).
  assert (M : m = 30) by lia.
  subst m.
  destruct (E ltac:(lia)) as (_ & _ & X & _).
  rewrite X by lia. lia.
Defined.
